(** * LLGL render systems: staging transfers of the Vulkan and Direct3D 11 backends

    A shallow embedding of [VKRenderSystem.cpp] and [D3D11RenderSystem.cpp].
    Each member function becomes a computation in a small state-and-exception
    monad.  The classes the two files drive (the Vulkan device wrapper, the
    device buffers, the device memory manager, the D3D11 texture) are declared
    elsewhere in the project: every call on them is kept as one event of a
    trace, in program order, and the free helper functions and flag constants
    the files use are gathered in the class [Externals].  Native calls are
    taken to succeed; the exceptions that are modelled are the ones the two
    files raise through argument validation.

    The modules after the two render systems cover the functions around the
    transfers: the choice of a multisampling descriptor and the creation of
    the Direct3D 11 device with its extended interfaces, reading buffers and
    textures back and releasing textures in Vulkan, and the layers,
    extensions and debug reports of the Vulkan instance.  There the answers
    of the native calls that the code branches on are parameters. *)

From Stdlib Require Import ZArith List Bool Lia.
From Stdlib Require String Ascii.
From stdpp Require Import base gmap list.
Import ListNotations.
Local Open Scope Z_scope.

(** ** Machine integers *)

(** [std::uint32_t] / [UINT]: arithmetic modulo 2^32. *)
Definition uint32 (z : Z) : Z := z mod 2 ^ 32.

(** [LONG] / [std::int32_t]: two's complement on 32 bits. *)
Definition int32 (z : Z) : Z := (z + 2 ^ 31) mod 2 ^ 32 - 2 ^ 31.

(** [std::numeric_limits<VkDeviceSize>::max()] *)
Definition UINT64_MAX : Z := 2 ^ 64 - 1.

(** ** Descriptors of the public interface *)

(** Enumerators are kept by their integer codes. *)
Definition Format := Z.
Definition ImageFormat := Z.
Definition DataType := Z.
Definition VkFormat := Z.

(** A host byte buffer, and a [const void*] into host memory: [None] is
    [nullptr], [Some bs] points at the bytes [bs]. *)
Definition ByteBuffer := list Z.
Definition HostPtr := option ByteBuffer.

(** [p == nullptr], for pointers and for optional arguments passed by pointer. *)
Definition is_null {A} (p : option A) : bool :=
  match p with
  | None => true
  | Some _ => false
  end.

(** Pointer arithmetic on a host pointer: [p + n] bytes. *)
Definition ptr_add (p : HostPtr) (n : Z) : HostPtr :=
  match p with
  | None => None
  | Some bs => Some (drop (Z.to_nat n) bs)
  end.

Record Extent3D := { width : Z; height : Z; depth : Z }.
Record Offset3D := { ox : Z; oy : Z; oz : Z }.

Record TextureSubresource := {
  baseArrayLayer : Z;
  numArrayLayers : Z;
  baseMipLevel : Z;
  numMipLevels : Z
}.

Record TextureRegion := {
  subresource : TextureSubresource;
  offset : Offset3D;
  extent : Extent3D
}.

(** The four components of a colour; [Cast<double>] widens each component
    exactly, so the same record stands for [ColorRGBAf] and [ColorRGBAd]. *)
Record ColorRGBA := { red : Z; green : Z; blue : Z; alpha : Z }.

Inductive TextureType :=
| Texture1D | Texture2D | Texture3D | TextureCube
| Texture1DArray | Texture2DArray | TextureCubeArray
| Texture2DMS | Texture2DMSArray.

Record SrcImageDescriptor := {
  img_format : ImageFormat;
  img_dataType : DataType;
  img_data : HostPtr;
  img_dataSize : Z
}.

Record TextureDescriptor := {
  tex_type : TextureType;
  tex_miscFlags : Z;
  tex_format : Format;
  tex_extent : Extent3D;
  tex_arrayLayers : Z;
  tex_mipLevels : Z;
  tex_clearColor : ColorRGBA
}.

Record BufferDescriptor := {
  buf_size : Z;
  buf_bindFlags : Z;
  buf_cpuAccessFlags : Z;
  buf_miscFlags : Z
}.

Record FormatAttributes := {
  bitSize : Z;
  attr_format : ImageFormat;
  attr_dataType : DataType;
  attr_flags : Z
}.

(** ** Helpers and constants declared outside the two files *)

(** The flag constants ([MiscFlags], [CPUAccessFlags], [FormatFlags]) and the
    free functions of [RenderSystem], [TextureUtils], [ImageFlags] and
    [Format] that the render systems call.  The two validation functions
    answer [true] when they return normally and [false] when they throw.
    The last three fields are the getters [GetNumArrayLayers],
    [GetNumMipLevels] and [GetVkExtent] of the [VKTexture] made from a
    descriptor. *)
Class Externals := {
  MiscFlags_DynamicUsage : Z;
  MiscFlags_NoInitialData : Z;
  CPUAccessFlags_Write : Z;
  FormatFlags_IsCompressed : Z;
  AssertCreateBuffer : BufferDescriptor -> Z -> bool;
  AssertImageDataSize : Z -> Z -> bool;
  GetFormatAttribs : Format -> FormatAttributes;
  GetMemoryFootprint : Format -> Z -> Z;
  GetMemoryFootprintOf : ImageFormat -> DataType -> Z -> Z;
  ImageFormatSize : ImageFormat -> Z;
  DataTypeSize : DataType -> Z;
  NumMipTexels : TextureDescriptor -> Z -> Z;
  MustGenerateMipsOnCreate : TextureDescriptor -> bool;
  IsDepthStencilFormat : Format -> bool;
  ConvertImageBuffer : SrcImageDescriptor -> ImageFormat -> DataType -> option ByteBuffer;
  GenerateImageBuffer : ImageFormat -> DataType -> Z -> ColorRGBA -> ByteBuffer;
  AllocateByteBuffer : Z -> ByteBuffer;
  VKTypes_Map : Format -> VkFormat;
  VKTypes_Unmap : VkFormat -> Format;
  NumTextureLayers : TextureDescriptor -> Z;
  NumTextureMipLevels : TextureDescriptor -> Z;
  TextureVkExtent : TextureDescriptor -> Extent3D
}.

(** ** Outcomes and the state-and-exception monad *)

Inductive Exception :=
| ExCreateBufferAssertion
| ExImageDataSizeMismatch
| ExInvalidArgument.

(** A call returns a value, leaves by an exception, or has no defined
    behaviour; the state travels with the first two. *)
Inductive Outcome (S A : Type) :=
| Returned (a : A) (s : S)
| Thrown (e : Exception) (s : S)
| UndefinedBehaviour.

Arguments Returned {S A} a s.
Arguments Thrown {S A} e s.
Arguments UndefinedBehaviour {S A}.

Definition M (S A : Type) : Type := S -> Outcome S A.

Definition ret {S A} (a : A) : M S A := fun s => Returned a s.

Definition bind {S A B} (m : M S A) (k : A -> M S B) : M S B :=
  fun s =>
    match m s with
    | Returned a s' => k a s'
    | Thrown e s' => Thrown e s'
    | UndefinedBehaviour => UndefinedBehaviour
    end.

Definition throw {S A} (e : Exception) : M S A := fun s => Thrown e s.

Definition undefined {S A} : M S A := fun _ => UndefinedBehaviour.

Definition gets {S A} (f : S -> A) : M S A := fun s => Returned (f s) s.

Definition modify {S} (f : S -> S) : M S unit := fun s => Returned tt (f s).

(** [try { m } catch (...) { h; throw; }]: what stack unwinding runs. *)
Definition on_unwind {S A} (m : M S A) (h : S -> S) : M S A :=
  fun s =>
    match m s with
    | Thrown e s' => Thrown e (h s')
    | r => r
    end.

Definition when {S} (b : bool) (m : M S unit) : M S unit :=
  if b then m else ret tt.

Declare Scope render_scope.
Delimit Scope render_scope with render.
Notation "x <- c1 ;; c2" := (bind c1 (fun x => c2))
  (at level 100, c1 at next level, right associativity) : render_scope.
Notation "c1 ;;; c2" := (bind c1 (fun _ => c2))
  (at level 100, right associativity) : render_scope.
Local Open Scope render_scope.

(** [for_range(i, n) { acc = body(i, acc) }]: the counted loop, with the
    local variables the body assigns carried in [acc]; the counter starts at
    [from]. *)
Fixpoint for_range_from {S A} (n : nat) (from : Z) (acc : A)
    (body : Z -> A -> M S A) : M S A :=
  match n with
  | O => ret acc
  | S n' => acc' <- body from acc ;; for_range_from n' (from + 1) acc' body
  end.

Definition for_range {S A} (n : Z) (acc : A) (body : Z -> A -> M S A) : M S A :=
  for_range_from (Z.to_nat n) 0 acc body.

(** ** The Vulkan render system ([VKRenderSystem.cpp]) *)

Module VK.

Definition Handle := positive.

(** A [VkBuffer]: [None] is [VK_NULL_HANDLE]. *)
Definition VkBuffer := option Handle.

(** Bit values of [vulkan_core.h]. *)
Definition VK_BUFFER_USAGE_TRANSFER_SRC_BIT : Z := 1.
Definition VK_BUFFER_USAGE_TRANSFER_DST_BIT : Z := 2.
Definition VK_MEMORY_PROPERTY_DEVICE_LOCAL_BIT : Z := 1.
Definition VK_MEMORY_PROPERTY_HOST_VISIBLE_BIT : Z := 2.
Definition VK_MEMORY_PROPERTY_HOST_COHERENT_BIT : Z := 4.

Inductive VkImageLayout :=
| VK_IMAGE_LAYOUT_UNDEFINED
| VK_IMAGE_LAYOUT_TRANSFER_SRC_OPTIMAL
| VK_IMAGE_LAYOUT_TRANSFER_DST_OPTIMAL
| VK_IMAGE_LAYOUT_SHADER_READ_ONLY_OPTIMAL.

Record VkBufferCreateInfo := { ci_size : Z; ci_usage : Z }.

Definition BuildVkBufferCreateInfo (size usage : Z) : VkBufferCreateInfo :=
  {| ci_size := size; ci_usage := usage |}.

Record ApplicationDescriptor := {
  applicationName : list Z;
  applicationVersion : Z;
  engineName : list Z;
  engineVersion : Z
}.

Record RendererConfigurationVulkan := {
  application : ApplicationDescriptor;
  enabledLayers : list (list Z);
  minDeviceMemoryAllocationSize : Z;
  reduceDeviceMemoryFragmentation : bool
}.

(** A device buffer: the native buffer and the region it leases. *)
Record VKDeviceBuffer := {
  vkBuffer : VkBuffer;
  memoryRegion : option Handle
}.

Definition nullDeviceBuffer : VKDeviceBuffer :=
  {| vkBuffer := None; memoryRegion := None |}.

(** A buffer resource: its primary device buffer and its staging buffer
    (the null device buffer unless one was taken over). *)
Record VKBuffer := {
  bufferObj : VKDeviceBuffer;
  bufferObjStaging : VKDeviceBuffer
}.

Definition GetVkBuffer (b : VKBuffer) : VkBuffer := vkBuffer (bufferObj b).
Definition GetStagingVkBuffer (b : VKBuffer) : VkBuffer := vkBuffer (bufferObjStaging b).
Definition GetStagingDeviceBuffer (b : VKBuffer) : VKDeviceBuffer := bufferObjStaging b.

Record VKTexture := {
  vt_image : Handle;
  vt_format : VkFormat;
  vt_numArrayLayers : Z;
  vt_numMipLevels : Z;
  vt_extent : Extent3D;
  vt_memoryRegion : Handle
}.

(** What is recorded into a command buffer. *)
Inductive Command :=
| CmdTransitionImageLayout (image : Handle) (format : VkFormat)
    (oldLayout newLayout : VkImageLayout) (subres : TextureSubresource)
| CmdCopyBufferToImage (buffer : VkBuffer) (image : Handle) (format : VkFormat)
    (dstOffset : Offset3D) (dstExtent : Extent3D) (subres : TextureSubresource)
| CmdGenerateMips (image : Handle) (format : VkFormat) (imgExtent : Extent3D)
    (subres : TextureSubresource).

(** A command buffer between [AllocCommandBuffer] and [FlushCommandBuffer]:
    the commands recorded so far, oldest first. *)
Definition CommandBuffer := list Command.

(** The calls made on the device, the device buffers and the memory manager.
    An offset that the call leaves to the callee's default argument is [None]. *)
Inductive Event :=
| EvCreateInstance (config : option RendererConfigurationVulkan)
| EvPickPhysicalDevice
| EvCreateLogicalDevice
| EvCreateDefaultPipelineLayout
| EvMakeDeviceMemoryManager (minAllocationSize : Z) (reduceFragmentation : bool)
| EvCreateDeviceBuffer (buffer : Handle) (createInfo : VkBufferCreateInfo)
| EvAllocate (region : Handle) (memoryProperties : Z)
| EvBindMemoryRegion (buffer : Handle) (region : Handle)
| EvRelease (region : Handle)
| EvWriteBuffer (buffer : VkBuffer) (data : HostPtr) (size : Z) (dstOffset : option Z)
| EvCopyBuffer (src dst : VkBuffer) (size : Z) (offsets : option (Z * Z))
| EvCreateBufferObject (buffer : Handle) (desc : BufferDescriptor)
| EvCreateTextureObject (image region : Handle) (desc : TextureDescriptor)
| EvAllocCommandBuffer
| EvFlushCommandBuffer (commands : CommandBuffer)
| EvCreateInternalImageView (image : Handle).

(** The device memory manager as the render system sees it: the two values it
    is constructed with, and the regions currently leased. *)
Record VKDeviceMemoryManager := {
  minAllocationSize : Z;
  reduceFragmentation : bool;
  regions : gset Handle
}.

Record VKRenderSystem := {
  deviceMemoryMngr_ : VKDeviceMemoryManager;
  buffers_ : gmap Handle VKBuffer;
  textures_ : gmap Handle VKTexture;
  nextHandle : Handle;
  trace : list Event
}.

Definition set_regions (f : gset Handle -> gset Handle) (s : VKRenderSystem) : VKRenderSystem :=
  {| deviceMemoryMngr_ :=
       {| minAllocationSize := minAllocationSize (deviceMemoryMngr_ s);
          reduceFragmentation := reduceFragmentation (deviceMemoryMngr_ s);
          regions := f (regions (deviceMemoryMngr_ s)) |};
     buffers_ := buffers_ s;
     textures_ := textures_ s;
     nextHandle := nextHandle s;
     trace := trace s |}.

Definition set_buffers (f : gmap Handle VKBuffer -> gmap Handle VKBuffer)
    (s : VKRenderSystem) : VKRenderSystem :=
  {| deviceMemoryMngr_ := deviceMemoryMngr_ s;
     buffers_ := f (buffers_ s);
     textures_ := textures_ s;
     nextHandle := nextHandle s;
     trace := trace s |}.

Definition set_textures (f : gmap Handle VKTexture -> gmap Handle VKTexture)
    (s : VKRenderSystem) : VKRenderSystem :=
  {| deviceMemoryMngr_ := deviceMemoryMngr_ s;
     buffers_ := buffers_ s;
     textures_ := f (textures_ s);
     nextHandle := nextHandle s;
     trace := trace s |}.

Definition emit (e : Event) : M VKRenderSystem unit :=
  modify (fun s =>
    {| deviceMemoryMngr_ := deviceMemoryMngr_ s;
       buffers_ := buffers_ s;
       textures_ := textures_ s;
       nextHandle := nextHandle s;
       trace := trace s ++ [e] |}).

(** A native handle not handed out before. *)
Definition fresh : M VKRenderSystem Handle :=
  fun s =>
    Returned (nextHandle s)
      {| deviceMemoryMngr_ := deviceMemoryMngr_ s;
         buffers_ := buffers_ s;
         textures_ := textures_ s;
         nextHandle := Pos.succ (nextHandle s);
         trace := trace s |}.

Section RenderSystem.
Context {E : Externals}.

(** [VKRenderSystem::VKRenderSystem]; the argument is what
    [GetRendererConfiguration<RendererConfigurationVulkan>] found in the
    render-system descriptor. *)
Definition construct (rendererConfigVK : option RendererConfigurationVulkan) : VKRenderSystem :=
  let minAlloc :=
    match rendererConfigVK with
    | Some cfg => minDeviceMemoryAllocationSize cfg
    | None => 1024 * 1024
    end in
  let reduceFrag :=
    match rendererConfigVK with
    | Some cfg => reduceDeviceMemoryFragmentation cfg
    | None => false
    end in
  {| deviceMemoryMngr_ :=
       {| minAllocationSize := minAlloc;
          reduceFragmentation := reduceFrag;
          regions := ∅ |};
     buffers_ := ∅;
     textures_ := ∅;
     nextHandle := 1%positive;
     trace := [ EvCreateInstance rendererConfigVK;
                EvPickPhysicalDevice;
                EvCreateLogicalDevice;
                EvCreateDefaultPipelineLayout;
                EvMakeDeviceMemoryManager minAlloc reduceFrag ] |}.

Definition GetStagingVkBufferUsageFlags (cpuAccessFlags : Z) : Z :=
  if negb (Z.land cpuAccessFlags CPUAccessFlags_Write =? 0)
  then Z.lor VK_BUFFER_USAGE_TRANSFER_SRC_BIT VK_BUFFER_USAGE_TRANSFER_DST_BIT
  else VK_BUFFER_USAGE_TRANSFER_SRC_BIT.

(** [deviceMemoryMngr_->Allocate(requirements, memoryProperties)]. *)
Definition Allocate (memoryProperties : Z) : M VKRenderSystem Handle :=
  r <- fresh ;;
  modify (set_regions (fun live => {[ r ]} ∪ live)) ;;;
  emit (EvAllocate r memoryProperties) ;;;
  ret r.

(** [deviceMemoryMngr_->Release(region)]. *)
Definition Release (r : Handle) : M VKRenderSystem unit :=
  modify (set_regions (fun live => live ∖ {[ r ]})) ;;;
  emit (EvRelease r).

(** Modelled from the spec: the four-argument [VKDeviceBuffer] constructor is
    declared outside the file; following "allocates a native buffer sized
    [size] from host-visible+coherent memory via the Memory Manager", it
    creates the native buffer, leases a region with the given memory
    properties and binds it. *)
Definition MakeDeviceBuffer (createInfo : VkBufferCreateInfo) (memoryProperties : Z)
    : M VKRenderSystem VKDeviceBuffer :=
  b <- fresh ;;
  emit (EvCreateDeviceBuffer b createInfo) ;;;
  r <- Allocate memoryProperties ;;
  emit (EvBindMemoryRegion b r) ;;;
  ret {| vkBuffer := Some b; memoryRegion := Some r |}.

(** Modelled from the spec: [VKDeviceBuffer::ReleaseMemoryRegion] is declared
    outside the file; the region goes back to the manager ("released back to
    its chunk") and the buffer no longer holds one. *)
Definition ReleaseMemoryRegion (b : VKDeviceBuffer) : M VKRenderSystem VKDeviceBuffer :=
  match memoryRegion b with
  | Some r => Release r ;;; ret {| vkBuffer := vkBuffer b; memoryRegion := None |}
  | None => ret b
  end.

Definition CreateStagingBuffer (createInfo : VkBufferCreateInfo) : M VKRenderSystem VKDeviceBuffer :=
  MakeDeviceBuffer createInfo
    (Z.lor VK_MEMORY_PROPERTY_HOST_VISIBLE_BIT VK_MEMORY_PROPERTY_HOST_COHERENT_BIT).

Definition CreateStagingBufferAndInitialize (createInfo : VkBufferCreateInfo)
    (data : HostPtr) (dataSize : Z) : M VKRenderSystem VKDeviceBuffer :=
  stagingBuffer <- CreateStagingBuffer createInfo ;;
  when (negb (is_null data) && (0 <? dataSize))
       (emit (EvWriteBuffer (vkBuffer stagingBuffer) data dataSize None)) ;;;
  ret stagingBuffer.

(** The decision of [CreateBuffer] between keeping and releasing the staging
    buffer. *)
Definition keepsStagingBuffer (bufferDesc : BufferDescriptor) : bool :=
  negb (buf_cpuAccessFlags bufferDesc =? 0)
  || negb (Z.land (buf_miscFlags bufferDesc) MiscFlags_DynamicUsage =? 0).

Definition CreateBuffer (bufferDesc : BufferDescriptor) (initialData : HostPtr)
    : M VKRenderSystem Handle :=
  if negb (AssertCreateBuffer bufferDesc UINT64_MAX) then throw ExCreateBufferAssertion else
  let stagingCreateInfo :=
    BuildVkBufferCreateInfo (buf_size bufferDesc)
      (GetStagingVkBufferUsageFlags (buf_cpuAccessFlags bufferDesc)) in
  stagingBuffer <- CreateStagingBufferAndInitialize stagingCreateInfo initialData (buf_size bufferDesc) ;;
  (* Create primary buffer object *)
  buffer <- fresh ;;
  emit (EvCreateBufferObject buffer bufferDesc) ;;;
  modify (set_buffers (fun m =>
    <[ buffer := {| bufferObj := {| vkBuffer := Some buffer; memoryRegion := None |};
                    bufferObjStaging := nullDeviceBuffer |} ]> m)) ;;;
  (* Allocate device memory *)
  region <- Allocate VK_MEMORY_PROPERTY_DEVICE_LOCAL_BIT ;;
  emit (EvBindMemoryRegion buffer region) ;;;
  modify (set_buffers (fun m =>
    <[ buffer := {| bufferObj := {| vkBuffer := Some buffer; memoryRegion := Some region |};
                    bufferObjStaging := nullDeviceBuffer |} ]> m)) ;;;
  (* Copy staging buffer into hardware buffer *)
  emit (EvCopyBuffer (vkBuffer stagingBuffer) (Some buffer) (buf_size bufferDesc) None) ;;;
  (if keepsStagingBuffer bufferDesc
   then
     (* Store ownership of staging buffer *)
     modify (set_buffers (fun m =>
       <[ buffer := {| bufferObj := {| vkBuffer := Some buffer; memoryRegion := Some region |};
                       bufferObjStaging := stagingBuffer |} ]> m))
   else
     (* Release staging buffer *)
     _ <- ReleaseMemoryRegion stagingBuffer ;; ret tt) ;;;
  ret buffer.

(** [Release(Buffer&)]. *)
Definition ReleaseBuffer (buffer : Handle) : M VKRenderSystem unit :=
  b <- gets (fun s => buffers_ s !! buffer) ;;
  match b with
  | None => undefined
  | Some bufferVK =>
      _ <- ReleaseMemoryRegion (bufferObj bufferVK) ;;
      _ <- ReleaseMemoryRegion (bufferObjStaging bufferVK) ;;
      modify (set_buffers (fun m => delete buffer m))
  end.

Definition WriteBuffer (bufferVK : VKBuffer) (offset : Z) (data : HostPtr) (dataSize : Z)
    : M VKRenderSystem unit :=
  if negb (is_null (GetStagingVkBuffer bufferVK))
  then
    (* Copy input data to staging buffer memory *)
    emit (EvWriteBuffer (vkBuffer (GetStagingDeviceBuffer bufferVK)) data dataSize (Some offset)) ;;;
    (* Copy staging buffer into hardware buffer *)
    emit (EvCopyBuffer (GetStagingVkBuffer bufferVK) (GetVkBuffer bufferVK) dataSize
            (Some (offset, offset)))
  else
    (* Create staging buffer *)
    let stagingCreateInfo :=
      BuildVkBufferCreateInfo dataSize
        (Z.lor VK_BUFFER_USAGE_TRANSFER_SRC_BIT VK_BUFFER_USAGE_TRANSFER_DST_BIT) in
    stagingBuffer <- CreateStagingBufferAndInitialize stagingCreateInfo data dataSize ;;
    (* Copy staging buffer into hardware buffer *)
    emit (EvCopyBuffer (vkBuffer stagingBuffer) (GetVkBuffer bufferVK) dataSize
            (Some (0, offset))) ;;;
    (* Release device memory region of staging buffer *)
    _ <- ReleaseMemoryRegion stagingBuffer ;; ret tt.

(** Modelled from the spec: the [VKTexture] constructor is declared outside
    the file; a texture "owns exactly one primary Memory Region
    (device-local)", which the constructor leases from the manager it is
    given.  The getters of the new object answer through [Externals]. *)
Definition MakeTexture (textureDesc : TextureDescriptor) : M VKRenderSystem VKTexture :=
  image <- fresh ;;
  region <- fresh ;;
  modify (set_regions (fun live => {[ region ]} ∪ live)) ;;;
  emit (EvCreateTextureObject image region textureDesc) ;;;
  ret {| vt_image := image;
         vt_format := VKTypes_Map (tex_format textureDesc);
         vt_numArrayLayers := NumTextureLayers textureDesc;
         vt_numMipLevels := NumTextureMipLevels textureDesc;
         vt_extent := TextureVkExtent textureDesc;
         vt_memoryRegion := region |}.

(** [device_.AllocCommandBuffer()]: a command buffer with nothing recorded. *)
Definition AllocCommandBuffer : M VKRenderSystem CommandBuffer :=
  emit EvAllocCommandBuffer ;;; ret [].

(** [device_.FlushCommandBuffer(cmdBuffer)]: submit and wait. *)
Definition FlushCommandBuffer (cmdBuffer : CommandBuffer) : M VKRenderSystem unit :=
  emit (EvFlushCommandBuffer cmdBuffer).

(** A recording call of the device ([TransitionImageLayout],
    [CopyBufferToImage], [GenerateMips]) on the command buffer. *)
Definition record (cmdBuffer : CommandBuffer) (c : Command) : CommandBuffer :=
  cmdBuffer ++ [c].

Definition CreateTexture (textureDesc : TextureDescriptor) (imageDesc : option SrcImageDescriptor)
    : M VKRenderSystem Handle :=
  (* Determine size of image for staging buffer *)
  let imageSize := NumMipTexels textureDesc 0 in
  let initialDataSize := GetMemoryFootprint (tex_format textureDesc) imageSize in
  (* Set up initial image data *)
  initialData <-
    match imageDesc with
    | Some imageDesc =>
        (* Check if image data must be converted *)
        let formatAttribs := GetFormatAttribs (tex_format textureDesc) in
        let intermediateData :=
          if (0 <? bitSize formatAttribs)
             && (Z.land (attr_flags formatAttribs) FormatFlags_IsCompressed =? 0)
          then
            (* Convert image format (will be null if no conversion is necessary) *)
            ConvertImageBuffer imageDesc (attr_format formatAttribs) (attr_dataType formatAttribs)
          else None in
        match intermediateData with
        | Some intermediateData =>
            (* Validate that source image data was large enough so conversion is valid,
               then use temporary image buffer as source for initial data *)
            let srcImageDataSize :=
              uint32 (imageSize * ImageFormatSize (img_format imageDesc)
                                * DataTypeSize (img_dataType imageDesc)) in
            if AssertImageDataSize (img_dataSize imageDesc) srcImageDataSize
            then ret (Some intermediateData)
            else throw ExImageDataSizeMismatch
        | None =>
            (* Validate that image data is large enough,
               then use input data as source for initial data *)
            if AssertImageDataSize (img_dataSize imageDesc) initialDataSize
            then ret (img_data imageDesc)
            else throw ExImageDataSizeMismatch
        end
    | None =>
        if Z.land (tex_miscFlags textureDesc) MiscFlags_NoInitialData =? 0
        then
          (* Allocate default image data *)
          let formatAttribs := GetFormatAttribs (tex_format textureDesc) in
          if (0 <? bitSize formatAttribs)
             && (Z.land (attr_flags formatAttribs) FormatFlags_IsCompressed =? 0)
          then
            ret (Some (GenerateImageBuffer (attr_format formatAttribs)
                         (attr_dataType formatAttribs) imageSize (tex_clearColor textureDesc)))
          else ret (Some (AllocateByteBuffer initialDataSize))
        else ret None
    end ;;
  (* Create staging buffer *)
  let stagingCreateInfo :=
    BuildVkBufferCreateInfo initialDataSize VK_BUFFER_USAGE_TRANSFER_SRC_BIT in
  stagingBuffer <- CreateStagingBufferAndInitialize stagingCreateInfo initialData initialDataSize ;;
  (* Create device texture *)
  textureVK <- MakeTexture textureDesc ;;
  (* Copy staging buffer into hardware texture, then transfer image into sampling-ready state *)
  cmdBuffer <- AllocCommandBuffer ;;
  let subres :=
    {| baseArrayLayer := 0; numArrayLayers := vt_numArrayLayers textureVK;
       baseMipLevel := 0; numMipLevels := vt_numMipLevels textureVK |} in
  let cmdBuffer := record cmdBuffer
    (CmdTransitionImageLayout (vt_image textureVK) (vt_format textureVK)
       VK_IMAGE_LAYOUT_UNDEFINED VK_IMAGE_LAYOUT_TRANSFER_DST_OPTIMAL subres) in
  let cmdBuffer := record cmdBuffer
    (CmdCopyBufferToImage (vkBuffer stagingBuffer) (vt_image textureVK) (vt_format textureVK)
       {| ox := 0; oy := 0; oz := 0 |} (vt_extent textureVK) subres) in
  let cmdBuffer := record cmdBuffer
    (CmdTransitionImageLayout (vt_image textureVK) (vt_format textureVK)
       VK_IMAGE_LAYOUT_TRANSFER_DST_OPTIMAL VK_IMAGE_LAYOUT_SHADER_READ_ONLY_OPTIMAL subres) in
  (* Generate MIP-maps if enabled *)
  let cmdBuffer :=
    if negb (is_null imageDesc) && MustGenerateMipsOnCreate textureDesc
    then record cmdBuffer
           (CmdGenerateMips (vt_image textureVK) (vt_format textureVK) (vt_extent textureVK) subres)
    else cmdBuffer in
  FlushCommandBuffer cmdBuffer ;;;
  (* Release staging buffer *)
  _ <- ReleaseMemoryRegion stagingBuffer ;;
  (* Create image view for texture *)
  emit (EvCreateInternalImageView (vt_image textureVK)) ;;;
  modify (set_textures (fun m => <[ vt_image textureVK := textureVK ]> m)) ;;;
  ret (vt_image textureVK).

Definition WriteTexture (textureVK : VKTexture) (textureRegion : TextureRegion)
    (imageDesc : SrcImageDescriptor) : M VKRenderSystem unit :=
  (* Determine size of image for staging buffer *)
  let offset := offset textureRegion in
  let extent := extent textureRegion in
  let subres := subresource textureRegion in
  let format := VKTypes_Unmap (vt_format textureVK) in
  let image := vt_image textureVK in
  let imageSize := uint32 (width extent * height extent * depth extent) in
  let imageDataSize := GetMemoryFootprint format imageSize in
  (* Check if image data must be converted *)
  let formatAttribs := GetFormatAttribs format in
  let intermediateData :=
    if (0 <? bitSize formatAttribs)
       && (Z.land (attr_flags formatAttribs) FormatFlags_IsCompressed =? 0)
    then
      (* Convert image format (will be null if no conversion is necessary) *)
      ConvertImageBuffer imageDesc (attr_format formatAttribs) (attr_dataType formatAttribs)
    else None in
  imageData <-
    match intermediateData with
    | Some intermediateData =>
        (* Validate that source image data was large enough so conversion is valid,
           then use temporary image buffer as source for initial data *)
        let srcImageDataSize :=
          uint32 (imageSize * ImageFormatSize (img_format imageDesc)
                            * DataTypeSize (img_dataType imageDesc)) in
        if AssertImageDataSize (img_dataSize imageDesc) srcImageDataSize
        then ret (Some intermediateData)
        else throw ExImageDataSizeMismatch
    | None =>
        (* Validate that image data is large enough,
           then use input data as source for initial data *)
        if AssertImageDataSize (img_dataSize imageDesc) imageDataSize
        then ret (img_data imageDesc)
        else throw ExImageDataSizeMismatch
    end ;;
  (* Create staging buffer *)
  let stagingCreateInfo :=
    BuildVkBufferCreateInfo imageDataSize VK_BUFFER_USAGE_TRANSFER_SRC_BIT in
  stagingBuffer <- CreateStagingBufferAndInitialize stagingCreateInfo imageData imageDataSize ;;
  (* Copy staging buffer into hardware texture, then transfer image into sampling-ready state *)
  cmdBuffer <- AllocCommandBuffer ;;
  let cmdBuffer := record cmdBuffer
    (CmdTransitionImageLayout image (vt_format textureVK)
       VK_IMAGE_LAYOUT_UNDEFINED VK_IMAGE_LAYOUT_TRANSFER_DST_OPTIMAL subres) in
  let cmdBuffer := record cmdBuffer
    (CmdCopyBufferToImage (vkBuffer stagingBuffer) image (vt_format textureVK)
       {| ox := ox offset; oy := oy offset; oz := oz offset |}
       {| width := width extent; height := height extent; depth := depth extent |} subres) in
  let cmdBuffer := record cmdBuffer
    (CmdTransitionImageLayout image (vt_format textureVK)
       VK_IMAGE_LAYOUT_TRANSFER_DST_OPTIMAL VK_IMAGE_LAYOUT_SHADER_READ_ONLY_OPTIMAL subres) in
  FlushCommandBuffer cmdBuffer ;;;
  (* Release staging buffer *)
  _ <- ReleaseMemoryRegion stagingBuffer ;; ret tt.

(** *** Sequences of calls *)

(** The calls of the interface modelled above, with buffers and textures
    named by the handles under which the render system keeps them. *)
Inductive Call :=
| CallCreateBuffer (bufferDesc : BufferDescriptor) (initialData : HostPtr)
| CallWriteBuffer (buffer : Handle) (offset : Z) (data : HostPtr) (dataSize : Z)
| CallReleaseBuffer (buffer : Handle)
| CallCreateTexture (textureDesc : TextureDescriptor) (imageDesc : option SrcImageDescriptor)
| CallWriteTexture (texture : Handle) (textureRegion : TextureRegion)
    (imageDesc : SrcImageDescriptor).

(** A call on a handle the render system does not keep is a call on a
    dangling reference. *)
Definition perform (c : Call) : M VKRenderSystem unit :=
  match c with
  | CallCreateBuffer bufferDesc initialData =>
      _ <- CreateBuffer bufferDesc initialData ;; ret tt
  | CallWriteBuffer buffer offset data dataSize =>
      b <- gets (fun s => buffers_ s !! buffer) ;;
      match b with
      | Some bufferVK => WriteBuffer bufferVK offset data dataSize
      | None => undefined
      end
  | CallReleaseBuffer buffer => ReleaseBuffer buffer
  | CallCreateTexture textureDesc imageDesc =>
      _ <- CreateTexture textureDesc imageDesc ;; ret tt
  | CallWriteTexture texture textureRegion imageDesc =>
      t <- gets (fun s => textures_ s !! texture) ;;
      match t with
      | Some textureVK => WriteTexture textureVK textureRegion imageDesc
      | None => undefined
      end
  end.

(** The state a call leaves behind, whether it returned or threw. *)
Definition stateAfter {A} (o : Outcome VKRenderSystem A) : option VKRenderSystem :=
  match o with
  | Returned _ s => Some s
  | Thrown _ s => Some s
  | UndefinedBehaviour => None
  end.

Fixpoint performAll (cs : list Call) (st : VKRenderSystem) : option VKRenderSystem :=
  match cs with
  | [] => Some st
  | c :: cs' =>
      match stateAfter (perform c st) with
      | Some st' => performAll cs' st'
      | None => None
      end
  end.

(** The regions a buffer resource holds. *)
Definition bufferRegions (b : VKBuffer) : list Handle :=
  option_list (memoryRegion (bufferObj b)) ++ option_list (memoryRegion (bufferObjStaging b)).

(** What holds of every render system reached by calls: the regions leased
    and the buffers registered were handed out before, every region a
    registered buffer holds is leased, and no region is held by two
    buffers. *)
Record WellFormed (st : VKRenderSystem) : Prop := {
  wf_regions : forall r : Handle,
    r ∈ regions (deviceMemoryMngr_ st) -> (r < nextHandle st)%positive;
  wf_buffers : forall (h : Handle) (b : VKBuffer),
    buffers_ st !! h = Some b -> (h < nextHandle st)%positive;
  wf_leased : forall (h : Handle) (b : VKBuffer) (r : Handle),
    buffers_ st !! h = Some b -> r ∈ bufferRegions b ->
    r ∈ regions (deviceMemoryMngr_ st);
  wf_owner : forall (h1 h2 : Handle) (b1 b2 : VKBuffer) (r : Handle),
    buffers_ st !! h1 = Some b1 -> buffers_ st !! h2 = Some b2 ->
    r ∈ bufferRegions b1 -> r ∈ bufferRegions b2 -> h1 = h2
}.

(** The effect on the manager of a call that only leases fresh regions and
    releases regions it leased itself. *)
Record Extends (st st' : VKRenderSystem) : Prop := {
  ext_next : (nextHandle st <= nextHandle st')%positive;
  ext_old : forall r : Handle, (r < nextHandle st)%positive ->
    (r ∈ regions (deviceMemoryMngr_ st') <-> r ∈ regions (deviceMemoryMngr_ st));
  ext_new : forall r : Handle, r ∈ regions (deviceMemoryMngr_ st') ->
    r ∈ regions (deviceMemoryMngr_ st)
    \/ (nextHandle st <= r /\ r < nextHandle st')%positive
}.

(** *** Vocabulary of the statements below *)

(** The condition under which the two texture functions convert image data
    and [CreateTexture] generates a default image:
    [formatAttribs.bitSize > 0 && (formatAttribs.flags & FormatFlags::IsCompressed) == 0]. *)
Definition isUncompressedFormat (formatAttribs : FormatAttributes) : bool :=
  (0 <? bitSize formatAttribs)
  && (Z.land (attr_flags formatAttribs) FormatFlags_IsCompressed =? 0).

(** The size of the source image in its own format,
    [imageSize * ImageFormatSize(format) * DataTypeSize(dataType)] on
    [std::uint32_t]. *)
Definition srcImageDataSize (imageSize : Z) (imageDesc : SrcImageDescriptor) : Z :=
  uint32 (imageSize * ImageFormatSize (img_format imageDesc)
                    * DataTypeSize (img_dataType imageDesc)).

(** The intermediate buffer of the conversion step, null when the format
    takes no conversion or [ConvertImageBuffer] finds none necessary. *)
Definition convertedImage (formatAttribs : FormatAttributes) (imageDesc : SrcImageDescriptor)
    : option ByteBuffer :=
  if isUncompressedFormat formatAttribs
  then ConvertImageBuffer imageDesc (attr_format formatAttribs) (attr_dataType formatAttribs)
  else None.

(** The size the caller's [dataSize] is checked against: the size of the
    source image in its own format when the image was converted, the memory
    footprint in the texture's format otherwise. *)
Definition requiredDataSize (formatAttribs : FormatAttributes) (imageDesc : SrcImageDescriptor)
    (imageSize footprint : Z) : Z :=
  match convertedImage formatAttribs imageDesc with
  | Some _ => srcImageDataSize imageSize imageDesc
  | None => footprint
  end.

(** The data that is staged for an image that passed validation. *)
Definition stagedImageData (formatAttribs : FormatAttributes) (imageDesc : SrcImageDescriptor)
    : HostPtr :=
  match convertedImage formatAttribs imageDesc with
  | Some intermediateData => Some intermediateData
  | None => img_data imageDesc
  end.

(** The image data [CreateTexture] stages when no image descriptor is given. *)
Definition defaultImageData (textureDesc : TextureDescriptor) (imageSize initialDataSize : Z)
    : HostPtr :=
  if Z.land (tex_miscFlags textureDesc) MiscFlags_NoInitialData =? 0
  then
    let formatAttribs := GetFormatAttribs (tex_format textureDesc) in
    if isUncompressedFormat formatAttribs
    then Some (GenerateImageBuffer (attr_format formatAttribs) (attr_dataType formatAttribs)
                 imageSize (tex_clearColor textureDesc))
    else Some (AllocateByteBuffer initialDataSize)
  else None.

(** The three commands of an upload into [image]. *)
Definition uploadCommands (staging : VkBuffer) (image : Handle) (format : VkFormat)
    (dstOffset : Offset3D) (dstExtent : Extent3D) (subres : TextureSubresource)
    : list Command :=
  [ CmdTransitionImageLayout image format
      VK_IMAGE_LAYOUT_UNDEFINED VK_IMAGE_LAYOUT_TRANSFER_DST_OPTIMAL subres;
    CmdCopyBufferToImage staging image format dstOffset dstExtent subres;
    CmdTransitionImageLayout image format
      VK_IMAGE_LAYOUT_TRANSFER_DST_OPTIMAL VK_IMAGE_LAYOUT_SHADER_READ_ONLY_OPTIMAL subres ].

(** The calls that create a staging buffer of [size] bytes with handle
    [staging] and fill it with [data]. *)
Definition stagingCalls (staging : Handle) (size : Z) (data : HostPtr) : list Event :=
  [ EvCreateDeviceBuffer staging
      {| ci_size := size; ci_usage := VK_BUFFER_USAGE_TRANSFER_SRC_BIT |};
    EvAllocate (Pos.succ staging)
      (Z.lor VK_MEMORY_PROPERTY_HOST_VISIBLE_BIT VK_MEMORY_PROPERTY_HOST_COHERENT_BIT);
    EvBindMemoryRegion staging (Pos.succ staging) ]
  ++ (if negb (is_null data) && (0 <? size)
      then [EvWriteBuffer (Some staging) data size None]
      else []).

(** The commands [CreateTexture] records: the upload over all layers and MIP
    levels, and the MIP-map generation when there is image data and it is
    asked for. *)
Definition createCommands (textureDesc : TextureDescriptor) (withImage : bool)
    (staging : VkBuffer) (image : Handle) : list Command :=
  let subres :=
    {| baseArrayLayer := 0; numArrayLayers := NumTextureLayers textureDesc;
       baseMipLevel := 0; numMipLevels := NumTextureMipLevels textureDesc |} in
  uploadCommands staging image (VKTypes_Map (tex_format textureDesc))
    {| ox := 0; oy := 0; oz := 0 |} (TextureVkExtent textureDesc) subres
  ++ (if withImage && MustGenerateMipsOnCreate textureDesc
      then [CmdGenerateMips image (VKTypes_Map (tex_format textureDesc))
              (TextureVkExtent textureDesc) subres]
      else []).

End RenderSystem.
End VK.

(** ** The Direct3D 11 render system ([D3D11RenderSystem.cpp]) *)

Module D3D11.

Definition Handle := positive.

(** [D3D11_BOX]: six [UINT] fields. *)
Record D3D11_BOX := {
  left : Z; top : Z; front : Z;
  right : Z; bottom : Z; back : Z
}.

(** [CD3D11_BOX(LONG Left, LONG Top, LONG Front, LONG Right, LONG Bottom, LONG Back)]:
    each argument is stored into its [UINT] field. *)
Definition CD3D11_BOX (l t f r b k : Z) : D3D11_BOX :=
  {| left := uint32 l; top := uint32 t; front := uint32 f;
     right := uint32 r; bottom := uint32 b; back := uint32 k |}.

(** The texture object: its identity and the type its descriptor gave it. *)
Record D3D11Texture := {
  texId : Handle;
  texType : TextureType
}.

(** The calls made on the device context, the buffers and the textures. *)
Inductive Event :=
| EvBufferUpdateSubresource (buffer : Handle) (data : HostPtr) (dataSize : Z) (dstOffset : Z)
| EvBufferReadSubresource (buffer : Handle) (dataSize : Z) (srcOffset : Z)
| EvCreateTexture (texture : Handle) (desc : TextureDescriptor)
| EvDestroyTexture (texture : Handle)
| EvTextureUpdateSubresource (texture : Handle) (mipLevel arrayLayer : Z)
    (dstBox : D3D11_BOX) (imageDesc : SrcImageDescriptor)
| EvGenerateMips (texture : Handle).

Record D3D11RenderSystem := {
  textures_ : gmap Handle D3D11Texture;
  nextHandle : Handle;
  trace : list Event
}.

Definition emit (e : Event) : M D3D11RenderSystem unit :=
  modify (fun s =>
    {| textures_ := textures_ s; nextHandle := nextHandle s; trace := trace s ++ [e] |}).

Definition fresh : M D3D11RenderSystem Handle :=
  fun s =>
    Returned (nextHandle s)
      {| textures_ := textures_ s; nextHandle := Pos.succ (nextHandle s); trace := trace s |}.

Definition TakeOwnership (texture : D3D11Texture) : M D3D11RenderSystem unit :=
  modify (fun s =>
    {| textures_ := <[ texId texture := texture ]> (textures_ s);
       nextHandle := nextHandle s;
       trace := trace s |}).

Definition set_data (imageDesc : SrcImageDescriptor) (p : HostPtr) : SrcImageDescriptor :=
  {| img_format := img_format imageDesc; img_dataType := img_dataType imageDesc;
     img_data := p; img_dataSize := img_dataSize imageDesc |}.

Definition set_dataSize (imageDesc : SrcImageDescriptor) (n : Z) : SrcImageDescriptor :=
  {| img_format := img_format imageDesc; img_dataType := img_dataType imageDesc;
     img_data := img_data imageDesc; img_dataSize := n |}.

Definition isMultisampled (t : TextureType) : bool :=
  match t with
  | Texture2DMS | Texture2DMSArray => true
  | _ => false
  end.

(** The state after further calls. *)
Definition afterCalls (st : D3D11RenderSystem) (evs : list Event) : D3D11RenderSystem :=
  {| textures_ := textures_ st; nextHandle := nextHandle st; trace := trace st ++ evs |}.

(** The calls of a counted loop whose body makes the call [ev i acc] and
    continues with [next i acc], and the value it ends with. *)
Fixpoint loopCalls {A} (n : nat) (from : Z) (acc : A)
    (ev : Z -> A -> Event) (next : Z -> A -> A) : list Event :=
  match n with
  | O => []
  | S n' => ev from acc :: loopCalls n' (from + 1) (next from acc) ev next
  end.

Fixpoint loopResult {A} (n : nat) (from : Z) (acc : A) (next : Z -> A -> A) : A :=
  match n with
  | O => acc
  | S n' => loopResult n' (from + 1) (next from acc) next
  end.

Section RenderSystem.
Context {E : Externals}.

(** [bufferD3D.UpdateSubresource(context_.Get(), data, static_cast<UINT>(dataSize),
    static_cast<UINT>(offset))] *)
Definition WriteBuffer (buffer : Handle) (offset : Z) (data : HostPtr) (dataSize : Z)
    : M D3D11RenderSystem unit :=
  emit (EvBufferUpdateSubresource buffer data (uint32 dataSize) (uint32 offset)).

(** [bufferD3D.ReadSubresource(context_.Get(), data, static_cast<UINT>(dataSize),
    static_cast<UINT>(offset))]; the call record leaves out [data], the
    memory the callee writes to. *)
Definition ReadBuffer (buffer : Handle) (offset : Z) (dataSize : Z)
    : M D3D11RenderSystem unit :=
  emit (EvBufferReadSubresource buffer (uint32 dataSize) (uint32 offset)).

(** [textureD3D.UpdateSubresource(context_.Get(), mipLevel, arrayLayer, box, imageDesc)] *)
Definition UpdateSubresource (textureD3D : D3D11Texture) (mipLevel arrayLayer : Z)
    (dstBox : D3D11_BOX) (imageDesc : SrcImageDescriptor) : M D3D11RenderSystem unit :=
  emit (EvTextureUpdateSubresource (texId textureD3D) mipLevel arrayLayer dstBox imageDesc).

(** The box and the array layer [WriteTexture] passes on for each texture
    type; [None] for the types it skips. *)
Definition writeTarget (t : TextureType) (textureRegion : TextureRegion)
    : option (Z * D3D11_BOX) :=
  let o := offset textureRegion in
  let e := extent textureRegion in
  let sub := subresource textureRegion in
  match t with
  | Texture1D | Texture1DArray =>
      Some (baseArrayLayer sub,
            CD3D11_BOX (ox o) 0 0
              (int32 (ox o + int32 (width e))) (int32 (numArrayLayers sub)) 1)
  | Texture2D | TextureCube | Texture2DArray | TextureCubeArray =>
      Some (baseArrayLayer sub,
            CD3D11_BOX (ox o) (oy o) 0
              (int32 (ox o + int32 (width e))) (int32 (oy o + int32 (height e)))
              (int32 (numArrayLayers sub)))
  | Texture2DMS | Texture2DMSArray => None
  | Texture3D =>
      Some (0,
            CD3D11_BOX (ox o) (oy o) (oz o)
              (int32 (ox o + int32 (width e))) (int32 (oy o + int32 (height e)))
              (int32 (oz o + int32 (depth e))))
  end.

Definition WriteTexture (textureD3D : D3D11Texture) (textureRegion : TextureRegion)
    (imageDesc : SrcImageDescriptor) : M D3D11RenderSystem unit :=
  match texType textureD3D with
  | Texture1D | Texture1DArray =>
      UpdateSubresource textureD3D
        (baseMipLevel (subresource textureRegion))
        (baseArrayLayer (subresource textureRegion))
        (CD3D11_BOX
           (ox (offset textureRegion))
           0
           0
           (int32 (ox (offset textureRegion) + int32 (width (extent textureRegion))))
           (int32 (numArrayLayers (subresource textureRegion)))
           1)
        imageDesc
  | Texture2D | TextureCube | Texture2DArray | TextureCubeArray =>
      UpdateSubresource textureD3D
        (baseMipLevel (subresource textureRegion))
        (baseArrayLayer (subresource textureRegion))
        (CD3D11_BOX
           (ox (offset textureRegion))
           (oy (offset textureRegion))
           0
           (int32 (ox (offset textureRegion) + int32 (width (extent textureRegion))))
           (int32 (oy (offset textureRegion) + int32 (height (extent textureRegion))))
           (int32 (numArrayLayers (subresource textureRegion))))
        imageDesc
  | Texture2DMS | Texture2DMSArray => ret tt
  | Texture3D =>
      UpdateSubresource textureD3D
        (baseMipLevel (subresource textureRegion))
        0
        (CD3D11_BOX
           (ox (offset textureRegion))
           (oy (offset textureRegion))
           (oz (offset textureRegion))
           (int32 (ox (offset textureRegion) + int32 (width (extent textureRegion))))
           (int32 (oy (offset textureRegion) + int32 (height (extent textureRegion))))
           (int32 (oz (offset textureRegion) + int32 (depth (extent textureRegion)))))
        imageDesc
  end.

(** The box of a whole MIP level 0:
    [CD3D11_BOX(0, 0, 0, extent.width, extent.height, extent.depth)]. *)
Definition fullBox (extent : Extent3D) : D3D11_BOX :=
  CD3D11_BOX 0 0 0 (int32 (width extent)) (int32 (height extent)) (int32 (depth extent)).

Definition InitializeGpuTextureWithImage (textureD3D : D3D11Texture) (format : Format)
    (extent : Extent3D) (arrayLayers : Z) (imageDesc : SrcImageDescriptor)
    : M D3D11RenderSystem unit :=
  (* Update only the first MIP-map level for each array layer *)
  let bytesPerLayer :=
    uint32 (width extent * height extent * depth extent
            * ImageFormatSize (img_format imageDesc)
            * DataTypeSize (img_dataType imageDesc)) in
  (* Remap image data size for a single array layer to update each subresource individually *)
  if arrayLayers =? 0 then undefined else
  if negb (img_dataSize imageDesc mod arrayLayers =? 0) then throw ExInvalidArgument else
  let imageDesc := set_dataSize imageDesc (img_dataSize imageDesc / arrayLayers) in
  _ <- for_range arrayLayers imageDesc (fun layer imageDesc =>
         (* Update subresource of current array layer *)
         UpdateSubresource textureD3D 0 layer (fullBox extent) imageDesc ;;;
         (* Move to next region of initial data *)
         ret (set_data imageDesc (ptr_add (img_data imageDesc) bytesPerLayer))) ;;
  ret tt.

(** The image descriptor [InitializeGpuTextureWithClearValue] builds from
    the clear colour. *)
Definition imageDescDefault (format : Format) (extent : Extent3D) (clearColor : ColorRGBA)
    : SrcImageDescriptor :=
  let formatDesc := GetFormatAttribs format in
  let imageSize := uint32 (width extent * height extent * depth extent) in
  {| img_format := attr_format formatDesc;
     img_dataType := attr_dataType formatDesc;
     img_data := Some (GenerateImageBuffer (attr_format formatDesc) (attr_dataType formatDesc)
                         imageSize clearColor);
     img_dataSize := GetMemoryFootprintOf (attr_format formatDesc) (attr_dataType formatDesc)
                       imageSize |}.

Definition InitializeGpuTextureWithClearValue (textureD3D : D3D11Texture) (format : Format)
    (extent : Extent3D) (arrayLayers : Z) (clearColor : ColorRGBA)
    : M D3D11RenderSystem unit :=
  if IsDepthStencilFormat format
  then ret tt
  else
    (* Find suitable image format for texture hardware format *)
    if 0 <? bitSize (GetFormatAttribs format)
    then
      (* Update only the first MIP-map level for each array slice *)
      for_range arrayLayers tt (fun layer _ =>
        UpdateSubresource textureD3D 0 layer (fullBox extent)
          (imageDescDefault format extent clearColor))
    else ret tt.

Definition InitializeGpuTexture (textureD3D : D3D11Texture) (textureDesc : TextureDescriptor)
    (imageDesc : option SrcImageDescriptor) : M D3D11RenderSystem unit :=
  match imageDesc with
  | Some imageDesc =>
      (* Initialize texture with specified image descriptor *)
      InitializeGpuTextureWithImage textureD3D (tex_format textureDesc) (tex_extent textureDesc)
        (tex_arrayLayers textureDesc) imageDesc
  | None =>
      if Z.land (tex_miscFlags textureDesc) MiscFlags_NoInitialData =? 0
      then
        (* Initialize texture with default image data *)
        InitializeGpuTextureWithClearValue textureD3D (tex_format textureDesc)
          (tex_extent textureDesc) (tex_arrayLayers textureDesc) (tex_clearColor textureDesc)
      else ret tt
  end.

Definition CreateTexture (textureDesc : TextureDescriptor) (imageDesc : option SrcImageDescriptor)
    : M D3D11RenderSystem D3D11Texture :=
  (* Create texture object *)
  id <- fresh ;;
  emit (EvCreateTexture id textureDesc) ;;;
  let texture := {| texId := id; texType := tex_type textureDesc |} in
  (* the unique_ptr destroys the texture when an exception leaves the function *)
  on_unwind
    ((* Initialize texture data with or without initial image data *)
     InitializeGpuTexture texture textureDesc imageDesc ;;;
     (* Generate MIP-maps if enabled *)
     when (negb (is_null imageDesc) && MustGenerateMipsOnCreate textureDesc)
          (emit (EvGenerateMips id)) ;;;
     TakeOwnership texture ;;;
     ret texture)
    (fun s =>
       {| textures_ := textures_ s; nextHandle := nextHandle s;
          trace := trace s ++ [EvDestroyTexture id] |}).

End RenderSystem.
End D3D11.

(** ** Texture contents under the Direct3D 11 uploads *)

Module Contents.
Import D3D11.

(** A texel of a texture: MIP level, array layer and position. *)
Record Texel := { t_mip : Z; t_layer : Z; t_x : Z; t_y : Z; t_z : Z }.

(** What a texel holds: the image it was uploaded from and its index in that
    image, rows first, then slices, then layers. *)
Definition TexelSource : Type := SrcImageDescriptor * Z.

Definition TextureContents : Type := Texel -> option TexelSource.

(** A position in the coordinates of a box. *)
Definition in_box (b : D3D11_BOX) (p : Z * Z * Z) : bool :=
  let '(u, v, w) := p in
  (left b <=? u) && (u <? right b)
  && (top b <=? v) && (v <? bottom b)
  && (front b <=? w) && (w <? back b).

Definition texel_index (b : D3D11_BOX) (p : Z * Z * Z) : Z :=
  let '(u, v, w) := p in
  ((w - front b) * (bottom b - top b) + (v - top b)) * (right b - left b) + (u - left b).

(** Modelled from the spec: how [D3D11Texture::UpdateSubresource], declared
    outside the file, reads its box; the spec has the written region return
    the written bytes.  This is where a texel lies in the coordinates of the
    box of an update that addresses the array layer [arrayLayer]: the array
    layers are on the axis the texture type leaves free, counted from the
    addressed layer, as the callers in the file build the box.
    [WriteTexture] passes
    [CD3D11_BOX(x, 0, 0, x + width, numArrayLayers, 1)] for 1D textures and
    [CD3D11_BOX(x, y, 0, x + width, y + height, numArrayLayers)] for 2D and
    cube textures, and a box of three space coordinates for 3D textures. *)
Definition boxPosition (type : TextureType) (arrayLayer : Z) (t : Texel) : option (Z * Z * Z) :=
  match type with
  | Texture1D | Texture1DArray =>
      if t_y t =? 0 then Some (t_x t, t_layer t - arrayLayer, t_z t) else None
  | Texture3D =>
      if t_layer t =? arrayLayer then Some (t_x t, t_y t, t_z t) else None
  | _ =>
      if t_z t =? 0 then Some (t_x t, t_y t, t_layer t - arrayLayer) else None
  end.

(** Modelled from the spec: [D3D11Texture::UpdateSubresource] is declared
    outside the file.  Following the read-back scenario ("expect the written
    region to return the written bytes, not the clear color"), an update
    replaces the texels that the box names in the addressed MIP level by the
    texels of the image, rows first, then slices, and leaves every other
    texel as it was; the box names texels as [boxPosition] says, so that the
    update [WriteTexture] makes for a region writes that region. *)
Definition update (type : TextureType) (mipLevel arrayLayer : Z) (dstBox : D3D11_BOX)
    (imageDesc : SrcImageDescriptor) (c : TextureContents) : TextureContents :=
  fun t =>
    match boxPosition type arrayLayer t with
    | Some p =>
        if (t_mip t =? mipLevel) && in_box dstBox p
        then Some (imageDesc, texel_index dstBox p)
        else c t
    | None => c t
    end.

Definition empty : TextureContents := fun _ => None.

(** The texture [tex] on the device: the type it was created with, once it
    was created, and its texels. *)
Definition TextureState : Type := option TextureType * TextureContents.

(** The effect of one call on the texture [tex]. *)
Definition apply_event (tex : Handle) (s : TextureState) (e : Event) : TextureState :=
  match e with
  | EvCreateTexture t desc => if Pos.eqb t tex then (Some (tex_type desc), empty) else s
  | EvTextureUpdateSubresource t mipLevel arrayLayer dstBox imageDesc =>
      if Pos.eqb t tex
      then
        match fst s with
        | Some type => (Some type, update type mipLevel arrayLayer dstBox imageDesc (snd s))
        | None => s
        end
      else s
  | _ => s
  end.

(** The contents of the texture [tex] after the calls of a trace. *)
Definition contents (tex : Handle) (tr : list Event) : TextureContents :=
  snd (fold_left (apply_event tex) tr (None, empty)).

(** The texels a texture region names. *)
Definition inRegion (r : TextureRegion) (t : Texel) : Prop :=
  t_mip t = baseMipLevel (subresource r)
  /\ baseArrayLayer (subresource r) <= t_layer t
       < baseArrayLayer (subresource r) + numArrayLayers (subresource r)
  /\ ox (offset r) <= t_x t < ox (offset r) + width (extent r)
  /\ oy (offset r) <= t_y t < oy (offset r) + height (extent r)
  /\ oz (offset r) <= t_z t < oz (offset r) + depth (extent r).

#[global] Instance inRegion_dec (r : TextureRegion) (t : Texel) : Decision (inRegion r t).
Proof. unfold inRegion. apply _. Defined.

(** The index of a texel of a region in the image written to the region:
    rows first, then slices, then layers. *)
Definition regionIndex (r : TextureRegion) (t : Texel) : Z :=
  (((t_layer t - baseArrayLayer (subresource r)) * depth (extent r)
    + (t_z t - oz (offset r))) * height (extent r)
   + (t_y t - oy (offset r))) * width (extent r)
  + (t_x t - ox (offset r)).

(** The positions within an extent, and the index of a position in an image
    of that extent: rows first, then slices. *)
Definition inExtent (e : Extent3D) (t : Texel) : bool :=
  (0 <=? t_x t) && (t_x t <? width e)
  && (0 <=? t_y t) && (t_y t <? height e)
  && (0 <=? t_z t) && (t_z t <? depth e).

Definition extentIndex (e : Extent3D) (t : Texel) : Z :=
  (t_z t * height e + t_y t) * width e + t_x t.



Section ClearContents.
Context {E : Externals}.

(** The contents [CreateTexture] gives a texture from the clear colour: the
    generated image in MIP level 0 of every array layer, nothing elsewhere. *)
Definition clearContents (textureDesc : TextureDescriptor) : TextureContents :=
  fun t =>
    if (t_mip t =? 0) && (0 <=? t_layer t) && (t_layer t <? tex_arrayLayers textureDesc)
       && inExtent (tex_extent textureDesc) t
    then Some (imageDescDefault (tex_format textureDesc) (tex_extent textureDesc)
                 (tex_clearColor textureDesc),
               extentIndex (tex_extent textureDesc) t)
    else None.

End ClearContents.

End Contents.

(** ** Texture contents under the Vulkan transfers *)

Module VKContents.
Import VK.
Import Contents.

(** What a buffer holds, by the host writes and the device copies made to
    it since it was created. *)
Inductive BufferContent :=
| Fresh
| Written (before : BufferContent) (data : HostPtr) (size : Z) (dstOffset : option Z)
| Copied (before source : BufferContent) (size : Z) (offsets : option (Z * Z)).

(** What a texel of an image holds: the texel with the given index of a
    buffer with the given content, rows first, then slices, then layers, or
    the result of a MIP-map generation. *)
Inductive TexelValue :=
| FromBuffer (content : BufferContent) (index : Z)
| FromMipGeneration.

Definition ImageContents : Type := Texel -> option TexelValue.

(** The device as far as transfers into one image go: the content of every
    buffer and the texels of the image. *)
Record Device := {
  bufferContent : Handle -> BufferContent;
  texels : ImageContents
}.

Definition contentOf (buffers : Handle -> BufferContent) (buffer : VkBuffer) : BufferContent :=
  match buffer with
  | Some b => buffers b
  | None => Fresh
  end.

Definition setBuffer (b : Handle) (content : BufferContent) (d : Device) : Device :=
  {| bufferContent := fun b' => if Pos.eqb b' b then content else bufferContent d b';
     texels := texels d |}.

(** The region a copy command names. *)
Definition copyRegion (dstOffset : Offset3D) (dstExtent : Extent3D)
    (subres : TextureSubresource) : TextureRegion :=
  {| subresource := subres; offset := dstOffset; extent := dstExtent |}.

(** Modelled from the spec: the recording functions of [VKDevice] are
    declared outside the file.  Following the transfer protocol ("transition
    target sub-resource ... to TransferDst; copy buffer->image; transition to
    ShaderReadOnly") and the read-back scenario ("expect the written region
    to return the written bytes"), a buffer-to-image copy replaces the texels
    of the region it names, in the base MIP level of its subresource, by the
    texels of the buffer; a layout transition is a state change of the image
    that leaves its texels as they were; a MIP-map generation fills the MIP
    levels above the base level. *)
Definition apply_command (image : Handle) (buffers : Handle -> BufferContent)
    (c : ImageContents) (cmd : Command) : ImageContents :=
  match cmd with
  | CmdTransitionImageLayout _ _ _ _ _ => c
  | CmdCopyBufferToImage buffer img _ dstOffset dstExtent subres =>
      if Pos.eqb img image
      then
        fun t =>
          if bool_decide (inRegion (copyRegion dstOffset dstExtent subres) t)
          then Some (FromBuffer (contentOf buffers buffer)
                       (regionIndex (copyRegion dstOffset dstExtent subres) t))
          else c t
      else c
  | CmdGenerateMips img _ _ subres =>
      if Pos.eqb img image
      then
        fun t =>
          if (baseMipLevel subres <? t_mip t)
             && (t_mip t <? baseMipLevel subres + numMipLevels subres)
             && (baseArrayLayer subres <=? t_layer t)
             && (t_layer t <? baseArrayLayer subres + numArrayLayers subres)
          then Some FromMipGeneration
          else c t
      else c
  end.

(** Modelled from the spec: the calls on [VKDevice], [VKDeviceBuffer] and
    the texture object are declared outside the file.  A new buffer holds
    nothing; a host write and a buffer copy add to what the destination
    holds ("maps, copies size bytes, unmaps"); a new image has no texel
    written; a flush runs the recorded commands in order. *)
Definition apply_event (image : Handle) (d : Device) (e : Event) : Device :=
  match e with
  | EvCreateDeviceBuffer b _ => setBuffer b Fresh d
  | EvCreateBufferObject b _ => setBuffer b Fresh d
  | EvWriteBuffer (Some b) data size dstOffset =>
      setBuffer b (Written (bufferContent d b) data size dstOffset) d
  | EvCopyBuffer src (Some b) size offsets =>
      setBuffer b (Copied (bufferContent d b) (contentOf (bufferContent d) src) size offsets) d
  | EvCreateTextureObject img _ _ =>
      if Pos.eqb img image
      then {| bufferContent := bufferContent d; texels := fun _ => None |}
      else d
  | EvFlushCommandBuffer commands =>
      {| bufferContent := bufferContent d;
         texels := fold_left (apply_command image (bufferContent d)) commands (texels d) |}
  | _ => d
  end.

Definition newDevice : Device :=
  {| bufferContent := fun _ => Fresh; texels := fun _ => None |}.

(** The texels of [image] after the calls of a trace. *)
Definition contents (image : Handle) (tr : list Event) : ImageContents :=
  texels (fold_left (apply_event image) tr newDevice).

(** What a staging buffer holds after [CreateStagingBufferAndInitialize]:
    the data, when there is data of a positive size. *)
Definition stagedContent (size : Z) (data : HostPtr) : BufferContent :=
  if negb (is_null data) && (0 <? size) then Written Fresh data size None else Fresh.

Section ClearContents.
Context {E : Externals}.

(** The region [CreateTexture] copies the staged image into. *)
Definition wholeTexture (textureDesc : TextureDescriptor) : TextureRegion :=
  copyRegion {| ox := 0; oy := 0; oz := 0 |} (TextureVkExtent textureDesc)
    {| baseArrayLayer := 0; numArrayLayers := NumTextureLayers textureDesc;
       baseMipLevel := 0; numMipLevels := NumTextureMipLevels textureDesc |}.

(** The contents [CreateTexture] gives an image from the clear colour: the
    staged image, generated from the clear colour, in MIP level 0 of every
    array layer, nothing elsewhere. *)
Definition clearContents (textureDesc : TextureDescriptor) : ImageContents :=
  fun t =>
    let formatAttribs := GetFormatAttribs (tex_format textureDesc) in
    let imageSize := NumMipTexels textureDesc 0 in
    if bool_decide (inRegion (wholeTexture textureDesc) t)
    then Some (FromBuffer
                 (stagedContent (GetMemoryFootprint (tex_format textureDesc) imageSize)
                    (Some (GenerateImageBuffer (attr_format formatAttribs)
                             (attr_dataType formatAttribs) imageSize
                             (tex_clearColor textureDesc))))
                 (regionIndex (wholeTexture textureDesc) t))
    else None.

End ClearContents.

End VKContents.

(** ** An instance of the helpers, to run the model on concrete inputs *)

Module Sample.

(** One texture format, RGBA with four one-byte components, and two image
    layouts for host data, RGBA and RGB, of one-byte components. *)
Definition Format_RGBA8UNorm : Format := 1.
Definition ImageFormat_RGBA : ImageFormat := 1.
Definition ImageFormat_RGB : ImageFormat := 2.
Definition DataType_UInt8 : DataType := 1.
Definition MiscFlags_GenerateMips : Z := 4.

Fixpoint rgb_to_rgba (bs : list Z) : list Z :=
  match bs with
  | r :: g :: b :: rest => r :: g :: b :: 255 :: rgb_to_rgba rest
  | _ => []
  end.

#[export] Instance externals : Externals := {|
  MiscFlags_DynamicUsage := 1;
  MiscFlags_NoInitialData := 8;
  CPUAccessFlags_Write := 2;
  FormatFlags_IsCompressed := 8;
  AssertCreateBuffer := fun desc maxSize => buf_size desc <=? maxSize;
  AssertImageDataSize := fun dataSize required => required <=? dataSize;
  GetFormatAttribs := fun f =>
    if f =? Format_RGBA8UNorm
    then {| bitSize := 32; attr_format := ImageFormat_RGBA;
            attr_dataType := DataType_UInt8; attr_flags := 0 |}
    else {| bitSize := 0; attr_format := 0; attr_dataType := 0; attr_flags := 0 |};
  GetMemoryFootprint := fun f n => if f =? Format_RGBA8UNorm then 4 * n else 0;
  GetMemoryFootprintOf := fun f d n =>
    n * (if f =? ImageFormat_RGBA then 4 else if f =? ImageFormat_RGB then 3 else 0);
  ImageFormatSize := fun f =>
    if f =? ImageFormat_RGBA then 4 else if f =? ImageFormat_RGB then 3 else 0;
  DataTypeSize := fun d => if d =? DataType_UInt8 then 1 else 0;
  NumMipTexels := fun desc mip =>
    if mip =? 0
    then width (tex_extent desc) * height (tex_extent desc) * depth (tex_extent desc)
         * tex_arrayLayers desc
    else 0;
  MustGenerateMipsOnCreate := fun desc =>
    negb (Z.land (tex_miscFlags desc) MiscFlags_GenerateMips =? 0);
  IsDepthStencilFormat := fun _ => false;
  ConvertImageBuffer := fun img f d =>
    if (img_format img =? f) && (img_dataType img =? d)
    then None
    else Some (match img_data img with Some bs => rgb_to_rgba bs | None => [] end);
  GenerateImageBuffer := fun f d n c =>
    concat (replicate (Z.to_nat n) [red c; green c; blue c; alpha c]);
  AllocateByteBuffer := fun n => replicate (Z.to_nat n) 0;
  VKTypes_Map := fun f => f;
  VKTypes_Unmap := fun f => f;
  NumTextureLayers := tex_arrayLayers;
  NumTextureMipLevels := tex_mipLevels;
  TextureVkExtent := tex_extent
|}.

Definition black : ColorRGBA := {| red := 0; green := 0; blue := 0; alpha := 255 |}.

(** A 2x2 RGBA8 texture with one layer and one MIP level. *)
Definition texture2x2 (type : TextureType) (miscFlags : Z) : TextureDescriptor :=
  {| tex_type := type; tex_miscFlags := miscFlags; tex_format := Format_RGBA8UNorm;
     tex_extent := {| width := 2; height := 2; depth := 1 |};
     tex_arrayLayers := 1; tex_mipLevels := 1; tex_clearColor := black |}.

(** The region of one texel at the origin, in MIP level 0 of layer 0. *)
Definition oneTexel : TextureRegion :=
  {| subresource := {| baseArrayLayer := 0; numArrayLayers := 1;
                       baseMipLevel := 0; numMipLevels := 1 |};
     offset := {| ox := 0; oy := 0; oz := 0 |};
     extent := {| width := 1; height := 1; depth := 1 |} |}.

(** One RGB texel of host data: three bytes. *)
Definition rgbTexel : SrcImageDescriptor :=
  {| img_format := ImageFormat_RGB; img_dataType := DataType_UInt8;
     img_data := Some [10; 20; 30]; img_dataSize := 3 |}.

(** One RGBA texel of host data: four bytes. *)
Definition rgbaTexel : SrcImageDescriptor :=
  {| img_format := ImageFormat_RGBA; img_dataType := DataType_UInt8;
     img_data := Some [10; 20; 30; 40]; img_dataSize := 4 |}.

(** Four RGBA texels of host data. *)
Definition rgbaImage2x2 (dataSize : Z) : SrcImageDescriptor :=
  {| img_format := ImageFormat_RGBA; img_dataType := DataType_UInt8;
     img_data := Some (replicate 16 7); img_dataSize := dataSize |}.

Definition vkTexture : VK.VKTexture :=
  {| VK.vt_image := 1%positive; VK.vt_format := Format_RGBA8UNorm;
     VK.vt_numArrayLayers := 1; VK.vt_numMipLevels := 1;
     VK.vt_extent := {| width := 2; height := 2; depth := 1 |};
     VK.vt_memoryRegion := 2%positive |}.

Definition d3dSystem : D3D11.D3D11RenderSystem :=
  {| D3D11.textures_ := ∅; D3D11.nextHandle := 1%positive; D3D11.trace := [] |}.

(** A buffer of 16 bytes the CPU writes to, and one nobody accesses. *)
Definition cpuWritableBuffer : BufferDescriptor :=
  {| buf_size := 16; buf_bindFlags := 0; buf_cpuAccessFlags := 2; buf_miscFlags := 0 |}.

Definition deviceOnlyBuffer : BufferDescriptor :=
  {| buf_size := 16; buf_bindFlags := 0; buf_cpuAccessFlags := 0; buf_miscFlags := 0 |}.

(** A texture of two layers. *)
Definition twoLayers : TextureDescriptor :=
  {| tex_type := Texture2DArray; tex_miscFlags := 0;
     tex_format := Format_RGBA8UNorm;
     tex_extent := {| width := 2; height := 2; depth := 1 |};
     tex_arrayLayers := 2; tex_mipLevels := 1; tex_clearColor := black |}.







End Sample.

(** ** Direct3D 11: multisampling and device set-up ([D3D11RenderSystem.cpp]) *)

Module D3D11Device.

(** [HRESULT] is a signed 32-bit value; [SUCCEEDED(hr)] is [hr >= 0] and
    [FAILED(hr)] is [hr < 0]. *)
Definition HRESULT := Z.
Definition S_OK : HRESULT := 0.
Definition SUCCEEDED (hr : HRESULT) : bool := 0 <=? hr.
Definition FAILED (hr : HRESULT) : bool := hr <? 0.

Definition DXGI_FORMAT := Z.
Definition DXGI_FORMAT_UNKNOWN : DXGI_FORMAT := 0.

Record DXGI_SAMPLE_DESC := { Count : Z; Quality : Z }.

(** What the render system asks of an [ID3D11Device] here:
    [CheckMultisampleQualityLevels(format, sampleCount, &numQualityLevels)]
    answers with its result code and the number it stores. *)
Record ID3D11Device := {
  CheckMultisampleQualityLevels : DXGI_FORMAT -> Z -> HRESULT * Z
}.

(** The loop [for (; maxSampleCount > 1; --maxSampleCount)] of
    [FindSuitableSampleDesc], by the number of rounds still to run: with
    [n + 1] rounds to run, [maxSampleCount] is [n + 2]. *)
Fixpoint FindSuitableSampleDesc_rounds (device : ID3D11Device) (format : DXGI_FORMAT)
    (rounds : nat) : DXGI_SAMPLE_DESC :=
  match rounds with
  | O => {| Count := 1; Quality := 0 |}
  | S n =>
      let maxSampleCount := Z.of_nat n + 2 in
      let (hr, numQualityLevels) :=
        CheckMultisampleQualityLevels device format maxSampleCount in
      if hr =? S_OK
      then
        if 0 <? numQualityLevels
        then {| Count := maxSampleCount; Quality := numQualityLevels - 1 |}
        else FindSuitableSampleDesc_rounds device format n
      else FindSuitableSampleDesc_rounds device format n
  end.

(** [FindSuitableSampleDesc(device, format, maxSampleCount)]: the loop runs
    for [maxSampleCount], [maxSampleCount - 1], ..., 2. *)
Definition FindSuitableSampleDesc (device : ID3D11Device) (format : DXGI_FORMAT)
    (maxSampleCount : Z) : DXGI_SAMPLE_DESC :=
  FindSuitableSampleDesc_rounds device format (Z.to_nat (maxSampleCount - 1)).

(** [FindSuitableSampleDesc(device, numFormats, formats, maxSampleCount)];
    [formats] holds the [numFormats] entries of the array. *)
Definition FindSuitableSampleDescOf (device : ID3D11Device) (formats : list DXGI_FORMAT)
    (maxSampleCount : Z) : DXGI_SAMPLE_DESC :=
  fold_left
    (fun sampleDesc format =>
       if negb (format =? DXGI_FORMAT_UNKNOWN)
       then FindSuitableSampleDesc device format (Count sampleDesc)
       else sampleDesc)
    formats
    {| Count := maxSampleCount; Quality := 0 |}.

(** A sample count the device supports for a format: the check answers
    [S_OK] with at least one quality level. *)
Definition supportsSampleCount (device : ID3D11Device) (format : DXGI_FORMAT)
    (sampleCount : Z) : Prop :=
  fst (CheckMultisampleQualityLevels device format sampleCount) = S_OK
  /\ 0 < snd (CheckMultisampleQualityLevels device format sampleCount).

End D3D11Device.

(** ** Direct3D 11: device creation and the minor version
       ([D3D11RenderSystem.cpp]) *)

Module D3D11Setup.
Import D3D11Device.

Inductive D3D_DRIVER_TYPE :=
| D3D_DRIVER_TYPE_HARDWARE
| D3D_DRIVER_TYPE_WARP
| D3D_DRIVER_TYPE_SOFTWARE.

(** [D3D11_CREATE_DEVICE_DEBUG] of [d3d11.h]. *)
Definition D3D11_CREATE_DEVICE_DEBUG : Z := 2.

(** The members that [CreateDevice] sets, a COM pointer as whether it is not
    null, with the calls of [D3D11CreateDevice] (driver type and flags) and of
    [QueryInterface] (the number n of the [ID3D11Device<n>] asked for) made
    so far, in program order. *)
Record Devices := {
  device1_ : bool;
  device2_ : bool;
  device3_ : bool;
  createCalls : list (D3D_DRIVER_TYPE * Z);
  queryCalls : list Z
}.

(** The members before [CreateDevice]: null pointers. *)
Definition noDevices : Devices :=
  {| device1_ := false; device2_ := false; device3_ := false;
     createCalls := []; queryCalls := [] |}.

(** The classes of graphics pipeline states. *)
Inductive GraphicsPSOClass := D3D11GraphicsPSO | D3D11GraphicsPSO1 | D3D11GraphicsPSO3.

(** [CreateDevice] returns or leaves through [DXThrowIfCreateFailed]. *)
Inductive CreateDeviceResult :=
| DeviceCreated (d : Devices)
| DeviceCreateFailed (hr : HRESULT) (d : Devices).

Section CreateDevice.

(** The macros [LLGL_DEBUG] (defined or not) and
    [LLGL_D3D11_ENABLE_FEATURELEVEL]. *)
Variable LLGL_DEBUG : bool.
Variable LLGL_D3D11_ENABLE_FEATURELEVEL : Z.

(** [D3D11CreateDevice(adapter, driver, 0, flags, ...)]: its result code. *)
Variable D3D11CreateDevice : D3D_DRIVER_TYPE -> Z -> HRESULT.

(** [device_->QueryInterface(IID_PPV_ARGS(&device<n>_))]: its result code
    and whether the pointer it stores is not null. *)
Variable QueryInterface : Z -> HRESULT * bool.

(** [DXThrowIfCreateFailed(hr, "ID3D11Device")], declared in [DXCore.h]:
    whether it throws. *)
Variable DXThrowIfCreateFailed : HRESULT -> bool.

(** The loop of [CreateDeviceWithFlags] over the driver types still to try;
    [hr] is the reference parameter. *)
Fixpoint CreateDeviceWithFlags_drivers (drivers : list D3D_DRIVER_TYPE) (flags : Z)
    (hr : HRESULT) (d : Devices) : bool * HRESULT * Devices :=
  match drivers with
  | [] => (false, hr, d)
  | driver :: rest =>
      let hr := D3D11CreateDevice driver flags in
      let d := {| device1_ := device1_ d; device2_ := device2_ d; device3_ := device3_ d;
                  createCalls := createCalls d ++ [(driver, flags)];
                  queryCalls := queryCalls d |} in
      if SUCCEEDED hr then (true, hr, d)
      else CreateDeviceWithFlags_drivers rest flags hr d
  end.

Definition CreateDeviceWithFlags (flags : Z) (hr : HRESULT) (d : Devices)
    : bool * HRESULT * Devices :=
  CreateDeviceWithFlags_drivers
    [D3D_DRIVER_TYPE_HARDWARE; D3D_DRIVER_TYPE_WARP; D3D_DRIVER_TYPE_SOFTWARE] flags hr d.

(** One [QueryInterface] of [CreateDevice], storing into [device<n>_]. *)
Definition queryDevice (n : Z) (d : Devices) : HRESULT * Devices :=
  let (hr, pointer) := QueryInterface n in
  (hr,
   {| device1_ := if n =? 1 then pointer else device1_ d;
      device2_ := if n =? 2 then pointer else device2_ d;
      device3_ := if n =? 3 then pointer else device3_ d;
      createCalls := createCalls d;
      queryCalls := queryCalls d ++ [n] |}).

Definition CreateDevice (d : Devices) : CreateDeviceResult :=
  let hr : HRESULT := 0 in
  let '(_, hr, d) :=
    if LLGL_DEBUG
    then
      (* Try to create device with debug layer *)
      let '(created, hr, d) := CreateDeviceWithFlags D3D11_CREATE_DEVICE_DEBUG hr d in
      if negb created then CreateDeviceWithFlags 0 hr d else (created, hr, d)
    else
      (* Create device without debug layer *)
      CreateDeviceWithFlags 0 hr d in
  if DXThrowIfCreateFailed hr then DeviceCreateFailed hr d else
  (* Try to get an extended D3D11 device *)
  let '(enter, d) :=
    if 3 <=? LLGL_D3D11_ENABLE_FEATURELEVEL
    then let (hr, d) := queryDevice 3 d in (FAILED hr, d)
    else (true, d) in
  if enter
  then
    let '(enter, d) :=
      if 2 <=? LLGL_D3D11_ENABLE_FEATURELEVEL
      then let (hr, d) := queryDevice 2 d in (FAILED hr, d)
      else (true, d) in
    if enter
    then
      if 1 <=? LLGL_D3D11_ENABLE_FEATURELEVEL
      then DeviceCreated (snd (queryDevice 1 d))
      else DeviceCreated d
    else DeviceCreated d
  else DeviceCreated d.

Definition GetMinorVersion (d : Devices) : Z :=
  if (3 <=? LLGL_D3D11_ENABLE_FEATURELEVEL) && device3_ d then 3
  else if (2 <=? LLGL_D3D11_ENABLE_FEATURELEVEL) && device2_ d then 2
  else if (1 <=? LLGL_D3D11_ENABLE_FEATURELEVEL) && device1_ d then 1
  else 0.

(** [CreatePipelineState] for a graphics pipeline: the class of the pipeline
    state it makes and the device it makes it with, [device<n>_] as n and
    [device_] as 0. *)
Definition CreatePipelineState (d : Devices) : GraphicsPSOClass * Z :=
  if (3 <=? LLGL_D3D11_ENABLE_FEATURELEVEL) && device3_ d
  then (* Create graphics pipeline for Direct3D 11.3 *) (D3D11GraphicsPSO3, 3)
  else if (2 <=? LLGL_D3D11_ENABLE_FEATURELEVEL) && device2_ d
  then (* Create graphics pipeline for Direct3D 11.1 (there is no dedicated class for 11.2) *)
    (D3D11GraphicsPSO1, 2)
  else if (1 <=? LLGL_D3D11_ENABLE_FEATURELEVEL) && device1_ d
  then (* Create graphics pipeline for Direct3D 11.1 *) (D3D11GraphicsPSO1, 1)
  else (* Create graphics pipeline for Direct3D 11.0 *) (D3D11GraphicsPSO, 0).

(** [caps.features.hasConservativeRasterization] as [QueryRenderingCaps]
    sets it. *)
Definition hasConservativeRasterization (d : Devices) : bool :=
  let minorVersion := GetMinorVersion d in
  3 <=? minorVersion.

End CreateDevice.

(** The combinations of driver type and flags, in the order in which the
    calls of [CreateDeviceWithFlags] in [CreateDevice] go through them. *)
Definition creationOrder (LLGL_DEBUG : bool) : list (D3D_DRIVER_TYPE * Z) :=
  (if LLGL_DEBUG
   then [(D3D_DRIVER_TYPE_HARDWARE, D3D11_CREATE_DEVICE_DEBUG);
         (D3D_DRIVER_TYPE_WARP, D3D11_CREATE_DEVICE_DEBUG);
         (D3D_DRIVER_TYPE_SOFTWARE, D3D11_CREATE_DEVICE_DEBUG)]
   else [])
  ++ [(D3D_DRIVER_TYPE_HARDWARE, 0); (D3D_DRIVER_TYPE_WARP, 0);
      (D3D_DRIVER_TYPE_SOFTWARE, 0)].

End D3D11Setup.

(** ** Vulkan: who holds the leased regions *)

Module VKAccounting.
Import VK.

(** A region is accounted for when a registered buffer holds it, as its
    primary or its staging region, or a registered texture does. *)
Definition Owned (st : VKRenderSystem) (r : Handle) : Prop :=
  (exists (h : Handle) (b : VKBuffer), buffers_ st !! h = Some b /\ r ∈ bufferRegions b)
  \/ (exists (h : Handle) (t : VKTexture), textures_ st !! h = Some t /\ vt_memoryRegion t = r).

(** The render systems in which every leased region is accounted for, and
    the textures registered were handed out before. *)
Record Accounted (st : VKRenderSystem) : Prop := {
  acc_wf : WellFormed st;
  acc_textures : forall (h : Handle) (t : VKTexture),
    textures_ st !! h = Some t -> (h < nextHandle st)%positive;
  acc_owned : forall r : Handle, r ∈ regions (deviceMemoryMngr_ st) -> Owned st r
}.

End VKAccounting.

(** ** Vulkan: releasing textures and reading back ([VKRenderSystem.cpp]) *)

Module VKReadback.
Import VK.

Section ReleaseTexture.
Context {E : Externals}.

(** [Release(Texture&)]. *)
Definition ReleaseTexture (texture : Handle) : M VKRenderSystem unit :=
  t <- gets (fun s => textures_ s !! texture) ;;
  match t with
  | None => undefined
  | Some textureVK =>
      (* Release device memory region, then release texture object *)
      Release (vt_memoryRegion textureVK) ;;;
      modify (set_textures (fun m => delete texture m))
  end.

End ReleaseTexture.

(** [DstImageDescriptor]: where a read-back image goes. *)
Record DstImageDescriptor := {
  dst_format : ImageFormat;
  dst_dataType : DataType;
  dst_data : HostPtr;
  dst_dataSize : Z
}.

(** What [ReadTexture] records into its command buffer: commands of
    [VK.Command], and the copy out of the image. *)
Inductive ReadCommand :=
| CmdOf (c : Command)
| CmdCopyImageToBuffer (image : Handle) (buffer : VkBuffer) (format : VkFormat)
    (srcOffset : Offset3D) (srcExtent : Extent3D) (subres : TextureSubresource).

(** The calls of the read-back functions, in program order: those of
    [VK.Event], and the ones only reading back makes. *)
Inductive DeviceCall :=
| Base (e : Event)
| CallReadBuffer (buffer : VkBuffer) (size : Z) (srcOffset : Z)
| CallFlushCommandBuffer (commands : list ReadCommand)
| CallMap (region : Handle) (size : Z)
| CallCopyTextureImageData (imageDesc : DstImageDescriptor) (extent : Extent3D)
    (format : Format) (memory : ByteBuffer)
| CallUnmap (region : Handle).

(** The render system together with the complete record of its calls. *)
Record System := {
  renderSystem : VKRenderSystem;
  calls : list DeviceCall
}.

(** A computation of [VK] run inside [System]: the calls it adds to the
    trace of the render system are added to the record, in order. *)
Definition lift {A} (m : M VKRenderSystem A) : M System A :=
  fun s =>
    let added s' := map Base (drop (length (trace (renderSystem s))) (trace s')) in
    match m (renderSystem s) with
    | Returned a s' => Returned a {| renderSystem := s'; calls := calls s ++ added s' |}
    | Thrown e s' => Thrown e {| renderSystem := s'; calls := calls s ++ added s' |}
    | UndefinedBehaviour => UndefinedBehaviour
    end.

Definition call (c : DeviceCall) : M System unit :=
  modify (fun s => {| renderSystem := renderSystem s; calls := calls s ++ [c] |}).

Section RenderSystem.
Context {E : Externals}.

(** [deviceMemory->Map(device_, region->GetOffset(), size)] on the chunk of
    a region: the host address of the mapped bytes, or null. *)
Variable Map : Handle -> Z -> HostPtr.

Definition ReadBuffer (bufferVK : VKBuffer) (offset : Z) (dataSize : Z) : M System unit :=
  if negb (is_null (GetStagingVkBuffer bufferVK))
  then
    (* Copy hardware buffer into staging buffer *)
    lift (emit (EvCopyBuffer (GetVkBuffer bufferVK) (GetStagingVkBuffer bufferVK) dataSize
                  (Some (offset, offset)))) ;;;
    (* Copy staging buffer memory to output data *)
    call (CallReadBuffer (vkBuffer (GetStagingDeviceBuffer bufferVK)) dataSize offset)
  else
    (* Create staging buffer *)
    let stagingCreateInfo :=
      BuildVkBufferCreateInfo dataSize
        (Z.lor VK_BUFFER_USAGE_TRANSFER_SRC_BIT VK_BUFFER_USAGE_TRANSFER_DST_BIT) in
    stagingBuffer <- lift (CreateStagingBuffer stagingCreateInfo) ;;
    (* Copy hardware buffer into staging buffer *)
    lift (emit (EvCopyBuffer (GetVkBuffer bufferVK) (vkBuffer stagingBuffer) dataSize
                  (Some (offset, 0)))) ;;;
    (* Copy staging buffer memory to output data *)
    call (CallReadBuffer (vkBuffer stagingBuffer) dataSize 0) ;;;
    (* Release device memory region of staging buffer *)
    _ <- lift (ReleaseMemoryRegion stagingBuffer) ;; ret tt.

Definition ReadTexture (textureVK : VKTexture) (textureRegion : TextureRegion)
    (imageDesc : DstImageDescriptor) : M System unit :=
  (* Determine size of image for staging buffer *)
  let offset := offset textureRegion in
  let extent := extent textureRegion in
  let format := VKTypes_Unmap (vt_format textureVK) in
  let image := vt_image textureVK in
  let imageSize := uint32 (width extent * height extent * depth extent) in
  let imageDataSize := GetMemoryFootprint format imageSize in
  (* Create staging buffer *)
  let stagingCreateInfo :=
    BuildVkBufferCreateInfo imageDataSize VK_BUFFER_USAGE_TRANSFER_DST_BIT in
  stagingBuffer <- lift (CreateStagingBuffer stagingCreateInfo) ;;
  (* Copy staging buffer into hardware texture, then transfer image into sampling-ready state *)
  cmdBuffer <- lift AllocCommandBuffer ;;
  let cmdBuffer := map CmdOf cmdBuffer in
  let cmdBuffer := cmdBuffer ++
    [CmdOf (CmdTransitionImageLayout image (vt_format textureVK)
              VK_IMAGE_LAYOUT_UNDEFINED VK_IMAGE_LAYOUT_TRANSFER_SRC_OPTIMAL
              (subresource textureRegion))] in
  let cmdBuffer := cmdBuffer ++
    [CmdCopyImageToBuffer image (vkBuffer stagingBuffer) (vt_format textureVK)
       {| ox := ox offset; oy := oy offset; oz := oz offset |}
       {| width := width extent; height := height extent; depth := depth extent |}
       (subresource textureRegion)] in
  let cmdBuffer := cmdBuffer ++
    [CmdOf (CmdTransitionImageLayout image (vt_format textureVK)
              VK_IMAGE_LAYOUT_TRANSFER_SRC_OPTIMAL VK_IMAGE_LAYOUT_SHADER_READ_ONLY_OPTIMAL
              (subresource textureRegion))] in
  call (CallFlushCommandBuffer cmdBuffer) ;;;
  (* Map staging buffer to CPU memory space *)
  match memoryRegion stagingBuffer with
  | Some region =>
      (* Map buffer memory to host memory *)
      call (CallMap region imageDataSize) ;;;
      match Map region imageDataSize with
      | Some memory =>
          (* Copy data to buffer object *)
          call (CallCopyTextureImageData imageDesc extent format memory) ;;;
          call (CallUnmap region)
      | None => ret tt
      end
  | None => ret tt
  end ;;;
  (* Release staging buffer *)
  _ <- lift (ReleaseMemoryRegion stagingBuffer) ;; ret tt.

End RenderSystem.

End VKReadback.

(** ** Vulkan: instance creation and the debug report callback
       ([VKRenderSystem.cpp]) *)

Module VKInstance.
Import VK.
Import Stdlib.Strings.String.

(** A C string, by the codes of its characters before the terminating NUL. *)
Definition CString := list Z.

Definition cstr (s : string) : CString :=
  List.map (fun c => Z.of_nat (Ascii.nat_of_ascii c)) (list_ascii_of_string s).

(** [::strcmp(a, b)]: zero when the strings are equal, otherwise the
    difference of the first characters that differ. *)
Fixpoint strcmp (a b : CString) : Z :=
  match a, b with
  | [], [] => 0
  | [], y :: _ => 0 - y
  | x :: _, [] => x
  | x :: a', y :: b' => if x =? y then strcmp a' b' else x - y
  end.

Definition VK_LAYER_KHRONOS_VALIDATION_NAME : CString := cstr "VK_LAYER_KHRONOS_validation".

(** Extension names of [vulkan_core.h] and the platform headers. *)
Definition VK_KHR_SURFACE_EXTENSION_NAME : CString := cstr "VK_KHR_surface".
Definition VK_KHR_WIN32_SURFACE_EXTENSION_NAME : CString := cstr "VK_KHR_win32_surface".
Definition VK_KHR_XLIB_SURFACE_EXTENSION_NAME : CString := cstr "VK_KHR_xlib_surface".
Definition VK_EXT_DEBUG_REPORT_EXTENSION_NAME : CString := cstr "VK_EXT_debug_report".

(** [VK_API_VERSION_1_0], that is [VK_MAKE_VERSION(1, 0, 0)]. *)
Definition VK_API_VERSION_1_0 : Z := Z.shiftl 1 22.

(** The platform the file is compiled for: [LLGL_OS_WIN32], [LLGL_OS_LINUX],
    or neither of the two. *)
Inductive Platform := OS_WIN32 | OS_LINUX | OS_OTHER.

Record VkApplicationInfo := {
  pApplicationName : CString;
  ai_applicationVersion : Z;
  pEngineName : CString;
  ai_engineVersion : Z;
  apiVersion : Z
}.

(** A pointer to the first element of a vector, [nullptr] as [None]. *)
Record VkInstanceCreateInfo := {
  ici_flags : Z;
  pApplicationInfo : option VkApplicationInfo;
  enabledLayerCount : Z;
  ppEnabledLayerNames : option (list CString);
  enabledExtensionCount : Z;
  ppEnabledExtensionNames : option (list CString)
}.

Section CreateInstance.

(** [debugLayerEnabled_], which the constructor sets under [LLGL_DEBUG]. *)
Variable debugLayerEnabled_ : bool.
Variable platform : Platform.

(** The loop [for (const char* layer : config->enabledLayers)] of
    [IsLayerRequired]. *)
Fixpoint IsLayerRequired_enabled (name : CString) (layers : list CString) : bool :=
  match layers with
  | [] => false
  | layer :: rest =>
      if strcmp layer name =? 0 then true else IsLayerRequired_enabled name rest
  end.

Definition IsLayerRequired (name : CString) (config : option RendererConfigurationVulkan)
    : bool :=
  if match config with
     | Some cfg => IsLayerRequired_enabled name (enabledLayers cfg)
     | None => false
     end
  then true
  else
    if debugLayerEnabled_ && (strcmp name VK_LAYER_KHRONOS_VALIDATION_NAME =? 0)
    then true
    else false.

(** [name == literal] on [std::string]. *)
Definition string_eq (a b : CString) : bool := bool_decide (a = b).

Definition IsExtensionRequired (name : CString) : bool :=
  string_eq name VK_KHR_SURFACE_EXTENSION_NAME
  || match platform with
     | OS_WIN32 => string_eq name VK_KHR_WIN32_SURFACE_EXTENSION_NAME
     | _ => false
     end
  || match platform with
     | OS_LINUX => string_eq name VK_KHR_XLIB_SURFACE_EXTENSION_NAME
     | _ => false
     end
  || (debugLayerEnabled_ && string_eq name VK_EXT_DEBUG_REPORT_EXTENSION_NAME).

(** The vector [layerNames] of [CreateInstance], from the layer properties
    the instance reports. *)
Definition layerNames (config : option RendererConfigurationVulkan)
    (layerProperties : list CString) : list CString :=
  List.filter (fun prop => IsLayerRequired prop config) layerProperties.

(** The vector [extensionNames] of [CreateInstance]. *)
Definition extensionNames (extensionProperties : list CString) : list CString :=
  List.filter IsExtensionRequired extensionProperties.

(** The [VkInstanceCreateInfo] that [CreateInstance] passes to
    [vkCreateInstance]. *)
Definition instanceInfo (config : option RendererConfigurationVulkan)
    (layerProperties extensionProperties : list CString) : VkInstanceCreateInfo :=
  let layerNames := layerNames config layerProperties in
  let extensionNames := extensionNames extensionProperties in
  {| ici_flags := 0;
     (* Specify application descriptor *)
     pApplicationInfo :=
       match config with
       | Some cfg =>
           Some {| pApplicationName := applicationName (application cfg);
                   ai_applicationVersion := applicationVersion (application cfg);
                   pEngineName := engineName (application cfg);
                   ai_engineVersion := engineVersion (application cfg);
                   apiVersion := VK_API_VERSION_1_0 |}
       | None => None
       end;
     (* Specify layers to enable *)
     enabledLayerCount :=
       match layerNames with
       | [] => 0
       | _ => uint32 (Z.of_nat (List.length layerNames))
       end;
     ppEnabledLayerNames :=
       match layerNames with
       | [] => None
       | _ => Some layerNames
       end;
     (* Specify extensions to enable *)
     enabledExtensionCount :=
       match extensionNames with
       | [] => 0
       | _ => uint32 (Z.of_nat (List.length extensionNames))
       end;
     ppEnabledExtensionNames :=
       match extensionNames with
       | [] => None
       | _ => Some extensionNames
       end |}.

End CreateInstance.

(** *** The debug report callback *)

(** Bit values of [VkDebugReportFlagBitsEXT]. *)
Definition VK_DEBUG_REPORT_INFORMATION_BIT_EXT : Z := 1.
Definition VK_DEBUG_REPORT_WARNING_BIT_EXT : Z := 2.
Definition VK_DEBUG_REPORT_PERFORMANCE_WARNING_BIT_EXT : Z := 4.
Definition VK_DEBUG_REPORT_ERROR_BIT_EXT : Z := 8.
Definition VK_DEBUG_REPORT_DEBUG_BIT_EXT : Z := 16.

(** [Log::ReportType], as far as the file uses it. *)
Inductive ReportType := Information | Warning | Error | Performance.

Definition ToReportType (flags : Z) : ReportType :=
  if negb (Z.land flags VK_DEBUG_REPORT_ERROR_BIT_EXT =? 0) then Error
  else if negb (Z.land flags VK_DEBUG_REPORT_WARNING_BIT_EXT =? 0) then Warning
  else if negb (Z.land flags VK_DEBUG_REPORT_PERFORMANCE_WARNING_BIT_EXT =? 0) then Performance
  else Information.

(** [Log::PostReport(type, message, "vkDebugReportCallback")], as the report
    posted. *)
Record Report := {
  reportType : ReportType;
  reportMessage : CString;
  reportSource : CString
}.

Definition VK_FALSE : Z := 0.

(** [VKDebugCallback]: the report it posts and the value it returns. *)
Definition VKDebugCallback (flags : Z) (message : CString) : Report * Z :=
  ({| reportType := ToReportType flags;
      reportMessage := message;
      reportSource := cstr "vkDebugReportCallback" |},
   VK_FALSE).

(** The [flags] of the [VkDebugReportCallbackCreateInfoEXT] that
    [CreateDebugReportCallback] builds. *)
Definition debugReportFlags : Z :=
  let flags := 0 in
  let flags := Z.lor flags VK_DEBUG_REPORT_WARNING_BIT_EXT in
  let flags := Z.lor flags VK_DEBUG_REPORT_ERROR_BIT_EXT in
  flags.

End VKInstance.

(** ** More concrete inputs *)

Module Sample2.
Import Stdlib.Strings.String.

(** A configuration that asks for the API-dump layer and for a layer no
    instance reports. *)
Definition apiDump : VKInstance.CString := VKInstance.cstr "VK_LAYER_LUNARG_api_dump".
Definition unknownLayer : VKInstance.CString := VKInstance.cstr "VK_LAYER_unknown".

Definition config : VK.RendererConfigurationVulkan :=
  {| VK.application :=
       {| VK.applicationName := VKInstance.cstr "app"; VK.applicationVersion := 1;
          VK.engineName := VKInstance.cstr "engine"; VK.engineVersion := 1 |};
     VK.enabledLayers := [apiDump; unknownLayer];
     VK.minDeviceMemoryAllocationSize := 1024;
     VK.reduceDeviceMemoryFragmentation := false |}.

(** The layers an instance reports. *)
Definition reportedLayers : list VKInstance.CString :=
  [VKInstance.VK_LAYER_KHRONOS_VALIDATION_NAME; apiDump].

(** A 2D texture of the Direct3D 11 render system. *)
Definition d3dTexture2D : D3D11.D3D11Texture :=
  {| D3D11.texId := 1%positive; D3D11.texType := Texture2D |}.

(** A region of 2x1 texels at (1, 1) in MIP level 0, over two layers. *)
Definition region2x1 : TextureRegion :=
  {| subresource := {| baseArrayLayer := 0; numArrayLayers := 2;
                       baseMipLevel := 0; numMipLevels := 1 |};
     offset := {| ox := 1; oy := 1; oz := 0 |};
     extent := {| width := 2; height := 1; depth := 1 |} |}.

(** A buffer the CPU only reads. *)
Definition cpuReadableBuffer : BufferDescriptor :=
  {| buf_size := 16; buf_bindFlags := 0; buf_cpuAccessFlags := 1; buf_miscFlags := 0 |}.

(** A machine on which the hardware driver fails with the debug layer, and
    whose device answers the query for [ID3D11Device2] only. *)
Definition E_FAIL : D3D11Device.HRESULT := -2147467259.
Definition E_NOINTERFACE : D3D11Device.HRESULT := -2147467262.

Definition createDevice (driver : D3D11Setup.D3D_DRIVER_TYPE) (flags : Z)
    : D3D11Device.HRESULT :=
  if flags =? 0 then D3D11Device.S_OK
  else
    match driver with
    | D3D11Setup.D3D_DRIVER_TYPE_HARDWARE => E_FAIL
    | _ => D3D11Device.S_OK
    end.

Definition queryInterface (n : Z) : D3D11Device.HRESULT * bool :=
  if n =? 2 then (D3D11Device.S_OK, true) else (E_NOINTERFACE, false).

End Sample2.

(** * Properties *)

(** ** The monad *)

Lemma bind_ret_l {S A B} (a : A) (k : A -> M S B) (s : S) :
  bind (ret a) k s = k a s.
Proof. reflexivity. Qed.

Lemma bind_assoc {S A B C} (m : M S A) (k : A -> M S B) (h : B -> M S C) (s : S) :
  bind (bind m k) h s = bind m (fun a => bind (k a) h) s.
Proof. unfold bind. destruct (m s); reflexivity. Qed.

Lemma bind_returned {S A B} (m : M S A) (k : A -> M S B) (s s' : S) (a : A) :
  m s = Returned a s' -> bind m k s = k a s'.
Proof. intros H. unfold bind. rewrite H. reflexivity. Qed.

Lemma bind_thrown {S A B} (m : M S A) (k : A -> M S B) (s s' : S) (e : Exception) :
  m s = Thrown e s' -> bind m k s = Thrown e s'.
Proof. intros H. unfold bind. rewrite H. reflexivity. Qed.

(** Membership goals over literal lists and over unions and differences of
    region sets. *)
Ltac solve_elem :=
  rewrite ?elem_of_app, ?elem_of_cons, ?elem_of_nil,
    ?elem_of_difference, ?elem_of_union, ?elem_of_singleton;
  intuition congruence.

Lemma is_null_false {A} (p : option A) : is_null p = false <-> p <> None.
Proof. destruct p; simpl; split; congruence. Qed.

(** ** Vulkan: buffers *)

Section VKBuffers.
Context {E : Externals}.
Import VK.

Abbreviation HOST_VISIBLE_COHERENT :=
  (Z.lor VK_MEMORY_PROPERTY_HOST_VISIBLE_BIT VK_MEMORY_PROPERTY_HOST_COHERENT_BIT).
Abbreviation TRANSFER_SRC_DST :=
  (Z.lor VK_BUFFER_USAGE_TRANSFER_SRC_BIT VK_BUFFER_USAGE_TRANSFER_DST_BIT).

(** Creating and initializing a staging buffer always returns: it hands out
    two fresh handles, leases the second as the buffer's region, and writes
    the host data exactly when there is some. *)
Lemma CreateStagingBufferAndInitialize_returns createInfo data dataSize st :
  exists st',
    CreateStagingBufferAndInitialize createInfo data dataSize st
      = Returned {| vkBuffer := Some (nextHandle st);
                    memoryRegion := Some (Pos.succ (nextHandle st)) |} st'
    /\ trace st' = trace st
         ++ [EvCreateDeviceBuffer (nextHandle st) createInfo;
             EvAllocate (Pos.succ (nextHandle st)) HOST_VISIBLE_COHERENT;
             EvBindMemoryRegion (nextHandle st) (Pos.succ (nextHandle st))]
         ++ (if negb (is_null data) && (0 <? dataSize)
             then [EvWriteBuffer (Some (nextHandle st)) data dataSize None]
             else [])
    /\ regions (deviceMemoryMngr_ st')
         = {[ Pos.succ (nextHandle st) ]} ∪ regions (deviceMemoryMngr_ st)
    /\ buffers_ st' = buffers_ st
    /\ textures_ st' = textures_ st
    /\ nextHandle st' = Pos.succ (Pos.succ (nextHandle st)).
Proof.
  unfold CreateStagingBufferAndInitialize, CreateStagingBuffer, MakeDeviceBuffer, Allocate.
  destruct (negb (is_null data) && (0 <? dataSize)); cbn;
    eexists; (split; [reflexivity|]); cbn;
    rewrite <- ?app_assoc; repeat split; reflexivity.
Qed.

(** [keepsStagingBuffer] is the source's condition
    [cpuAccessFlags != 0 || (miscFlags & MiscFlags::DynamicUsage) != 0]. *)
Lemma keepsStagingBuffer_iff desc :
  keepsStagingBuffer desc = true
  <-> buf_cpuAccessFlags desc <> 0
      \/ Z.land (buf_miscFlags desc) MiscFlags_DynamicUsage <> 0.
Proof.
  unfold keepsStagingBuffer.
  rewrite orb_true_iff, !negb_true_iff, !Z.eqb_neq. reflexivity.
Qed.

(** [WriteBuffer] through a retained staging buffer: two calls, and the
    manager and the registry are left as they were. *)
Lemma WriteBuffer_retained bufferVK staging offset data dataSize st :
  GetStagingVkBuffer bufferVK = Some staging ->
  exists st',
    WriteBuffer bufferVK offset data dataSize st = Returned tt st'
    /\ trace st' = trace st
         ++ [EvWriteBuffer (Some staging) data dataSize (Some offset);
             EvCopyBuffer (Some staging) (GetVkBuffer bufferVK) dataSize
               (Some (offset, offset))]
    /\ deviceMemoryMngr_ st' = deviceMemoryMngr_ st
    /\ buffers_ st' = buffers_ st
    /\ nextHandle st' = nextHandle st.
Proof.
  intros Hstaging. unfold WriteBuffer. rewrite Hstaging. cbn [is_null negb].
  unfold GetStagingDeviceBuffer. unfold GetStagingVkBuffer in Hstaging.
  rewrite Hstaging. cbn.
  eexists. split; [reflexivity|]. cbn. rewrite <- app_assoc. repeat split; reflexivity.
Qed.

(** [WriteBuffer] without a retained staging buffer: the staging buffer is
    created, filled, copied from and its region released. *)
Lemma WriteBuffer_transient bufferVK offset data dataSize st :
  GetStagingVkBuffer bufferVK = None ->
  exists st',
    WriteBuffer bufferVK offset data dataSize st = Returned tt st'
    /\ trace st' = trace st
         ++ [EvCreateDeviceBuffer (nextHandle st)
               {| ci_size := dataSize; ci_usage := TRANSFER_SRC_DST |};
             EvAllocate (Pos.succ (nextHandle st)) HOST_VISIBLE_COHERENT;
             EvBindMemoryRegion (nextHandle st) (Pos.succ (nextHandle st))]
         ++ (if negb (is_null data) && (0 <? dataSize)
             then [EvWriteBuffer (Some (nextHandle st)) data dataSize None]
             else [])
         ++ [EvCopyBuffer (Some (nextHandle st)) (GetVkBuffer bufferVK) dataSize
               (Some (0, offset));
             EvRelease (Pos.succ (nextHandle st))]
    /\ regions (deviceMemoryMngr_ st')
         = ({[ Pos.succ (nextHandle st) ]} ∪ regions (deviceMemoryMngr_ st))
             ∖ {[ Pos.succ (nextHandle st) ]}
    /\ buffers_ st' = buffers_ st
    /\ nextHandle st' = Pos.succ (Pos.succ (nextHandle st)).
Proof.
  intros Hstaging. unfold WriteBuffer. rewrite Hstaging. cbn [is_null negb].
  destruct (CreateStagingBufferAndInitialize_returns
              (BuildVkBufferCreateInfo dataSize TRANSFER_SRC_DST) data dataSize st)
    as (st1 & Hrun & Htrace & Hregions & Hbuffers & _ & Hnext).
  rewrite (bind_returned _ _ _ _ _ Hrun).
  unfold ReleaseMemoryRegion, Release. cbn.
  eexists. split; [reflexivity|]. cbn.
  rewrite Htrace, Hregions. split; [|auto].
  rewrite <- !app_assoc. reflexivity.
Qed.

(** Releasing the region of a device buffer that holds one always returns and
    takes the region out of the leased set. *)
Lemma ReleaseMemoryRegion_returns b r st :
  memoryRegion b = Some r ->
  exists st',
    ReleaseMemoryRegion b st = Returned {| vkBuffer := vkBuffer b; memoryRegion := None |} st'
    /\ trace st' = trace st ++ [EvRelease r]
    /\ regions (deviceMemoryMngr_ st') = regions (deviceMemoryMngr_ st) ∖ {[ r ]}
    /\ buffers_ st' = buffers_ st
    /\ nextHandle st' = nextHandle st.
Proof.
  intros Hr. unfold ReleaseMemoryRegion, Release. rewrite Hr. cbn.
  eexists. split; [reflexivity|]. cbn. repeat split; reflexivity.
Qed.

(** The outcome of [CreateBuffer] on a descriptor that passes
    [AssertCreateBuffer]: the handles it hands out, the calls it makes, the
    buffer object it registers and the regions it leaves leased. *)
Lemma CreateBuffer_returns desc initialData st :
  AssertCreateBuffer desc UINT64_MAX = true ->
  let staging := nextHandle st in
  let stagingRegion := Pos.succ staging in
  let buffer := Pos.succ stagingRegion in
  let region := Pos.succ buffer in
  exists st',
    CreateBuffer desc initialData st = Returned buffer st'
    /\ trace st' = trace st
         ++ [EvCreateDeviceBuffer staging
               {| ci_size := buf_size desc;
                  ci_usage := GetStagingVkBufferUsageFlags (buf_cpuAccessFlags desc) |};
             EvAllocate stagingRegion HOST_VISIBLE_COHERENT;
             EvBindMemoryRegion staging stagingRegion]
         ++ (if negb (is_null initialData) && (0 <? buf_size desc)
             then [EvWriteBuffer (Some staging) initialData (buf_size desc) None]
             else [])
         ++ [EvCreateBufferObject buffer desc;
             EvAllocate region VK_MEMORY_PROPERTY_DEVICE_LOCAL_BIT;
             EvBindMemoryRegion buffer region;
             EvCopyBuffer (Some staging) (Some buffer) (buf_size desc) None]
         ++ (if keepsStagingBuffer desc then [] else [EvRelease stagingRegion])
    /\ buffers_ st' !! buffer
         = Some {| bufferObj := {| vkBuffer := Some buffer; memoryRegion := Some region |};
                   bufferObjStaging :=
                     if keepsStagingBuffer desc
                     then {| vkBuffer := Some staging; memoryRegion := Some stagingRegion |}
                     else nullDeviceBuffer |}
    /\ regions (deviceMemoryMngr_ st')
         = (if keepsStagingBuffer desc
            then {[ region ]} ∪ ({[ stagingRegion ]} ∪ regions (deviceMemoryMngr_ st))
            else ({[ region ]} ∪ ({[ stagingRegion ]} ∪ regions (deviceMemoryMngr_ st)))
                   ∖ {[ stagingRegion ]})
    /\ (forall h : Handle, h <> buffer -> buffers_ st' !! h = buffers_ st !! h)
    /\ nextHandle st' = Pos.succ region.
Proof.
  intros Hassert. cbn zeta. unfold CreateBuffer. rewrite Hassert. cbn [negb].
  destruct (CreateStagingBufferAndInitialize_returns
              (BuildVkBufferCreateInfo (buf_size desc)
                 (GetStagingVkBufferUsageFlags (buf_cpuAccessFlags desc)))
              initialData (buf_size desc) st)
    as (st1 & Hrun & Htrace & Hregions & Hbuffers & _ & Hnext).
  rewrite (bind_returned _ _ _ _ _ Hrun).
  unfold Allocate, ReleaseMemoryRegion, Release.
  destruct (keepsStagingBuffer desc); cbn; rewrite Hnext;
    (eexists; split; [reflexivity|]); cbn;
    rewrite Htrace, Hregions; unfold BuildVkBufferCreateInfo;
    (split; [rewrite <- !app_assoc; reflexivity|]);
    (split; [rewrite lookup_insert_eq; reflexivity|]);
    (split; [reflexivity|]);
    (split; [|reflexivity]);
    intros h Hh; rewrite !lookup_insert_ne by congruence;
    rewrite Hbuffers; reflexivity.
Qed.

(** C9. [CreateBuffer], whatever [initialData] is, creates a host-visible
    staging buffer of the full buffer size and copies the full size from it
    into the primary buffer, which lives in device-local memory; the host
    write into the staging buffer is made if and only if the data pointer is
    not null and the size is positive.  A null [initialData] therefore still
    has the copy made, from a staging buffer nothing was written to. *)
Theorem VK_CreateBuffer_always_stages_and_copies
    (desc : BufferDescriptor) (initialData : HostPtr) (st : VKRenderSystem)
    (Hassert : AssertCreateBuffer desc UINT64_MAX = true) :
  let staging := nextHandle st in
  let stagingRegion := Pos.succ staging in
  let buffer := Pos.succ stagingRegion in
  let region := Pos.succ buffer in
  exists st' evs,
    CreateBuffer desc initialData st = Returned buffer st'
    /\ trace st' = trace st ++ evs
    /\ EvCreateDeviceBuffer staging
         {| ci_size := buf_size desc;
            ci_usage := GetStagingVkBufferUsageFlags (buf_cpuAccessFlags desc) |} ∈ evs
    /\ EvAllocate stagingRegion HOST_VISIBLE_COHERENT ∈ evs
    /\ EvAllocate region VK_MEMORY_PROPERTY_DEVICE_LOCAL_BIT ∈ evs
    /\ EvCopyBuffer (Some staging) (Some buffer) (buf_size desc) None ∈ evs
    /\ (forall b data size dstOffset,
          EvWriteBuffer b data size dstOffset ∈ evs
          <-> (initialData <> None /\ 0 < buf_size desc)
              /\ b = Some staging /\ data = initialData
              /\ size = buf_size desc /\ dstOffset = None).
Proof.
  cbn zeta.
  destruct (CreateBuffer_returns desc initialData st Hassert)
    as (st' & Hrun & Htrace & _).
  eexists st', _. split; [exact Hrun|]. split; [exact Htrace|].
  split; [solve_elem|]. split; [solve_elem|].
  split; [solve_elem|].
  split; [solve_elem|].
  intros b data size dstOffset.
  rewrite !elem_of_app.
  destruct initialData as [bs|]; cbn [is_null negb andb];
    destruct (Z.ltb_spec 0 (buf_size desc));
    destruct (keepsStagingBuffer desc);
    rewrite ?elem_of_cons, ?elem_of_nil;
    split; intros H'; intuition (try congruence; try lia).
Qed.

(** C1. [WriteBuffer]: with a retained staging buffer the host data is written
    into it at [offset] and a copy of [dataSize] bytes from staging offset
    [offset] to destination offset [offset] follows, the set of leased regions
    being left as it was; without one, a staging buffer of [dataSize] bytes is
    created in host-visible coherent memory and initialized with the data
    (the host write is the one of [CreateStagingBufferAndInitialize], made
    when the data pointer is not null and [dataSize] is positive), a copy from
    staging offset 0 to destination offset [offset] follows, and the staging
    region is released as the last call, so that it is no longer leased when
    the call returns. *)
Theorem VK_WriteBuffer_staging_protocol
    (bufferVK : VKBuffer) (offset : Z) (data : HostPtr) (dataSize : Z) (st : VKRenderSystem) :
  exists st',
    WriteBuffer bufferVK offset data dataSize st = Returned tt st'
    /\ match GetStagingVkBuffer bufferVK with
       | Some staging =>
           trace st' = trace st
             ++ [EvWriteBuffer (Some staging) data dataSize (Some offset);
                 EvCopyBuffer (Some staging) (GetVkBuffer bufferVK) dataSize
                   (Some (offset, offset))]
           /\ regions (deviceMemoryMngr_ st') = regions (deviceMemoryMngr_ st)
       | None =>
           let staging := nextHandle st in
           let region := Pos.succ staging in
           trace st' = trace st
             ++ [EvCreateDeviceBuffer staging
                   {| ci_size := dataSize; ci_usage := TRANSFER_SRC_DST |};
                 EvAllocate region HOST_VISIBLE_COHERENT;
                 EvBindMemoryRegion staging region]
             ++ (if negb (is_null data) && (0 <? dataSize)
                 then [EvWriteBuffer (Some staging) data dataSize None]
                 else [])
             ++ [EvCopyBuffer (Some staging) (GetVkBuffer bufferVK) dataSize
                   (Some (0, offset));
                 EvRelease region]
           /\ region ∉ regions (deviceMemoryMngr_ st')
       end.
Proof.
  destruct (GetStagingVkBuffer bufferVK) as [staging|] eqn:Hstaging.
  - destruct (WriteBuffer_retained bufferVK staging offset data dataSize st Hstaging)
      as (st' & Hrun & Htrace & Hmngr & _).
    exists st'. rewrite Hmngr. auto.
  - destruct (WriteBuffer_transient bufferVK offset data dataSize st Hstaging)
      as (st' & Hrun & Htrace & Hregions & _).
    exists st'. cbn zeta. rewrite Hregions. repeat split; [assumption..|].
    intros Hin. apply elem_of_difference in Hin as [_ Hnot].
    apply Hnot, elem_of_singleton. reflexivity.
Qed.

End VKBuffers.

(** ** Vulkan: textures *)

Section VKTextures.
Context {E : Externals}.
Import VK.

Abbreviation HOST_VISIBLE_COHERENT :=
  (Z.lor VK_MEMORY_PROPERTY_HOST_VISIBLE_BIT VK_MEMORY_PROPERTY_HOST_COHERENT_BIT).

Lemma stagingCalls_no_flush staging size data cmds :
  EvFlushCommandBuffer cmds ∉ stagingCalls staging size data.
Proof.
  unfold stagingCalls. destruct (negb (is_null data) && (0 <? size)); solve_elem.
Qed.

Lemma stagingCalls_no_release staging size data r :
  EvRelease r ∉ stagingCalls staging size data.
Proof.
  unfold stagingCalls. destruct (negb (is_null data) && (0 <? size)); solve_elem.
Qed.

(** What [WriteTexture] does on every input: it throws exactly when
    [AssertImageDataSize] rejects the caller's size against
    [requiredDataSize], with the state untouched; otherwise it stages the
    image, records the upload, flushes and releases. *)
Lemma WriteTexture_outcome textureVK textureRegion imageDesc st :
  let format := VKTypes_Unmap (vt_format textureVK) in
  let imageSize :=
    uint32 (width (extent textureRegion) * height (extent textureRegion)
            * depth (extent textureRegion)) in
  let imageDataSize := GetMemoryFootprint format imageSize in
  let formatAttribs := GetFormatAttribs format in
  let staging := nextHandle st in
  if AssertImageDataSize (img_dataSize imageDesc)
       (requiredDataSize formatAttribs imageDesc imageSize imageDataSize)
  then
    exists st',
      WriteTexture textureVK textureRegion imageDesc st = Returned tt st'
      /\ trace st' = trace st
           ++ stagingCalls staging imageDataSize (stagedImageData formatAttribs imageDesc)
           ++ [EvAllocCommandBuffer;
               EvFlushCommandBuffer
                 (uploadCommands (Some staging) (vt_image textureVK) (vt_format textureVK)
                    (offset textureRegion) (extent textureRegion) (subresource textureRegion));
               EvRelease (Pos.succ staging)]
      /\ regions (deviceMemoryMngr_ st')
           = ({[ Pos.succ staging ]} ∪ regions (deviceMemoryMngr_ st)) ∖ {[ Pos.succ staging ]}
      /\ buffers_ st' = buffers_ st
      /\ nextHandle st' = Pos.succ (Pos.succ staging)
  else
    WriteTexture textureVK textureRegion imageDesc st = Thrown ExImageDataSizeMismatch st.
Proof.
  cbn zeta. unfold WriteTexture. cbv zeta.
  match goal with |- context [bind ?m _ st] =>
    assert (Hsel : m st
      = if AssertImageDataSize (img_dataSize imageDesc)
             (requiredDataSize (GetFormatAttribs (VKTypes_Unmap (vt_format textureVK)))
                imageDesc
                (uint32 (width (extent textureRegion) * height (extent textureRegion)
                         * depth (extent textureRegion)))
                (GetMemoryFootprint (VKTypes_Unmap (vt_format textureVK))
                   (uint32 (width (extent textureRegion) * height (extent textureRegion)
                            * depth (extent textureRegion)))))
        then Returned
               (stagedImageData (GetFormatAttribs (VKTypes_Unmap (vt_format textureVK)))
                  imageDesc) st
        else Thrown ExImageDataSizeMismatch st)
  end.
  { unfold requiredDataSize, stagedImageData, convertedImage, isUncompressedFormat,
      srcImageDataSize.
    match goal with |- context [match ?c with Some _ => _ | None => _ end] =>
      destruct c end;
    match goal with |- context [AssertImageDataSize ?a ?b] =>
      destruct (AssertImageDataSize a b) end; reflexivity. }
  revert Hsel.
  match goal with |- _ = (if ?b then _ else _) -> _ => destruct b end; intros Hsel;
    [rewrite (bind_returned _ _ _ _ _ Hsel); cbv beta
    |rewrite (bind_thrown _ _ _ _ _ Hsel); reflexivity].
  match goal with |- context [CreateStagingBufferAndInitialize ?ci ?d ?n] =>
    destruct (CreateStagingBufferAndInitialize_returns ci d n st)
      as (st1 & Hrun & Htrace & Hregions & Hbuffers & _ & Hnext) end.
  rewrite (bind_returned _ _ _ _ _ Hrun).
  unfold ReleaseMemoryRegion, Release, AllocCommandBuffer, FlushCommandBuffer. cbn.
  eexists. split; [reflexivity|]. cbn. rewrite Htrace, Hregions.
  split; [|auto].
  unfold stagingCalls, uploadCommands, record, BuildVkBufferCreateInfo.
  destruct (offset textureRegion), (extent textureRegion).
  rewrite <- !app_assoc. reflexivity.
Qed.

(** What [CreateTexture] does on every input. *)
Lemma CreateTexture_outcome textureDesc imageDesc st :
  let imageSize := NumMipTexels textureDesc 0 in
  let initialDataSize := GetMemoryFootprint (tex_format textureDesc) imageSize in
  let formatAttribs := GetFormatAttribs (tex_format textureDesc) in
  let initialData :=
    match imageDesc with
    | Some imageDesc => stagedImageData formatAttribs imageDesc
    | None => defaultImageData textureDesc imageSize initialDataSize
    end in
  let staging := nextHandle st in
  let image := Pos.succ (Pos.succ staging) in
  if match imageDesc with
     | Some imageDesc =>
         AssertImageDataSize (img_dataSize imageDesc)
           (requiredDataSize formatAttribs imageDesc imageSize initialDataSize)
     | None => true
     end
  then
    exists st',
      CreateTexture textureDesc imageDesc st = Returned image st'
      /\ trace st' = trace st
           ++ stagingCalls staging initialDataSize initialData
           ++ [EvCreateTextureObject image (Pos.succ image) textureDesc;
               EvAllocCommandBuffer;
               EvFlushCommandBuffer
                 (createCommands textureDesc (negb (is_null imageDesc)) (Some staging) image);
               EvRelease (Pos.succ staging);
               EvCreateInternalImageView image]
      /\ regions (deviceMemoryMngr_ st')
           = ({[ Pos.succ image ]} ∪ ({[ Pos.succ staging ]} ∪ regions (deviceMemoryMngr_ st)))
               ∖ {[ Pos.succ staging ]}
      /\ buffers_ st' = buffers_ st
      /\ nextHandle st' = Pos.succ (Pos.succ image)
  else
    CreateTexture textureDesc imageDesc st = Thrown ExImageDataSizeMismatch st.
Proof.
  cbn zeta. unfold CreateTexture. cbv zeta.
  match goal with |- context [bind ?m _ st] =>
    assert (Hsel : m st
      = if match imageDesc with
           | Some imageDesc =>
               AssertImageDataSize (img_dataSize imageDesc)
                 (requiredDataSize (GetFormatAttribs (tex_format textureDesc)) imageDesc
                    (NumMipTexels textureDesc 0)
                    (GetMemoryFootprint (tex_format textureDesc) (NumMipTexels textureDesc 0)))
           | None => true
           end
        then Returned
               (match imageDesc with
                | Some imageDesc =>
                    stagedImageData (GetFormatAttribs (tex_format textureDesc)) imageDesc
                | None =>
                    defaultImageData textureDesc (NumMipTexels textureDesc 0)
                      (GetMemoryFootprint (tex_format textureDesc) (NumMipTexels textureDesc 0))
                end) st
        else Thrown ExImageDataSizeMismatch st)
  end.
  { unfold requiredDataSize, stagedImageData, defaultImageData, convertedImage,
      isUncompressedFormat, srcImageDataSize. cbv zeta.
    destruct imageDesc as [imageDesc|].
    - match goal with |- context [match ?c with Some _ => _ | None => _ end] =>
        destruct c end;
      match goal with |- context [AssertImageDataSize ?a ?b] =>
        destruct (AssertImageDataSize a b) end; reflexivity.
    - repeat match goal with |- context [if ?c then _ else _] => destruct c end;
        reflexivity. }
  revert Hsel.
  match goal with |- _ = (if ?b then _ else _) -> _ => destruct b end; intros Hsel;
    [rewrite (bind_returned _ _ _ _ _ Hsel); cbv beta
    |rewrite (bind_thrown _ _ _ _ _ Hsel); reflexivity].
  match goal with |- context [CreateStagingBufferAndInitialize ?ci ?d ?n] =>
    destruct (CreateStagingBufferAndInitialize_returns ci d n st)
      as (st1 & Hrun & Htrace & Hregions & Hbuffers & _ & Hnext) end.
  rewrite (bind_returned _ _ _ _ _ Hrun).
  unfold MakeTexture, ReleaseMemoryRegion, Release, AllocCommandBuffer, FlushCommandBuffer.
  cbn. rewrite Hnext.
  eexists. split; [reflexivity|]. cbn. rewrite Htrace, Hregions.
  split; [|auto].
  unfold stagingCalls, createCommands, uploadCommands, record, BuildVkBufferCreateInfo.
  rewrite <- !app_assoc.
  destruct (negb (is_null imageDesc) && MustGenerateMipsOnCreate textureDesc); reflexivity.
Qed.

(** C3 (amended). The commands a texture write records and flushes.
    [WriteTexture], when the image size passes validation, records exactly the
    transition of the target subresource from Undefined to TransferDst, the
    buffer-to-image copy and the transition from TransferDst to
    ShaderReadOnly.  [CreateTexture] with initial data records the same three
    commands over all layers and MIP levels, followed by the MIP-map
    generation when [MustGenerateMipsOnCreate] asks for it.  In both, the
    command buffer is flushed once, after everything was recorded, and the
    staging region is released by the call that follows the flush and by no
    earlier one; when validation fails nothing is recorded at all. *)
Theorem VK_texture_write_command_sequence
    (textureVK : VKTexture) (textureRegion : TextureRegion)
    (textureDesc : TextureDescriptor) (imageDesc : SrcImageDescriptor)
    (st : VKRenderSystem) :
  let staging := nextHandle st in
  let stagingRegion := Pos.succ staging in
  (let format := VKTypes_Unmap (vt_format textureVK) in
   let imageSize :=
     uint32 (width (extent textureRegion) * height (extent textureRegion)
             * depth (extent textureRegion)) in
   if AssertImageDataSize (img_dataSize imageDesc)
        (requiredDataSize (GetFormatAttribs format) imageDesc imageSize
           (GetMemoryFootprint format imageSize))
   then
     exists st' pre,
       WriteTexture textureVK textureRegion imageDesc st = Returned tt st'
       /\ trace st' = trace st ++ pre
            ++ [EvFlushCommandBuffer
                  (uploadCommands (Some staging) (vt_image textureVK) (vt_format textureVK)
                     (offset textureRegion) (extent textureRegion)
                     (subresource textureRegion));
                EvRelease stagingRegion]
       /\ (forall cmds, EvFlushCommandBuffer cmds ∉ pre)
       /\ (EvRelease stagingRegion ∉ pre)
       /\ (stagingRegion ∉ regions (deviceMemoryMngr_ st'))
   else
     WriteTexture textureVK textureRegion imageDesc st = Thrown ExImageDataSizeMismatch st)
  /\
  (let imageSize := NumMipTexels textureDesc 0 in
   let image := Pos.succ stagingRegion in
   let subres :=
     {| baseArrayLayer := 0; numArrayLayers := NumTextureLayers textureDesc;
        baseMipLevel := 0; numMipLevels := NumTextureMipLevels textureDesc |} in
   if AssertImageDataSize (img_dataSize imageDesc)
        (requiredDataSize (GetFormatAttribs (tex_format textureDesc)) imageDesc imageSize
           (GetMemoryFootprint (tex_format textureDesc) imageSize))
   then
     exists st' pre,
       CreateTexture textureDesc (Some imageDesc) st = Returned image st'
       /\ trace st' = trace st ++ pre
            ++ [EvFlushCommandBuffer
                  (uploadCommands (Some staging) image (VKTypes_Map (tex_format textureDesc))
                     {| ox := 0; oy := 0; oz := 0 |} (TextureVkExtent textureDesc) subres
                   ++ (if MustGenerateMipsOnCreate textureDesc
                       then [CmdGenerateMips image (VKTypes_Map (tex_format textureDesc))
                               (TextureVkExtent textureDesc) subres]
                       else []));
                EvRelease stagingRegion;
                EvCreateInternalImageView image]
       /\ (forall cmds, EvFlushCommandBuffer cmds ∉ pre)
       /\ (EvRelease stagingRegion ∉ pre)
       /\ (stagingRegion ∉ regions (deviceMemoryMngr_ st'))
   else
     CreateTexture textureDesc (Some imageDesc) st = Thrown ExImageDataSizeMismatch st).
Proof.
  cbn zeta. split.
  - pose proof (WriteTexture_outcome textureVK textureRegion imageDesc st) as Hout.
    cbn zeta in Hout.
    match goal with |- context [AssertImageDataSize ?a ?b] =>
      destruct (AssertImageDataSize a b) end; [|exact Hout].
    destruct Hout as (st' & Hrun & Htrace & Hregions & _).
    eexists st', (stagingCalls _ _ _ ++ [EvAllocCommandBuffer]).
    split; [exact Hrun|].
    split; [rewrite Htrace, <- !app_assoc; reflexivity|].
    split; [intros cmds Hin; apply elem_of_app in Hin as [Hin|Hin];
            [exact (stagingCalls_no_flush _ _ _ _ Hin)|revert Hin; solve_elem]|].
    split; [intros Hin; apply elem_of_app in Hin as [Hin|Hin];
            [exact (stagingCalls_no_release _ _ _ _ Hin)|revert Hin; solve_elem]|].
    rewrite Hregions. solve_elem.
  - pose proof (CreateTexture_outcome textureDesc (Some imageDesc) st) as Hout.
    cbv beta iota zeta in Hout. unfold createCommands in Hout.
    cbn [is_null negb andb] in Hout.
    match goal with |- context [AssertImageDataSize ?a ?b] =>
      destruct (AssertImageDataSize a b) end; [|exact Hout].
    destruct Hout as (st' & Hrun & Htrace & Hregions & _).
    eexists st', (stagingCalls _ _ _ ++ [EvCreateTextureObject _ _ _; EvAllocCommandBuffer]).
    split; [exact Hrun|].
    split; [rewrite Htrace, <- !app_assoc; reflexivity|].
    split; [intros cmds Hin; apply elem_of_app in Hin as [Hin|Hin];
            [exact (stagingCalls_no_flush _ _ _ _ Hin)|revert Hin; solve_elem]|].
    split; [intros Hin; apply elem_of_app in Hin as [Hin|Hin];
            [exact (stagingCalls_no_release _ _ _ _ Hin)|revert Hin; solve_elem]|].
    rewrite Hregions. solve_elem.
Qed.

(** C4 (amended). When the image has to be converted, the caller's data size
    is validated against the size of the source image in its own format,
    [imageSize * ImageFormatSize(format) * DataTypeSize(dataType)], not
    against the size of the converted image; a size that fails the validation
    ends the call with the size error and with no call made on the device,
    and one that passes has the converted buffer staged. *)
Theorem VK_image_size_validated_against_source_format
    (textureVK : VKTexture) (textureRegion : TextureRegion)
    (textureDesc : TextureDescriptor) (imageDesc : SrcImageDescriptor)
    (bufW bufC : ByteBuffer) (st : VKRenderSystem)
    (HconvW : convertedImage (GetFormatAttribs (VKTypes_Unmap (vt_format textureVK))) imageDesc
              = Some bufW)
    (HconvC : convertedImage (GetFormatAttribs (tex_format textureDesc)) imageDesc
              = Some bufC) :
  (let imageSize :=
     uint32 (width (extent textureRegion) * height (extent textureRegion)
             * depth (extent textureRegion)) in
   let convertedSize := GetMemoryFootprint (VKTypes_Unmap (vt_format textureVK)) imageSize in
   if AssertImageDataSize (img_dataSize imageDesc) (srcImageDataSize imageSize imageDesc)
   then
     exists st' rest,
       WriteTexture textureVK textureRegion imageDesc st = Returned tt st'
       /\ trace st' = trace st
            ++ stagingCalls (nextHandle st) convertedSize (Some bufW) ++ rest
   else
     WriteTexture textureVK textureRegion imageDesc st = Thrown ExImageDataSizeMismatch st)
  /\
  (let imageSize := NumMipTexels textureDesc 0 in
   let convertedSize := GetMemoryFootprint (tex_format textureDesc) imageSize in
   if AssertImageDataSize (img_dataSize imageDesc) (srcImageDataSize imageSize imageDesc)
   then
     exists st' image rest,
       CreateTexture textureDesc (Some imageDesc) st = Returned image st'
       /\ trace st' = trace st
            ++ stagingCalls (nextHandle st) convertedSize (Some bufC) ++ rest
   else
     CreateTexture textureDesc (Some imageDesc) st = Thrown ExImageDataSizeMismatch st).
Proof.
  cbn zeta. split.
  - pose proof (WriteTexture_outcome textureVK textureRegion imageDesc st) as Hout.
    cbn zeta in Hout. unfold requiredDataSize, stagedImageData in Hout.
    rewrite HconvW in Hout.
    match goal with |- context [AssertImageDataSize ?a ?b] =>
      destruct (AssertImageDataSize a b) end; [|exact Hout].
    destruct Hout as (st' & Hrun & Htrace & _).
    eexists st', _. split; [exact Hrun|exact Htrace].
  - pose proof (CreateTexture_outcome textureDesc (Some imageDesc) st) as Hout.
    cbv beta iota zeta in Hout. unfold createCommands in Hout.
    cbn [is_null negb andb] in Hout. unfold requiredDataSize, stagedImageData in Hout.
    rewrite HconvC in Hout.
    match goal with |- context [AssertImageDataSize ?a ?b] =>
      destruct (AssertImageDataSize a b) end; [|exact Hout].
    destruct Hout as (st' & Hrun & Htrace & _).
    eexists st', _, _. split; [exact Hrun|exact Htrace].
Qed.

(** C8. The device memory manager is constructed with a minimum allocation
    size of 1024*1024 = 2^20 bytes and without fragmentation reduction when
    no Vulkan configuration is given, and with the configuration's
    [minDeviceMemoryAllocationSize] and [reduceDeviceMemoryFragmentation]
    otherwise; nothing else of the configuration reaches the manager. *)
Theorem VK_memory_manager_configuration :
  (minAllocationSize (deviceMemoryMngr_ (construct None)) = 2 ^ 20
   /\ reduceFragmentation (deviceMemoryMngr_ (construct None)) = false
   /\ EvMakeDeviceMemoryManager (1024 * 1024) false ∈ trace (construct None))
  /\ (forall cfg,
        minAllocationSize (deviceMemoryMngr_ (construct (Some cfg)))
          = minDeviceMemoryAllocationSize cfg
        /\ reduceFragmentation (deviceMemoryMngr_ (construct (Some cfg)))
            = reduceDeviceMemoryFragmentation cfg
        /\ EvMakeDeviceMemoryManager (minDeviceMemoryAllocationSize cfg)
             (reduceDeviceMemoryFragmentation cfg) ∈ trace (construct (Some cfg)))
  /\ (forall cfg cfg',
        minDeviceMemoryAllocationSize cfg = minDeviceMemoryAllocationSize cfg' ->
        reduceDeviceMemoryFragmentation cfg = reduceDeviceMemoryFragmentation cfg' ->
        deviceMemoryMngr_ (construct (Some cfg)) = deviceMemoryMngr_ (construct (Some cfg')))
  /\ (forall cfg min reduce,
        EvMakeDeviceMemoryManager min reduce ∈ trace (construct cfg) ->
        min = minAllocationSize (deviceMemoryMngr_ (construct cfg))
        /\ reduce = reduceFragmentation (deviceMemoryMngr_ (construct cfg))).
Proof.
  split; [|split; [|split]].
  - split; [reflexivity|]. split; [reflexivity|].
    unfold construct. cbn. solve_elem.
  - intros cfg. split; [reflexivity|]. split; [reflexivity|].
    unfold construct. cbn. solve_elem.
  - intros cfg cfg' Hmin Hreduce. unfold construct. cbn. rewrite Hmin, Hreduce. reflexivity.
  - intros cfg min reduce Hin. unfold construct in *. cbn in *.
    rewrite !elem_of_cons, elem_of_nil in Hin.
    destruct Hin as [Hin|[Hin|[Hin|[Hin|[Hin|[]]]]]]; try discriminate.
    injection Hin as -> ->. split; reflexivity.
Qed.

End VKTextures.

(** ** Vulkan: regions over sequences of calls *)

Section VKLifetime.
Context {E : Externals}.
Import VK.

Local Open Scope positive_scope.

Lemma Extends_refl st : Extends st st.
Proof. split; [lia|tauto|auto]. Qed.

Lemma WellFormed_construct cfg : WellFormed (construct cfg).
Proof.
  split; unfold construct; cbn.
  - intros r Hr. apply not_elem_of_empty in Hr. destruct Hr.
  - intros h b Hb. rewrite lookup_empty in Hb. discriminate.
  - intros h b r Hb. rewrite lookup_empty in Hb. discriminate.
  - intros h1 h2 b1 b2 r Hb. rewrite lookup_empty in Hb. discriminate.
Qed.

(** A call that leaves the registry of buffers alone and extends the manager
    keeps the render system well formed. *)
Lemma WellFormed_Extends st st' :
  WellFormed st -> Extends st st' -> buffers_ st' = buffers_ st -> WellFormed st'.
Proof.
  intros [Hregions Hbuffers Hleased Howner] [Hnext Hold Hnew] Heq. split.
  - intros r Hr. destruct (Hnew r Hr) as [Hin|[_ Hlt]]; [|exact Hlt].
    specialize (Hregions r Hin). lia.
  - intros h b Hb. rewrite Heq in Hb. specialize (Hbuffers h b Hb). lia.
  - intros h b r Hb Hr. rewrite Heq in Hb.
    pose proof (Hleased h b r Hb Hr) as Hin.
    apply Hold; [apply Hregions; exact Hin|exact Hin].
  - intros h1 h2 b1 b2 r Hb1 Hb2. rewrite Heq in Hb1, Hb2. eauto.
Qed.

(** Leasing the next handles and giving one of them back extends the
    manager. *)
Lemma Extends_transient st st' r :
  nextHandle st <= r -> r < nextHandle st' ->
  regions (deviceMemoryMngr_ st') = ({[ r ]} ∪ regions (deviceMemoryMngr_ st)) ∖ {[ r ]} ->
  Extends st st'.
Proof.
  intros Hle Hlt Hregions. split.
  - lia.
  - intros r' Hr'. rewrite Hregions, elem_of_difference, elem_of_union, !elem_of_singleton.
    split; [intros [[->|Hin] Hne]; [congruence|exact Hin]|].
    intros Hin. split; [right; exact Hin|]. intros ->. lia.
  - intros r'. rewrite Hregions, elem_of_difference, elem_of_union, !elem_of_singleton.
    intros [[->|Hin] Hne]; [congruence|left; exact Hin].
Qed.

Lemma WriteBuffer_Extends bufferVK offset data dataSize st :
  exists st',
    WriteBuffer bufferVK offset data dataSize st = Returned tt st'
    /\ Extends st st' /\ buffers_ st' = buffers_ st.
Proof.
  destruct (GetStagingVkBuffer bufferVK) as [staging|] eqn:Hstaging.
  - destruct (WriteBuffer_retained bufferVK staging offset data dataSize st Hstaging)
      as (st' & Hrun & _ & Hmngr & Hbuffers & Hnext).
    exists st'. split; [exact Hrun|]. split; [|exact Hbuffers].
    split; rewrite ?Hmngr, ?Hnext; [lia|tauto|auto].
  - destruct (WriteBuffer_transient bufferVK offset data dataSize st Hstaging)
      as (st' & Hrun & _ & Hregions & Hbuffers & Hnext).
    exists st'. split; [exact Hrun|]. split; [|exact Hbuffers].
    apply (Extends_transient st st' (Pos.succ (nextHandle st))); [lia|lia|exact Hregions].
Qed.

Lemma WriteTexture_Extends textureVK textureRegion imageDesc st st' :
  stateAfter (WriteTexture textureVK textureRegion imageDesc st) = Some st' ->
  Extends st st' /\ buffers_ st' = buffers_ st.
Proof.
  pose proof (WriteTexture_outcome textureVK textureRegion imageDesc st) as Hout.
  cbv zeta in Hout.
  match type of Hout with (if ?c then _ else _) => destruct c end.
  - destruct Hout as (st1 & Hrun & _ & Hregions & Hbuffers & Hnext).
    rewrite Hrun. cbn. intros [= <-]. split; [|exact Hbuffers].
    apply (Extends_transient st st1 (Pos.succ (nextHandle st))); [lia|lia|exact Hregions].
  - rewrite Hout. cbn. intros [= <-]. split; [apply Extends_refl|reflexivity].
Qed.

Lemma CreateTexture_Extends textureDesc imageDesc st st' :
  stateAfter (CreateTexture textureDesc imageDesc st) = Some st' ->
  Extends st st' /\ buffers_ st' = buffers_ st.
Proof.
  pose proof (CreateTexture_outcome textureDesc imageDesc st) as Hout.
  cbv zeta in Hout.
  match type of Hout with (if ?c then _ else _) => destruct c end.
  - destruct Hout as (st1 & Hrun & _ & Hregions & Hbuffers & Hnext).
    rewrite Hrun. cbn. intros [= <-]. split; [|exact Hbuffers].
    split.
    + lia.
    + intros r Hr.
      rewrite Hregions, elem_of_difference, !elem_of_union, !elem_of_singleton.
      split; [intros [[->|[->|Hin]] Hne]; [lia|congruence|exact Hin]|].
      intros Hin. split; [right; right; exact Hin|]. intros ->. lia.
    + intros r.
      rewrite Hregions, elem_of_difference, !elem_of_union, !elem_of_singleton.
      intros [[->|[->|Hin]] Hne]; [right; lia|congruence|left; exact Hin].
  - rewrite Hout. cbn. intros [= <-]. split; [apply Extends_refl|reflexivity].
Qed.

(** [CreateBuffer] on a descriptor [AssertCreateBuffer] rejects throws with
    the render system as it was. *)
Lemma CreateBuffer_throws desc initialData st :
  AssertCreateBuffer desc UINT64_MAX = false ->
  CreateBuffer desc initialData st = Thrown ExCreateBufferAssertion st.
Proof. intros Hassert. unfold CreateBuffer. rewrite Hassert. reflexivity. Qed.

(** [Release(Buffer&)] on any registered buffer: the regions its two device
    buffers hold go back to the manager, and the buffer leaves the
    registry. *)
Lemma ReleaseBuffer_registered buffer bufferVK st :
  buffers_ st !! buffer = Some bufferVK ->
  exists st',
    ReleaseBuffer buffer st = Returned tt st'
    /\ (forall r, r ∈ regions (deviceMemoryMngr_ st')
                  <-> r ∈ regions (deviceMemoryMngr_ st) /\ r ∉ bufferRegions bufferVK)
    /\ buffers_ st' = delete buffer (buffers_ st)
    /\ nextHandle st' = nextHandle st.
Proof.
  intros Hlookup. unfold ReleaseBuffer, gets, bind at 1. rewrite Hlookup.
  unfold bufferRegions, ReleaseMemoryRegion, Release.
  destruct bufferVK as [[b [r|]] [staging [sr|]]]; cbn;
    (eexists; split; [reflexivity|]); cbn;
    (split; [|split; reflexivity]);
    intros r'; rewrite ?elem_of_difference, ?elem_of_cons, ?elem_of_nil, ?elem_of_singleton;
    tauto.
Qed.

(** Every call leaves a well-formed render system well formed. *)
Lemma perform_WellFormed c st st' :
  WellFormed st -> stateAfter (perform c st) = Some st' -> WellFormed st'.
Proof.
  intros Hwf. destruct c as [desc initialData|buffer offset data dataSize|buffer
                            |textureDesc imageDesc|texture textureRegion imageDesc];
    cbn [perform].
  - (* CreateBuffer *)
    destruct (AssertCreateBuffer desc UINT64_MAX) eqn:Hassert.
    + destruct (CreateBuffer_returns desc initialData st Hassert)
        as (st1 & Hrun & _ & Hlookup & Hregions & Hothers & Hnext).
      cbn zeta in *. rewrite (bind_returned _ _ _ _ _ Hrun). cbn. intros [= <-].
      destruct Hwf as [Hwr Hwb Hwl Hwo].
      assert (Hin : forall r, r ∈ regions (deviceMemoryMngr_ st1) ->
                r ∈ regions (deviceMemoryMngr_ st)
                \/ r = Pos.succ (nextHandle st)
                \/ r = Pos.succ (Pos.succ (Pos.succ (nextHandle st)))).
      { intros r. rewrite Hregions. destruct (keepsStagingBuffer desc);
          rewrite ?elem_of_difference, !elem_of_union, !elem_of_singleton; tauto. }
      assert (Hold : forall r, r ∈ regions (deviceMemoryMngr_ st) ->
                r ∈ regions (deviceMemoryMngr_ st1)).
      { intros r Hr. specialize (Hwr r Hr). rewrite Hregions.
        destruct (keepsStagingBuffer desc);
          rewrite ?elem_of_difference, !elem_of_union, !elem_of_singleton;
          [tauto|]. split; [tauto|]. intros ->. lia. }
      assert (Hnew : forall r b, buffers_ st1 !! Pos.succ (Pos.succ (nextHandle st)) = Some b ->
                r ∈ bufferRegions b ->
                nextHandle st <= r /\ r ∈ regions (deviceMemoryMngr_ st1)).
      { intros r b Hb. rewrite Hlookup in Hb. injection Hb as <-.
        unfold bufferRegions. rewrite Hregions.
        destruct (keepsStagingBuffer desc); cbn;
          rewrite ?elem_of_cons, ?elem_of_nil, ?elem_of_difference,
            !elem_of_union, !elem_of_singleton;
          intros [->|[->|[]]] || intros [->|[]]; (split; [lia|]);
          try tauto.
        split; [tauto|]. lia. }
      split.
      * intros r Hr. rewrite Hnext.
        destruct (Hin r Hr) as [Hr'|[->| ->]]; [specialize (Hwr r Hr')|..]; lia.
      * intros h b Hb. rewrite Hnext.
        destruct (Pos.eq_dec h (Pos.succ (Pos.succ (nextHandle st)))) as [->|Hne]; [lia|].
        rewrite (Hothers h Hne) in Hb. specialize (Hwb h b Hb). lia.
      * intros h b r Hb Hr.
        destruct (Pos.eq_dec h (Pos.succ (Pos.succ (nextHandle st)))) as [->|Hne].
        -- apply (Hnew r b Hb Hr).
        -- rewrite (Hothers h Hne) in Hb. apply Hold. apply (Hwl h b r Hb Hr).
      * intros h1 h2 b1 b2 r Hb1 Hb2 Hr1 Hr2.
        destruct (Pos.eq_dec h1 (Pos.succ (Pos.succ (nextHandle st)))) as [->|Hne1];
          destruct (Pos.eq_dec h2 (Pos.succ (Pos.succ (nextHandle st)))) as [->|Hne2].
        -- reflexivity.
        -- rewrite (Hothers h2 Hne2) in Hb2.
           pose proof (Hwr r (Hwl h2 b2 r Hb2 Hr2)).
           destruct (Hnew r b1 Hb1 Hr1). lia.
        -- rewrite (Hothers h1 Hne1) in Hb1.
           pose proof (Hwr r (Hwl h1 b1 r Hb1 Hr1)).
           destruct (Hnew r b2 Hb2 Hr2). lia.
        -- rewrite (Hothers h1 Hne1) in Hb1. rewrite (Hothers h2 Hne2) in Hb2.
           apply (Hwo h1 h2 b1 b2 r Hb1 Hb2 Hr1 Hr2).
    + rewrite (bind_thrown _ _ _ _ _ (CreateBuffer_throws desc initialData st Hassert)).
      cbn. intros [= <-]. exact Hwf.
  - (* WriteBuffer *)
    unfold gets, bind at 1. destruct (buffers_ st !! buffer) as [bufferVK|]; [|discriminate].
    destruct (WriteBuffer_Extends bufferVK offset data dataSize st)
      as (st1 & Hrun & Hext & Hbuffers).
    rewrite Hrun. cbn. intros [= <-]. apply (WellFormed_Extends st st1 Hwf Hext Hbuffers).
  - (* Release *)
    destruct (buffers_ st !! buffer) as [bufferVK|] eqn:Hlookup.
    + destruct (ReleaseBuffer_registered buffer bufferVK st Hlookup)
        as (st1 & Hrun & Hregions & Hbuffers & Hnext).
      rewrite Hrun. cbn. intros [= <-].
      destruct Hwf as [Hwr Hwb Hwl Hwo]. split.
      * intros r Hr. rewrite Hnext. apply Hwr, Hregions, Hr.
      * intros h b. rewrite Hbuffers, Hnext, lookup_delete_Some. intros [_ Hb].
        apply (Hwb h b Hb).
      * intros h b r. rewrite Hbuffers, lookup_delete_Some. intros [Hne Hb] Hr.
        apply Hregions. split; [apply (Hwl h b r Hb Hr)|].
        intros Hr'. apply Hne. apply (Hwo buffer h bufferVK b r Hlookup Hb Hr' Hr).
      * intros h1 h2 b1 b2 r. rewrite Hbuffers, !lookup_delete_Some.
        intros [_ Hb1] [_ Hb2]. apply (Hwo h1 h2 b1 b2 r Hb1 Hb2).
    + unfold ReleaseBuffer, gets, bind at 1. rewrite Hlookup. discriminate.
  - (* CreateTexture *)
    intros Hrun.
    assert (Hrun' : stateAfter (CreateTexture textureDesc imageDesc st) = Some st').
    { revert Hrun. unfold bind.
      destruct (CreateTexture textureDesc imageDesc st); cbn; auto. }
    destruct (CreateTexture_Extends _ _ _ _ Hrun') as [Hext Hbuffers].
    apply (WellFormed_Extends st st' Hwf Hext Hbuffers).
  - (* WriteTexture *)
    unfold gets, bind at 1. destruct (textures_ st !! texture) as [textureVK|]; [|discriminate].
    intros Hrun. destruct (WriteTexture_Extends _ _ _ _ _ Hrun) as [Hext Hbuffers].
    apply (WellFormed_Extends st st' Hwf Hext Hbuffers).
Qed.

(** A registered buffer stays registered, as it is, through every call but
    its own release. *)
Lemma perform_keeps_buffer c st st' buffer bufferVK :
  WellFormed st -> buffers_ st !! buffer = Some bufferVK ->
  c <> CallReleaseBuffer buffer ->
  stateAfter (perform c st) = Some st' ->
  buffers_ st' !! buffer = Some bufferVK.
Proof.
  intros Hwf Hlookup Hne.
  destruct c as [desc initialData|buffer' offset data dataSize|buffer'
                |textureDesc imageDesc|texture textureRegion imageDesc];
    cbn [perform].
  - destruct (AssertCreateBuffer desc UINT64_MAX) eqn:Hassert.
    + destruct (CreateBuffer_returns desc initialData st Hassert)
        as (st1 & Hrun & _ & _ & _ & Hothers & _).
      cbn zeta in *. rewrite (bind_returned _ _ _ _ _ Hrun). cbn. intros [= <-].
      rewrite Hothers; [exact Hlookup|].
      pose proof (wf_buffers st Hwf buffer bufferVK Hlookup). lia.
    + rewrite (bind_thrown _ _ _ _ _ (CreateBuffer_throws desc initialData st Hassert)).
      cbn. intros [= <-]. exact Hlookup.
  - unfold gets, bind at 1. destruct (buffers_ st !! buffer') as [bufferVK'|]; [|discriminate].
    destruct (WriteBuffer_Extends bufferVK' offset data dataSize st)
      as (st1 & Hrun & _ & Hbuffers).
    rewrite Hrun. cbn. intros [= <-]. rewrite Hbuffers. exact Hlookup.
  - destruct (buffers_ st !! buffer') as [bufferVK'|] eqn:Hlookup'.
    + destruct (ReleaseBuffer_registered buffer' bufferVK' st Hlookup')
        as (st1 & Hrun & _ & Hbuffers & _).
      rewrite Hrun. cbn. intros [= <-]. rewrite Hbuffers.
      apply lookup_delete_Some. split; [congruence|exact Hlookup].
    + unfold ReleaseBuffer, gets, bind at 1. rewrite Hlookup'. discriminate.
  - intros Hrun.
    assert (Hrun' : stateAfter (CreateTexture textureDesc imageDesc st) = Some st').
    { revert Hrun. unfold bind.
      destruct (CreateTexture textureDesc imageDesc st); cbn; auto. }
    destruct (CreateTexture_Extends _ _ _ _ Hrun') as [_ Hbuffers].
    rewrite Hbuffers. exact Hlookup.
  - unfold gets, bind at 1. destruct (textures_ st !! texture) as [textureVK|]; [|discriminate].
    intros Hrun. destruct (WriteTexture_Extends _ _ _ _ _ Hrun) as [_ Hbuffers].
    rewrite Hbuffers. exact Hlookup.
Qed.

(** Every render system reached from a well-formed one is well formed, and a
    buffer none of the calls released is registered in it as it was, its
    regions leased. *)
Lemma performAll_keeps_buffer calls : forall st st' buffer bufferVK,
  WellFormed st -> buffers_ st !! buffer = Some bufferVK ->
  CallReleaseBuffer buffer ∉ calls ->
  performAll calls st = Some st' ->
  WellFormed st'
  /\ buffers_ st' !! buffer = Some bufferVK
  /\ (forall r, r ∈ bufferRegions bufferVK -> r ∈ regions (deviceMemoryMngr_ st')).
Proof.
  induction calls as [|c calls IH]; intros st st' buffer bufferVK Hwf Hlookup Hnot; cbn.
  - intros [= <-]. split; [exact Hwf|]. split; [exact Hlookup|].
    intros r. apply (wf_leased st Hwf buffer bufferVK r Hlookup).
  - destruct (stateAfter (perform c st)) as [st1|] eqn:Hstep; [|discriminate].
    intros Hrest. apply (IH st1 st' buffer bufferVK).
    + apply (perform_WellFormed c st st1 Hwf Hstep).
    + apply (perform_keeps_buffer c st st1 buffer bufferVK Hwf Hlookup); [|exact Hstep].
      intros ->. apply Hnot. apply elem_of_cons. left. reflexivity.
    + intros Hin. apply Hnot. apply elem_of_cons. right. exact Hin.
    + exact Hrest.
Qed.

(** The render systems calls can reach from a newly constructed one are well
    formed. *)
Lemma performAll_WellFormed calls : forall st st',
  WellFormed st -> performAll calls st = Some st' -> WellFormed st'.
Proof.
  induction calls as [|c calls IH]; intros st st' Hwf; cbn.
  - intros [= <-]. exact Hwf.
  - destruct (stateAfter (perform c st)) as [st1|] eqn:Hstep; [|discriminate].
    apply IH. apply (perform_WellFormed c st st1 Hwf Hstep).
Qed.

(** C2. [CreateBuffer] keeps the staging buffer with the buffer if and only if
    the descriptor has a CPU-access flag set ([cpuAccessFlags != 0]) or the
    [DynamicUsage] misc flag set.  A kept staging buffer holds its region,
    leased from the manager, for as long as the buffer lives: through every
    later [WriteBuffer] on the buffer and, in a well-formed render system,
    through every sequence of calls that does not release the buffer, after
    which [Release] of the buffer gives the region back.  For every other
    descriptor the region is given back by the last call of [CreateBuffer]
    and is not leased when it returns. *)
Theorem VK_CreateBuffer_keeps_staging_iff
    (desc : BufferDescriptor) (initialData : HostPtr) (st : VKRenderSystem)
    (Hassert : AssertCreateBuffer desc UINT64_MAX = true) :
  let staging := nextHandle st in
  let stagingRegion := Pos.succ staging in
  exists buffer st' bufferVK,
    CreateBuffer desc initialData st = Returned buffer st'
    /\ buffers_ st' !! buffer = Some bufferVK
    /\ (GetStagingVkBuffer bufferVK <> None
        <-> buf_cpuAccessFlags desc <> 0%Z
            \/ Z.land (buf_miscFlags desc) MiscFlags_DynamicUsage <> 0%Z)
    /\ (GetStagingVkBuffer bufferVK <> None ->
          bufferObjStaging bufferVK
            = {| vkBuffer := Some staging; memoryRegion := Some stagingRegion |}
          /\ stagingRegion ∈ regions (deviceMemoryMngr_ st')
          /\ (forall offset data dataSize, exists st'',
                WriteBuffer bufferVK offset data dataSize st' = Returned tt st''
                /\ stagingRegion ∈ regions (deviceMemoryMngr_ st''))
          /\ (exists st'',
                ReleaseBuffer buffer st' = Returned tt st''
                /\ stagingRegion ∉ regions (deviceMemoryMngr_ st''))
          /\ (WellFormed st -> forall calls st'',
                CallReleaseBuffer buffer ∉ calls ->
                performAll calls st' = Some st'' ->
                buffers_ st'' !! buffer = Some bufferVK
                /\ stagingRegion ∈ regions (deviceMemoryMngr_ st'')
                /\ exists st''',
                     ReleaseBuffer buffer st'' = Returned tt st'''
                     /\ stagingRegion ∉ regions (deviceMemoryMngr_ st''')))
    /\ (GetStagingVkBuffer bufferVK = None ->
          (stagingRegion ∉ regions (deviceMemoryMngr_ st'))
          /\ last (trace st') = Some (EvRelease stagingRegion)).
Proof.
  cbn zeta.
  destruct (CreateBuffer_returns desc initialData st Hassert)
    as (st' & Hrun & Htrace & Hlookup & Hregions & _).
  pose proof (keepsStagingBuffer_iff desc) as Hiff.
  assert (Hstep : stateAfter (perform (CallCreateBuffer desc initialData) st) = Some st').
  { cbn [perform]. rewrite (bind_returned _ _ _ _ _ Hrun). reflexivity. }
  destruct (keepsStagingBuffer desc).
  - (* the staging buffer is kept *)
    eexists _, st', _. split; [exact Hrun|]. split; [exact Hlookup|].
    split; [cbn; split; [intros _; apply Hiff; reflexivity|discriminate]|].
    split; [|cbn; discriminate].
    intros _. split; [reflexivity|].
    split; [rewrite Hregions; solve_elem|].
    split; [|split].
    + intros offset data dataSize.
      edestruct (WriteBuffer_retained) as (st'' & Hwrite & _ & Hmngr & _);
        [|exists st''; split; [exact Hwrite|]]; [reflexivity|].
      rewrite Hmngr, Hregions. solve_elem.
    + destruct (ReleaseBuffer_registered _ _ _ Hlookup)
        as (st'' & Hrelease & Hregions'' & _).
      exists st''. split; [exact Hrelease|].
      intros Hin. apply Hregions'' in Hin as [_ Hout]. apply Hout.
      unfold bufferRegions. cbn. solve_elem.
    + intros Hwf calls st'' Hnot Hcalls.
      pose proof (perform_WellFormed _ _ _ Hwf Hstep) as Hwf'.
      destruct (performAll_keeps_buffer calls st' st'' _ _ Hwf' Hlookup Hnot Hcalls)
        as (_ & Hlookup'' & Hleased).
      split; [exact Hlookup''|].
      split; [apply Hleased; unfold bufferRegions; cbn; solve_elem|].
      destruct (ReleaseBuffer_registered _ _ _ Hlookup'')
        as (st''' & Hrelease & Hregions''' & _).
      exists st'''. split; [exact Hrelease|].
      intros Hin. apply Hregions''' in Hin as [_ Hout]. apply Hout.
      unfold bufferRegions. cbn. solve_elem.
  - (* the staging buffer is released *)
    eexists _, st', _. split; [exact Hrun|]. split; [exact Hlookup|].
    split.
    { cbn. split; [congruence|].
      intros H'. apply Hiff in H'. discriminate. }
    split; [cbn; congruence|].
    intros _. split; [rewrite Hregions; solve_elem|].
    rewrite Htrace, !app_assoc. apply last_snoc.
Qed.

End VKLifetime.

(** ** Direct3D 11 *)

Section D3D11Theory.
Context {E : Externals}.
Import D3D11.

Lemma afterCalls_nil st : afterCalls st [] = st.
Proof. destruct st. unfold afterCalls. cbn. rewrite app_nil_r. reflexivity. Qed.

Lemma afterCalls_app st evs evs' :
  afterCalls (afterCalls st evs) evs' = afterCalls st (evs ++ evs').
Proof. unfold afterCalls. cbn. rewrite app_assoc. reflexivity. Qed.

(** A counted loop whose body makes one call per round always returns, and
    its calls are those of [loopCalls], in order. *)
Lemma for_range_from_calls {A} (body : Z -> A -> M D3D11RenderSystem A)
    (ev : Z -> A -> Event) (next : Z -> A -> A) :
  (forall i acc s, body i acc s = Returned (next i acc) (afterCalls s [ev i acc])) ->
  forall n from acc st,
    for_range_from n from acc body st
    = Returned (loopResult n from acc next) (afterCalls st (loopCalls n from acc ev next)).
Proof.
  intros Hbody. induction n as [|n IH]; intros from acc st.
  - cbn. rewrite afterCalls_nil. reflexivity.
  - cbn [for_range_from loopCalls loopResult].
    rewrite (bind_returned _ _ _ _ _ (Hbody from acc st)).
    rewrite IH, afterCalls_app. reflexivity.
Qed.

(** The loop of [InitializeGpuTextureWithClearValue] uploads the same image
    into MIP level 0 of the layers [from], ..., [from + n - 1], one call per
    layer. *)
Lemma elem_of_loopCalls_const n from (ev : Z -> Event) e :
  e ∈ loopCalls n from tt (fun layer _ => ev layer) (fun _ _ => tt)
  <-> exists layer, from <= layer < from + Z.of_nat n /\ e = ev layer.
Proof.
  revert from. induction n as [|n IH]; intros from; cbn [loopCalls].
  - rewrite elem_of_nil. split; [tauto|]. intros (layer & Hrange & _). lia.
  - rewrite elem_of_cons, IH. split.
    + intros [->|(layer & Hrange & ->)].
      * exists from. split; [lia|reflexivity].
      * exists layer. split; [lia|reflexivity].
    + intros (layer & Hrange & ->).
      destruct (Z.eq_dec layer from) as [->|Hne]; [left; reflexivity|].
      right. exists layer. split; [lia|reflexivity].
Qed.

(** [WriteTexture] forwards the box and the layer of [writeTarget], and does
    nothing for the types [writeTarget] has none for. *)
Lemma WriteTexture_outcome_d3d textureD3D textureRegion imageDesc st :
  WriteTexture textureD3D textureRegion imageDesc st
  = match writeTarget (texType textureD3D) textureRegion with
    | Some (arrayLayer, dstBox) =>
        Returned tt
          (afterCalls st
             [EvTextureUpdateSubresource (texId textureD3D)
                (baseMipLevel (subresource textureRegion)) arrayLayer dstBox imageDesc])
    | None => Returned tt st
    end.
Proof.
  unfold WriteTexture, writeTarget. destruct (texType textureD3D); reflexivity.
Qed.

Lemma writeTarget_None t textureRegion :
  writeTarget t textureRegion = None <-> isMultisampled t = true.
Proof. destruct t; cbn; split; congruence. Qed.

(** C7 (amended). The Direct3D 11 [WriteTexture] on a multisampled texture
    ([Texture2DMS] or [Texture2DMSArray]) returns normally with the render
    system exactly as it was: no subresource update, no other call, no
    error. *)
Theorem D3D11_WriteTexture_multisampled_noop
    (textureD3D : D3D11Texture) (textureRegion : TextureRegion)
    (imageDesc : SrcImageDescriptor) (st : D3D11RenderSystem)
    (Hms : texType textureD3D = Texture2DMS \/ texType textureD3D = Texture2DMSArray) :
  WriteTexture textureD3D textureRegion imageDesc st = Returned tt st.
Proof.
  rewrite WriteTexture_outcome_d3d.
  assert (Hnone : writeTarget (texType textureD3D) textureRegion = None).
  { apply writeTarget_None. destruct Hms as [-> | ->]; reflexivity. }
  rewrite Hnone. reflexivity.
Qed.

Lemma uint32_range z : 0 <= uint32 z < 2 ^ 32.
Proof. unfold uint32. apply Z.mod_pos_bound. lia. Qed.

Lemma uint32_add_multiple z k : uint32 (z + k * 2 ^ 32) = uint32 z.
Proof. unfold uint32. apply Z_mod_plus_full. Qed.


(** C10. [WriteBuffer] and [ReadBuffer] forward their 64-bit offset and data
    size reduced modulo 2^32: the call always returns, the values it passes
    on are below 2^32, they are the arguments themselves only when those are
    below 2^32, and arguments that differ by a multiple of 2^32 make the same
    call. *)
Theorem D3D11_buffer_offsets_truncated_to_32_bits
    (buffer : Handle) (offset dataSize : Z) (data : HostPtr) (st : D3D11RenderSystem) :
  WriteBuffer buffer offset data dataSize st
    = Returned tt
        (afterCalls st
           [EvBufferUpdateSubresource buffer data (dataSize mod 2 ^ 32) (offset mod 2 ^ 32)])
  /\ ReadBuffer buffer offset dataSize st
     = Returned tt
         (afterCalls st
            [EvBufferReadSubresource buffer (dataSize mod 2 ^ 32) (offset mod 2 ^ 32)])
  /\ (0 <= uint32 offset < 2 ^ 32 /\ 0 <= uint32 dataSize < 2 ^ 32)
  /\ (forall j k,
        WriteBuffer buffer (offset + j * 2 ^ 32) data (dataSize + k * 2 ^ 32) st
          = WriteBuffer buffer offset data dataSize st
        /\ ReadBuffer buffer (offset + j * 2 ^ 32) (dataSize + k * 2 ^ 32) st
           = ReadBuffer buffer offset dataSize st)
  /\ (2 ^ 32 <= offset -> uint32 offset <> offset)
  /\ (2 ^ 32 <= dataSize -> uint32 dataSize <> dataSize).
Proof.
  split; [reflexivity|]. split; [reflexivity|].
  split; [split; apply uint32_range|].
  split.
  - intros j k. unfold WriteBuffer, ReadBuffer.
    rewrite !uint32_add_multiple. split; reflexivity.
  - split; intros Hbig Heq; pose proof (uint32_range offset);
      pose proof (uint32_range dataSize); lia.
Qed.

(** The outcome of [InitializeGpuTextureWithImage] when the data size is a
    multiple of the layer count: one upload per layer, each with the data
    size of one layer and the data pointer advanced by one layer. *)
Lemma InitializeGpuTextureWithImage_even textureD3D format extent arrayLayers imageDesc st :
  0 < arrayLayers ->
  img_dataSize imageDesc mod arrayLayers = 0 ->
  let bytesPerLayer :=
    uint32 (width extent * height extent * depth extent
            * ImageFormatSize (img_format imageDesc)
            * DataTypeSize (img_dataType imageDesc)) in
  InitializeGpuTextureWithImage textureD3D format extent arrayLayers imageDesc st
  = Returned tt
      (afterCalls st
         (loopCalls (Z.to_nat arrayLayers) 0
            (set_dataSize imageDesc (img_dataSize imageDesc / arrayLayers))
            (fun layer desc =>
               EvTextureUpdateSubresource (texId textureD3D) 0 layer (fullBox extent) desc)
            (fun _ desc => set_data desc (ptr_add (img_data desc) bytesPerLayer)))).
Proof.
  intros Hpos Heven. cbn zeta. unfold InitializeGpuTextureWithImage.
  destruct (Z.eqb_spec arrayLayers 0) as [->|_]; [lia|].
  rewrite Heven. cbn [Z.eqb negb]. unfold for_range.
  erewrite bind_returned; [reflexivity|].
  apply for_range_from_calls. intros i acc s. reflexivity.
Qed.

(** The outcome of [InitializeGpuTextureWithImage] when the data size is not
    a multiple of the layer count: the exception, before any call. *)
Lemma InitializeGpuTextureWithImage_uneven textureD3D format extent arrayLayers imageDesc st :
  arrayLayers <> 0 ->
  img_dataSize imageDesc mod arrayLayers <> 0 ->
  InitializeGpuTextureWithImage textureD3D format extent arrayLayers imageDesc st
  = Thrown ExInvalidArgument st.
Proof.
  intros Hpos Huneven. unfold InitializeGpuTextureWithImage.
  destruct (Z.eqb_spec arrayLayers 0) as [->|_]; [congruence|].
  destruct (Z.eqb_spec (img_dataSize imageDesc mod arrayLayers) 0); [congruence|].
  reflexivity.
Qed.

(** C5 (amended). The Direct3D 11 [CreateTexture] with initial image data
    for [arrayLayers] layers, when the image data size is not a multiple of
    the layer count,
    fails with the invalid-argument error before any subresource update and
    before any MIP-map generation.  The texture object has been created on
    the device by then; it is destroyed as the exception leaves the function,
    and the registry of textures is left as it was. *)
Theorem D3D11_CreateTexture_uneven_layer_data
    (textureDesc : TextureDescriptor) (imageDesc : SrcImageDescriptor)
    (st : D3D11RenderSystem)
    (Hlayers : 0 < tex_arrayLayers textureDesc)
    (Huneven : img_dataSize imageDesc mod tex_arrayLayers textureDesc <> 0) :
  let id := nextHandle st in
  exists st',
    CreateTexture textureDesc (Some imageDesc) st = Thrown ExInvalidArgument st'
    /\ trace st' = trace st ++ [EvCreateTexture id textureDesc; EvDestroyTexture id]
    /\ textures_ st' = textures_ st
    /\ (forall t mipLevel arrayLayer dstBox desc,
          EvTextureUpdateSubresource t mipLevel arrayLayer dstBox desc
            ∉ [EvCreateTexture id textureDesc; EvDestroyTexture id])
    /\ (forall t, EvGenerateMips t ∉ [EvCreateTexture id textureDesc; EvDestroyTexture id]).
Proof.
  cbn zeta. unfold CreateTexture, on_unwind.
  unfold bind at 1. cbn [fresh]. unfold bind at 1. cbn [emit modify].
  unfold InitializeGpuTexture.
  erewrite bind_thrown;
    [|apply InitializeGpuTextureWithImage_uneven; [lia|exact Huneven]].
  eexists. split; [reflexivity|]. cbn.
  split; [rewrite <- app_assoc; reflexivity|].
  split; [reflexivity|].
  split; [intros t mipLevel arrayLayer dstBox desc|intros t]; solve_elem.
Qed.

(** *** Contents of a texture after its uploads *)

Import Contents.

Lemma int32_small z : - 2 ^ 31 <= z < 2 ^ 31 -> int32 z = z.
Proof.
  intros Hz. unfold int32. rewrite Z.mod_small by lia. lia.
Qed.

Lemma uint32_of_int32 z : 0 <= z < 2 ^ 31 -> uint32 (int32 z) = z.
Proof.
  intros Hz. rewrite int32_small by lia. apply Z.mod_small. lia.
Qed.

(** The far edge of a box along one axis: [offset + static_cast<LONG>(extent)],
    stored into a [UINT] field. *)
Lemma box_edge o e :
  0 <= o -> 0 <= e -> o + e < 2 ^ 31 -> uint32 (int32 (o + int32 e)) = o + e.
Proof.
  intros Ho He Hsum. rewrite (int32_small e) by lia. apply uint32_of_int32. lia.
Qed.










End D3D11Theory.

(** ** Textures created without image data *)

Section ClearColor.
Context {E : Externals}.
Import Contents.




End ClearColor.

(** ** The properties on concrete inputs *)

Section Instances.
Import Contents.

(** Decides the validation on which a statement of the form
    [if validation then ... else ...] branches. *)
Ltac decide_validation H :=
  match type of H with
  | if ?b then _ else _ =>
      let v := eval vm_compute in b in
      change b with v in H; cbv iota in H
  end.

(** C2 on a buffer with CPU write access, in a newly constructed render
    system: the staging buffer is kept, and its region is still leased after
    a write to the buffer, the creation of a second buffer, a write to that
    one and its release. *)
Lemma VK_CreateBuffer_keeps_staging_witness :
  @AssertCreateBuffer Sample.externals Sample.cpuWritableBuffer UINT64_MAX = true
  /\ exists st' bufferVK st'',
       @VK.CreateBuffer Sample.externals Sample.cpuWritableBuffer None (VK.construct None)
         = Returned 3%positive st'
       /\ VK.buffers_ st' !! 3%positive = Some bufferVK
       /\ VK.GetStagingVkBuffer bufferVK <> None
       /\ @VK.performAll Sample.externals
            [VK.CallWriteBuffer 3%positive 0 (Some [1; 2]) 2;
             VK.CallCreateBuffer Sample.deviceOnlyBuffer None;
             VK.CallWriteBuffer 7%positive 4 (Some [3]) 1;
             VK.CallReleaseBuffer 7%positive] st' = Some st''
       /\ VK.buffers_ st'' !! 3%positive = Some bufferVK
       /\ 2%positive ∈ VK.regions (VK.deviceMemoryMngr_ st'').
Proof.
  split; [reflexivity|].
  destruct (@VK_CreateBuffer_keeps_staging_iff Sample.externals Sample.cpuWritableBuffer None
              (VK.construct None) eq_refl)
    as (buffer & st' & bufferVK & Hrun & Hlookup & Hiff & Hkept & _).
  assert (Hstaging : VK.GetStagingVkBuffer bufferVK <> None)
    by (apply Hiff; left; discriminate).
  destruct (Hkept Hstaging) as (_ & _ & _ & _ & Hlife).
  specialize (Hlife (WellFormed_construct None)).
  assert (Hbuffer : buffer = 3%positive).
  { pose proof Hrun as Hrun'. vm_compute in Hrun'.
    injection Hrun' as Hb _. symmetry. exact Hb. }
  subst buffer.
  assert (Hcalls : exists st'',
            @VK.performAll Sample.externals
              [VK.CallWriteBuffer 3%positive 0 (Some [1; 2]) 2;
               VK.CallCreateBuffer Sample.deviceOnlyBuffer None;
               VK.CallWriteBuffer 7%positive 4 (Some [3]) 1;
               VK.CallReleaseBuffer 7%positive] st' = Some st'').
  { match goal with |- exists st'', VK.performAll ?calls _ = _ =>
      assert (Hfrom : @VK.performAll Sample.externals
                        (VK.CallCreateBuffer Sample.cpuWritableBuffer None :: calls)
                        (VK.construct None)
                      = @VK.performAll Sample.externals calls st')
    end.
    { cbn [VK.performAll VK.perform]. rewrite (bind_returned _ _ _ _ _ Hrun). reflexivity. }
    rewrite <- Hfrom. eexists. vm_compute. reflexivity. }
  destruct Hcalls as (st'' & Hcalls).
  exists st', bufferVK, st''. split; [exact Hrun|]. split; [exact Hlookup|].
  split; [exact Hstaging|]. split; [exact Hcalls|].
  edestruct Hlife as (Hlookup'' & Hleased & _); [|exact Hcalls|]; [solve_elem|].
  split; [exact Hlookup''|exact Hleased].
Defined.

(** C9 on a buffer without initial data: the copy of all 16 bytes is made. *)
Lemma VK_CreateBuffer_null_data_witness :
  @AssertCreateBuffer Sample.externals Sample.deviceOnlyBuffer UINT64_MAX = true
  /\ exists st' evs,
       @VK.CreateBuffer Sample.externals Sample.deviceOnlyBuffer None (VK.construct None)
         = Returned 3%positive st'
       /\ VK.trace st' = VK.trace (VK.construct None) ++ evs
       /\ VK.EvCopyBuffer (Some 1%positive) (Some 3%positive) 16 None ∈ evs
       /\ forall b data size dstOffset, VK.EvWriteBuffer b data size dstOffset ∉ evs.
Proof.
  split; [reflexivity|].
  destruct (@VK_CreateBuffer_always_stages_and_copies Sample.externals Sample.deviceOnlyBuffer None
              (VK.construct None) eq_refl)
    as (st' & evs & Hrun & Htrace & _ & _ & _ & Hcopy & Hwrite).
  exists st', evs. split; [exact Hrun|]. split; [exact Htrace|]. split; [exact Hcopy|].
  intros b data size dstOffset Hin. apply Hwrite in Hin as [[Hdata _] _].
  apply Hdata. reflexivity.
Defined.

(** C3, as stated, fails on a texture created with image data and MIP-map
    generation: the call returns, and the command buffer it flushes holds a
    fourth command, the MIP-map generation, after the three of the upload. *)
Lemma VK_CreateTexture_three_commands_counterexample :
  exists st' cmds,
    @VK.CreateTexture Sample.externals
      (Sample.texture2x2 Texture2D Sample.MiscFlags_GenerateMips)
      (Some (Sample.rgbaImage2x2 16)) (VK.construct None) = Returned 3%positive st'
    /\ VK.EvFlushCommandBuffer cmds ∈ VK.trace st'
    /\ length cmds = 4%nat
    /\ last cmds
       = Some (VK.CmdGenerateMips 3%positive Sample.Format_RGBA8UNorm
                 {| width := 2; height := 2; depth := 1 |}
                 {| baseArrayLayer := 0; numArrayLayers := 1;
                    baseMipLevel := 0; numMipLevels := 1 |}).
Proof.
  pose proof (@CreateTexture_outcome Sample.externals
                (Sample.texture2x2 Texture2D Sample.MiscFlags_GenerateMips)
                (Some (Sample.rgbaImage2x2 16)) (VK.construct None)) as Hout.
  cbv beta iota zeta in Hout. decide_validation Hout.
  destruct Hout as (st' & Hrun & Htrace & _).
  exists st', (@VK.createCommands Sample.externals
                 (Sample.texture2x2 Texture2D Sample.MiscFlags_GenerateMips) true
                 (Some 1%positive) 3%positive).
  split; [exact Hrun|]. split; [|split; reflexivity].
  rewrite Htrace.
  apply elem_of_app. right. apply elem_of_app. right.
  rewrite !elem_of_cons. right. right. left. reflexivity.
Qed.

(** C3 (amended) on the same texture: three upload commands and the MIP-map
    generation, flushed once, then the release. *)
Lemma VK_texture_write_command_sequence_witness :
  exists st' pre cmds,
    @VK.CreateTexture Sample.externals
      (Sample.texture2x2 Texture2D Sample.MiscFlags_GenerateMips)
      (Some (Sample.rgbaImage2x2 16)) (VK.construct None) = Returned 3%positive st'
    /\ VK.trace st' = VK.trace (VK.construct None) ++ pre
         ++ [VK.EvFlushCommandBuffer cmds; VK.EvRelease 2%positive;
             VK.EvCreateInternalImageView 3%positive]
    /\ length cmds = 4%nat.
Proof.
  destruct (@VK_texture_write_command_sequence Sample.externals Sample.vkTexture
              Sample.oneTexel (Sample.texture2x2 Texture2D Sample.MiscFlags_GenerateMips)
              (Sample.rgbaImage2x2 16) (VK.construct None))
    as [_ Hcreate].
  cbv beta iota zeta in Hcreate. decide_validation Hcreate.
  destruct Hcreate as (st' & pre & Hrun & Htrace & _).
  eexists st', pre, _. split; [exact Hrun|]. split; [exact Htrace|]. reflexivity.
Defined.

(** C4, as stated, fails on one RGB texel written into an RGBA8 texture: the
    texel has to be converted, the three bytes of the caller do not pass
    [AssertImageDataSize] against the four bytes of the converted texel, and
    the write still goes through, with the converted texel staged. *)
Lemma VK_WriteTexture_converted_size_counterexample :
  let format := @VKTypes_Unmap Sample.externals (VK.vt_format Sample.vkTexture) in
  let imageSize :=
    uint32 (width (extent Sample.oneTexel) * height (extent Sample.oneTexel)
            * depth (extent Sample.oneTexel)) in
  let convertedSize := @GetMemoryFootprint Sample.externals format imageSize in
  @VK.convertedImage Sample.externals (@GetFormatAttribs Sample.externals format)
    Sample.rgbTexel = Some [10; 20; 30; 255]
  /\ convertedSize = 4
  /\ @AssertImageDataSize Sample.externals (img_dataSize Sample.rgbTexel) convertedSize = false
  /\ exists st',
       @VK.WriteTexture Sample.externals Sample.vkTexture Sample.oneTexel Sample.rgbTexel
         (VK.construct None) = Returned tt st'
       /\ VK.EvWriteBuffer (Some 1%positive) (Some [10; 20; 30; 255]) 4 None ∈ VK.trace st'.
Proof.
  cbv zeta. split; [reflexivity|]. split; [reflexivity|]. split; [reflexivity|].
  pose proof (@WriteTexture_outcome Sample.externals Sample.vkTexture Sample.oneTexel
                Sample.rgbTexel (VK.construct None)) as Hout.
  cbv beta iota zeta in Hout. decide_validation Hout.
  destruct Hout as (st' & Hrun & Htrace & _).
  exists st'. split; [exact Hrun|]. rewrite Htrace.
  apply elem_of_app. right. apply elem_of_app. left.
  unfold VK.stagingCalls. apply elem_of_app. right.
  apply elem_of_cons. left. reflexivity.
Qed.

(** C4 (amended) on the same write, and on a texture created from the same
    texel: three bytes are what the source format asks for. *)
Lemma VK_image_size_validated_against_source_format_witness :
  exists st' rest,
    @VK.WriteTexture Sample.externals Sample.vkTexture Sample.oneTexel Sample.rgbTexel
      (VK.construct None) = Returned tt st'
    /\ VK.trace st' = VK.trace (VK.construct None)
         ++ VK.stagingCalls 1%positive 4 (Some [10; 20; 30; 255]) ++ rest.
Proof.
  destruct (@VK_image_size_validated_against_source_format Sample.externals Sample.vkTexture
              Sample.oneTexel (Sample.texture2x2 Texture2D 0) Sample.rgbTexel
              [10; 20; 30; 255] [10; 20; 30; 255] (VK.construct None) eq_refl eq_refl)
    as [Hwrite _].
  cbv beta iota zeta in Hwrite. decide_validation Hwrite.
  exact Hwrite.
Defined.

(** C5, as stated, fails: with 33 bytes of image data for two layers the
    Direct3D 11 invalid-argument error comes after the texture object was
    created on the device, so the failing call has made device calls; and the
    Vulkan [CreateTexture], which has no check of divisibility, returns the
    texture. *)
Lemma D3D11_CreateTexture_validation_first_counterexample :
  0 < tex_arrayLayers Sample.twoLayers
  /\ img_dataSize (Sample.rgbaImage2x2 33) mod tex_arrayLayers Sample.twoLayers <> 0
  /\ (exists st',
        @D3D11.CreateTexture Sample.externals Sample.twoLayers (Some (Sample.rgbaImage2x2 33))
          Sample.d3dSystem = Thrown ExInvalidArgument st'
        /\ D3D11.EvCreateTexture 1%positive Sample.twoLayers ∈ D3D11.trace st'
        /\ D3D11.trace st' <> D3D11.trace Sample.d3dSystem)
  /\ (exists st',
        @VK.CreateTexture Sample.externals Sample.twoLayers (Some (Sample.rgbaImage2x2 33))
          (VK.construct None) = Returned 3%positive st').
Proof.
  split; [reflexivity|]. split; [discriminate|]. split.
  - eexists. split; [vm_compute; reflexivity|]. cbn [D3D11.trace].
    split; [|discriminate]. apply elem_of_cons. left. reflexivity.
  - eexists. vm_compute. reflexivity.
Qed.

(** C5 (amended) on the same input. *)
Lemma D3D11_CreateTexture_uneven_layer_data_witness :
  exists st',
    @D3D11.CreateTexture Sample.externals Sample.twoLayers (Some (Sample.rgbaImage2x2 33))
      Sample.d3dSystem = Thrown ExInvalidArgument st'
    /\ D3D11.trace st'
       = [D3D11.EvCreateTexture 1%positive Sample.twoLayers; D3D11.EvDestroyTexture 1%positive].
Proof.
  destruct (@D3D11_CreateTexture_uneven_layer_data Sample.externals Sample.twoLayers
              (Sample.rgbaImage2x2 33) Sample.d3dSystem)
    as (st' & Hrun & Htrace & _).
  - reflexivity.
  - discriminate.
  - exists st'. split; [exact Hrun|exact Htrace].
Defined.



(** C7 on a [Texture2DMS] texture. *)
Lemma D3D11_WriteTexture_multisampled_noop_witness :
  @D3D11.WriteTexture
    {| D3D11.texId := 1%positive; D3D11.texType := Texture2DMS |}
    Sample.oneTexel Sample.rgbaTexel Sample.d3dSystem
  = Returned tt Sample.d3dSystem.
Proof.
  apply D3D11_WriteTexture_multisampled_noop. left. reflexivity.
Defined.

(** C7, as stated, fails in the Vulkan backend: [WriteTexture] does not look
    at the type of the texture, so the write to a texture created as
    [Texture2DMS] stages the image, flushes the copy into the image and
    leaves the render system changed. *)
Lemma VK_WriteTexture_multisampled_counterexample :
  exists st textureVK st',
    @VK.CreateTexture Sample.externals (Sample.texture2x2 Texture2DMS 0) None (VK.construct None)
    = Returned 3%positive st
    /\ VK.textures_ st !! 3%positive = Some textureVK
    /\ @VK.WriteTexture Sample.externals textureVK Sample.oneTexel Sample.rgbaTexel st
       = Returned tt st'
    /\ VK.trace st'
       = VK.trace st
         ++ [VK.EvCreateDeviceBuffer 5%positive {| VK.ci_size := 4; VK.ci_usage := 1 |};
             VK.EvAllocate 6%positive 6;
             VK.EvBindMemoryRegion 5%positive 6%positive;
             VK.EvWriteBuffer (Some 5%positive) (Some [10; 20; 30; 40]) 4 None;
             VK.EvAllocCommandBuffer;
             VK.EvFlushCommandBuffer
               (VK.uploadCommands (Some 5%positive) 3%positive Sample.Format_RGBA8UNorm
                  {| ox := 0; oy := 0; oz := 0 |} {| width := 1; height := 1; depth := 1 |}
                  {| baseArrayLayer := 0; numArrayLayers := 1;
                     baseMipLevel := 0; numMipLevels := 1 |});
             VK.EvRelease 6%positive]
    /\ st' <> st.
Proof.
  eexists _, _, _. split; [vm_compute; reflexivity|].
  split; [vm_compute; reflexivity|].
  split; [vm_compute; reflexivity|].
  split; [vm_compute; reflexivity|].
  intros Heq. apply (f_equal (fun s => List.length (VK.trace s))) in Heq.
  vm_compute in Heq. discriminate Heq.
Qed.

End Instances.

(** ** Direct3D 11: sample descriptors *)

Section D3D11Samples.
Import D3D11Device.

Lemma supportsSampleCount_dec device format c :
  supportsSampleCount device format c
  <-> (let (hr, n) := CheckMultisampleQualityLevels device format c in
       (hr =? S_OK) && (0 <? n)) = true.
Proof.
  unfold supportsSampleCount.
  destruct (CheckMultisampleQualityLevels device format c) as [hr n]. cbn [fst snd].
  rewrite andb_true_iff, Z.eqb_eq, Z.ltb_lt. tauto.
Qed.

(** What the loop finds in [rounds] rounds: the largest supported count
    among 2, ..., [rounds + 1], with its last quality level, or count 1. *)
Lemma FindSuitableSampleDesc_rounds_spec device format rounds :
  let r := FindSuitableSampleDesc_rounds device format rounds in
  ((Count r = 1 /\ Quality r = 0)
   \/ (2 <= Count r <= Z.of_nat rounds + 1
       /\ supportsSampleCount device format (Count r)
       /\ Quality r = snd (CheckMultisampleQualityLevels device format (Count r)) - 1))
  /\ (forall c, Count r < c <= Z.of_nat rounds + 1 -> 2 <= c ->
        ~ supportsSampleCount device format c).
Proof.
  induction rounds as [|n IH]; cbn zeta.
  - cbn. split; [left; split; reflexivity|]. intros c Hc Hc'. lia.
  - cbn [FindSuitableSampleDesc_rounds]. cbn zeta in IH.
    pose proof (supportsSampleCount_dec device format (Z.of_nat n + 2)) as Hdec.
    unfold supportsSampleCount in Hdec |- *.
    destruct (CheckMultisampleQualityLevels device format (Z.of_nat n + 2))
      as [hr levels] eqn:Hcheck.
    cbn [fst snd] in Hdec.
    assert (Hno : ((hr =? S_OK) && (0 <? levels)) = false ->
              (let r := FindSuitableSampleDesc_rounds device format n in
               ((Count r = 1 /\ Quality r = 0)
                \/ (2 <= Count r <= Z.of_nat (S n) + 1
                    /\ (fst (CheckMultisampleQualityLevels device format (Count r)) = S_OK
                        /\ 0 < snd (CheckMultisampleQualityLevels device format (Count r)))
                    /\ Quality r
                       = snd (CheckMultisampleQualityLevels device format (Count r)) - 1))
               /\ (forall c, Count r < c <= Z.of_nat (S n) + 1 -> 2 <= c ->
                     ~ (fst (CheckMultisampleQualityLevels device format c) = S_OK
                        /\ 0 < snd (CheckMultisampleQualityLevels device format c))))).
    { intros Hfalse. cbn zeta. destruct IH as [IHr IHmax]. split.
      - destruct IHr as [Hone|(Hrange & Hsup & Hq)]; [left; exact Hone|].
        right. split; [lia|]. split; [exact Hsup|exact Hq].
      - intros c Hc Hc'.
        destruct (Z.eq_dec c (Z.of_nat n + 2)) as [->|Hne].
        + rewrite Hcheck. cbn [fst snd]. intros Hsup. apply Hdec in Hsup. congruence.
        + apply IHmax; lia. }
    destruct (Z.eqb_spec hr S_OK) as [Hok|Hfail].
    + destruct (Z.ltb_spec 0 levels) as [Hpos|Hzero].
      * cbn [Count Quality]. split.
        -- right. rewrite Hcheck. cbn [fst snd]. split; [lia|]. split; [split; assumption|].
           reflexivity.
        -- intros c Hc Hc'. lia.
      * apply Hno. reflexivity.
    + apply Hno. reflexivity.
Qed.

Lemma FindSuitableSampleDesc_count_range device format maxSampleCount :
  1 <= Count (FindSuitableSampleDesc device format maxSampleCount) <= Z.max 1 maxSampleCount.
Proof.
  unfold FindSuitableSampleDesc.
  pose proof (FindSuitableSampleDesc_rounds_spec device format
                (Z.to_nat (maxSampleCount - 1))) as [Hr _].
  cbn zeta in Hr. destruct Hr as [[Hone _]|(Hrange & _)]; lia.
Qed.

(** X1. [FindSuitableSampleDesc] for one format returns the largest sample
    count between 2 and [maxSampleCount] for which the device answers [S_OK]
    with at least one quality level, together with the last quality level of
    that count ([numQualityLevels - 1]); when there is none, and in
    particular when [maxSampleCount] is 0 or 1, it returns count 1 with
    quality 0.  The count is never 0 and never above [max 1 maxSampleCount]. *)
Theorem FindSuitableSampleDesc_largest_supported
    (device : ID3D11Device) (format : DXGI_FORMAT) (maxSampleCount : Z) :
  let r := FindSuitableSampleDesc device format maxSampleCount in
  ((Count r = 1 /\ Quality r = 0)
   \/ (2 <= Count r <= maxSampleCount
       /\ supportsSampleCount device format (Count r)
       /\ Quality r = snd (CheckMultisampleQualityLevels device format (Count r)) - 1))
  /\ (forall c, Count r < c <= maxSampleCount -> 2 <= c ->
        ~ supportsSampleCount device format c)
  /\ 1 <= Count r <= Z.max 1 maxSampleCount
  /\ 0 <= Quality r.
Proof.
  cbn zeta. unfold FindSuitableSampleDesc.
  pose proof (FindSuitableSampleDesc_rounds_spec device format
                (Z.to_nat (maxSampleCount - 1))) as [Hr Hmax].
  cbn zeta in Hr, Hmax.
  set (r := FindSuitableSampleDesc_rounds device format (Z.to_nat (maxSampleCount - 1))) in *.
  assert (Hr' : (Count r = 1 /\ Quality r = 0)
                \/ (2 <= Count r <= maxSampleCount
                    /\ supportsSampleCount device format (Count r)
                    /\ Quality r
                       = snd (CheckMultisampleQualityLevels device format (Count r)) - 1)).
  { destruct Hr as [Hone|(Hrange & Hsup & Hq)]; [left; exact Hone|].
    right. split; [lia|]. split; [exact Hsup|exact Hq]. }
  split; [exact Hr'|]. split.
  - intros c Hc Hc'. apply Hmax; lia.
  - destruct Hr' as [[Hone Hq]|(Hrange & [_ Hpos] & Hq)]; lia.
Qed.

(** The count found never exceeds the one found from a larger bound. *)
Lemma FindSuitableSampleDesc_rounds_mono device format n m :
  (n <= m)%nat ->
  Count (FindSuitableSampleDesc_rounds device format n)
  <= Count (FindSuitableSampleDesc_rounds device format m).
Proof.
  intros Hle. induction Hle as [|m Hle IH]; [lia|].
  cbn [FindSuitableSampleDesc_rounds].
  destruct (CheckMultisampleQualityLevels device format (Z.of_nat m + 2)) as [hr levels].
  destruct (hr =? S_OK); [destruct (0 <? levels)|]; try exact IH.
  cbn [Count].
  pose proof (FindSuitableSampleDesc_rounds_spec device format n) as [Hr _].
  cbn zeta in Hr. apply Nat2Z.inj_le in Hle.
  destruct Hr as [[Hone _]|(Hrange & _)]; lia.
Qed.

Lemma FindSuitableSampleDesc_mono device format c c' :
  c <= c' ->
  Count (FindSuitableSampleDesc device format c)
  <= Count (FindSuitableSampleDesc device format c').
Proof.
  intros Hle. apply FindSuitableSampleDesc_rounds_mono. lia.
Qed.

Lemma FindSuitableSampleDesc_small device format c :
  c <= 1 -> FindSuitableSampleDesc device format c = {| Count := 1; Quality := 0 |}.
Proof.
  intros Hc. unfold FindSuitableSampleDesc.
  replace (Z.to_nat (c - 1)) with O by lia. reflexivity.
Qed.

(** The loop of the overload for several formats, from any descriptor. *)
Lemma FindSuitableSampleDescOf_from device formats : forall sampleDesc,
  let step := fun sampleDesc format =>
    if negb (format =? DXGI_FORMAT_UNKNOWN)
    then FindSuitableSampleDesc device format (Count sampleDesc)
    else sampleDesc in
  let r := fold_left step formats sampleDesc in
  (1 <= Count sampleDesc -> 1 <= Count r <= Count sampleDesc)
  /\ (forall format, format ∈ formats -> format <> DXGI_FORMAT_UNKNOWN ->
        1 <= Count r
        /\ Count r <= Count (FindSuitableSampleDesc device format (Count sampleDesc)))
  /\ ((forall format, format ∈ formats -> format = DXGI_FORMAT_UNKNOWN) -> r = sampleDesc).
Proof.
  cbn zeta. induction formats as [|format formats IH]; intros sampleDesc; cbn [fold_left].
  - split; [lia|]. split; [|reflexivity].
    intros format Hin. apply elem_of_nil in Hin. destruct Hin.
  - set (next := if negb (format =? DXGI_FORMAT_UNKNOWN)
                 then FindSuitableSampleDesc device format (Count sampleDesc)
                 else sampleDesc).
    destruct (IH next) as (IHrange & IHeach & IHunknown).
    assert (Hnext : 1 <= Count sampleDesc -> 1 <= Count next <= Count sampleDesc).
    { intros Hpos. subst next. destruct (Z.eqb_spec format DXGI_FORMAT_UNKNOWN); cbn [negb].
      - lia.
      - pose proof (FindSuitableSampleDesc_count_range device format (Count sampleDesc)). lia. }
    assert (Hnext1 : format <> DXGI_FORMAT_UNKNOWN -> 1 <= Count next).
    { intros Hne. subst next. destruct (Z.eqb_spec format DXGI_FORMAT_UNKNOWN); [congruence|].
      cbn [negb].
      pose proof (FindSuitableSampleDesc_count_range device format (Count sampleDesc)). lia. }
    assert (Hnextle : Count sampleDesc <= 0 \/ Count next <= Count sampleDesc
                      \/ format <> DXGI_FORMAT_UNKNOWN).
    { destruct (Z.eqb_spec format DXGI_FORMAT_UNKNOWN); [|tauto].
      right. left. subst next. rewrite e. cbn. lia. }
    split; [intros Hpos; specialize (Hnext Hpos); lia|]. split.
    + intros f Hin Hne. apply elem_of_cons in Hin as [->|Hin].
      * assert (Heq : next = FindSuitableSampleDesc device format (Count sampleDesc)).
        { subst next. destruct (Z.eqb_spec format DXGI_FORMAT_UNKNOWN); [congruence|].
          reflexivity. }
        specialize (Hnext1 Hne). specialize (IHrange Hnext1). rewrite <- Heq. lia.
      * destruct (IHeach f Hin Hne) as [Hpos Hle]. split; [exact Hpos|].
        etransitivity; [exact Hle|].
        destruct (Z.eqb_spec format DXGI_FORMAT_UNKNOWN) as [Heq|Hne'].
        -- subst next. cbn. lia.
        -- destruct (Z.le_gt_cases 1 (Count sampleDesc)) as [Hpos'|Hsmall].
           ++ apply FindSuitableSampleDesc_mono. specialize (Hnext Hpos'). lia.
           ++ subst next. cbn [negb].
              rewrite (FindSuitableSampleDesc_small device format (Count sampleDesc)) by lia.
              rewrite (FindSuitableSampleDesc_small device f (Count sampleDesc)) by lia.
              cbn [Count].
              rewrite (FindSuitableSampleDesc_small device f 1) by lia.
              cbn [Count]. lia.
    + intros Hall. rewrite IHunknown.
      * subst next. rewrite (Hall format) by (apply elem_of_cons; left; reflexivity).
        reflexivity.
      * intros f Hin. apply Hall. apply elem_of_cons. right. exact Hin.
Qed.

(** X2. [FindSuitableSampleDesc] for several formats starts from
    [maxSampleCount] and lets every format that is not [DXGI_FORMAT_UNKNOWN]
    lower the count in turn.  When every format is unknown, and so for no
    formats at all, the result is [maxSampleCount] itself with quality 0,
    unchecked against the device, count 0 included.  From a positive
    [maxSampleCount] the count stays between 1 and [maxSampleCount]; it is at
    most what each known format alone allows; and the descriptor returned is
    the one found for the last known format, so the count is 1 or a count
    that format supports, with that format's last quality level. *)
Theorem FindSuitableSampleDescOf_lowers_count
    (device : ID3D11Device) (formats : list DXGI_FORMAT) (maxSampleCount : Z) :
  let r := FindSuitableSampleDescOf device formats maxSampleCount in
  ((forall format, format ∈ formats -> format = DXGI_FORMAT_UNKNOWN) ->
     r = {| Count := maxSampleCount; Quality := 0 |})
  /\ (1 <= maxSampleCount -> 1 <= Count r <= maxSampleCount)
  /\ (forall format, format ∈ formats -> format <> DXGI_FORMAT_UNKNOWN ->
        1 <= Count r
        /\ Count r <= Count (FindSuitableSampleDesc device format maxSampleCount))
  /\ (forall before format after,
        formats = before ++ format :: after ->
        format <> DXGI_FORMAT_UNKNOWN ->
        (forall f, f ∈ after -> f = DXGI_FORMAT_UNKNOWN) ->
        r = FindSuitableSampleDesc device format
              (Count (FindSuitableSampleDescOf device before maxSampleCount))
        /\ (Count r = 1
            \/ (supportsSampleCount device format (Count r)
                /\ Quality r
                   = snd (CheckMultisampleQualityLevels device format (Count r)) - 1))).
Proof.
  cbn zeta. unfold FindSuitableSampleDescOf.
  destruct (FindSuitableSampleDescOf_from device formats
              {| Count := maxSampleCount; Quality := 0 |}) as (Hrange & Heach & Hunknown).
  cbn zeta in Hrange, Heach, Hunknown. cbn [Count] in Hrange, Heach.
  split; [exact Hunknown|]. split; [exact Hrange|]. split; [exact Heach|].
  intros before format after -> Hknown Hafter.
  rewrite fold_left_app. cbn [fold_left].
  destruct (Z.eqb_spec format DXGI_FORMAT_UNKNOWN) as [Heq|_]; [congruence|]. cbn [negb].
  match goal with |- context [fold_left ?step after ?d] =>
    destruct (FindSuitableSampleDescOf_from device after d) as (_ & _ & Hsame)
  end.
  cbn zeta in Hsame.
  match goal with |- ?lhs = ?rhs /\ _ =>
    assert (Hlast : lhs = rhs) by exact (Hsame Hafter); rewrite Hlast
  end.
  split; [reflexivity|].
  match goal with |- context [FindSuitableSampleDesc device format ?c] =>
    unfold FindSuitableSampleDesc;
    pose proof (FindSuitableSampleDesc_rounds_spec device format (Z.to_nat (c - 1))) as [Hr _]
  end.
  cbn zeta in Hr. destruct Hr as [[Hone _]|(_ & Hsup & Hq)]; [left; exact Hone|].
  right. split; [exact Hsup|exact Hq].
Qed.

End D3D11Samples.

(** ** Direct3D 11: device creation *)

Section D3D11SetupTheory.
Import D3D11Device D3D11Setup.

Lemma FAILED_SUCCEEDED (hr : HRESULT) : FAILED hr = negb (SUCCEEDED hr).
Proof. unfold FAILED, SUCCEEDED. destruct (Z.ltb_spec hr 0), (Z.leb_spec 0 hr); auto; lia. Qed.

(** X16. [CreateDevice] goes through the driver types hardware, WARP and
    software, in a debug build first all three with the debug flag and then
    all three without it, and stops at the first combination for which
    [D3D11CreateDevice] succeeds: every combination before the last one
    tried has failed, and the last one tried has succeeded or is the last of
    the order.  The result code of the last combination tried is the one
    handed to [DXThrowIfCreateFailed]; when that throws, no interface has
    been queried. *)
Theorem D3D11_CreateDevice_driver_fallback
    (LLGL_DEBUG : bool) (LLGL_D3D11_ENABLE_FEATURELEVEL : Z)
    (D3D11CreateDevice : D3D_DRIVER_TYPE -> Z -> HRESULT)
    (QueryInterface : Z -> HRESULT * bool)
    (DXThrowIfCreateFailed : HRESULT -> bool) :
  let order := creationOrder LLGL_DEBUG in
  exists (n : nat) (last : D3D_DRIVER_TYPE * Z),
    order !! n = Some last
    /\ (forall (i : nat) (earlier : D3D_DRIVER_TYPE * Z),
          (i < n)%nat -> order !! i = Some earlier ->
          SUCCEEDED (D3D11CreateDevice (fst earlier) (snd earlier)) = false)
    /\ (SUCCEEDED (D3D11CreateDevice (fst last) (snd last)) = true
        \/ S n = List.length order)
    /\ match CreateDevice LLGL_DEBUG LLGL_D3D11_ENABLE_FEATURELEVEL D3D11CreateDevice
               QueryInterface DXThrowIfCreateFailed noDevices with
       | DeviceCreateFailed hr d =>
           hr = D3D11CreateDevice (fst last) (snd last)
           /\ DXThrowIfCreateFailed hr = true
           /\ createCalls d = take (S n) order
           /\ queryCalls d = []
       | DeviceCreated d =>
           DXThrowIfCreateFailed (D3D11CreateDevice (fst last) (snd last)) = false
           /\ createCalls d = take (S n) order
       end.
Proof.
  cbn zeta.
  assert (Hkeep : forall n d, createCalls (snd (queryDevice QueryInterface n d)) = createCalls d).
  { intros n d. unfold queryDevice. destruct (QueryInterface n). reflexivity. }
  assert (Hcreated : forall d calls,
            createCalls d = calls ->
            match
              (let '(enter, d0) :=
                 if 3 <=? LLGL_D3D11_ENABLE_FEATURELEVEL
                 then let (hr, d0) := queryDevice QueryInterface 3 d in (FAILED hr, d0)
                 else (true, d) in
               if enter
               then
                 let '(enter0, d1) :=
                   if 2 <=? LLGL_D3D11_ENABLE_FEATURELEVEL
                   then let (hr, d1) := queryDevice QueryInterface 2 d0 in (FAILED hr, d1)
                   else (true, d0) in
                 if enter0
                 then
                   if 1 <=? LLGL_D3D11_ENABLE_FEATURELEVEL
                   then DeviceCreated (snd (queryDevice QueryInterface 1 d1))
                   else DeviceCreated d1
                 else DeviceCreated d1
               else DeviceCreated d0)
            with
            | DeviceCreated d' => createCalls d' = calls
            | DeviceCreateFailed _ _ => False
            end).
  { intros d calls Hd.
    destruct (3 <=? LLGL_D3D11_ENABLE_FEATURELEVEL).
    - pose proof (Hkeep 3 d) as H3.
      destruct (queryDevice QueryInterface 3 d) as [hr3 d3]. cbn [snd] in H3.
      destruct (FAILED hr3); [|congruence].
      destruct (2 <=? LLGL_D3D11_ENABLE_FEATURELEVEL).
      + pose proof (Hkeep 2 d3) as H2.
        destruct (queryDevice QueryInterface 2 d3) as [hr2 d2]. cbn [snd] in H2.
        destruct (FAILED hr2); [|congruence].
        destruct (1 <=? LLGL_D3D11_ENABLE_FEATURELEVEL); [rewrite Hkeep|]; congruence.
      + destruct (1 <=? LLGL_D3D11_ENABLE_FEATURELEVEL); [rewrite Hkeep|]; congruence.
    - destruct (2 <=? LLGL_D3D11_ENABLE_FEATURELEVEL).
      + pose proof (Hkeep 2 d) as H2.
        destruct (queryDevice QueryInterface 2 d) as [hr2 d2]. cbn [snd] in H2.
        destruct (FAILED hr2); [|congruence].
        destruct (1 <=? LLGL_D3D11_ENABLE_FEATURELEVEL); [rewrite Hkeep|]; congruence.
      + destruct (1 <=? LLGL_D3D11_ENABLE_FEATURELEVEL); [rewrite Hkeep|]; congruence. }
  unfold CreateDevice, CreateDeviceWithFlags, creationOrder.
  destruct LLGL_DEBUG; cbn [CreateDeviceWithFlags_drivers app negb noDevices
                            device1_ device2_ device3_ createCalls queryCalls];
    repeat match goal with
           | |- context [SUCCEEDED (D3D11CreateDevice ?driver ?flags)] =>
               lazymatch goal with
               | H : SUCCEEDED (D3D11CreateDevice driver flags) = _ |- _ => fail
               | _ => destruct (SUCCEEDED (D3D11CreateDevice driver flags)) eqn:?
               end;
               cbn [CreateDeviceWithFlags_drivers app negb
                    device1_ device2_ device3_ createCalls queryCalls]
           end;
    match goal with
    | |- context [DXThrowIfCreateFailed (D3D11CreateDevice ?driver ?flags)] =>
        destruct (DXThrowIfCreateFailed (D3D11CreateDevice driver flags)) eqn:Hthrow;
        [|match goal with
          | |- context [queryDevice QueryInterface _ ?d] =>
              pose proof (Hcreated d _ eq_refl) as Hc
          end;
          cbn [createCalls] in Hc;
          match type of Hc with
          | match ?r with _ => _ end => destruct r; [|destruct Hc]
          end];
        let finish n :=
          solve [exists n, (driver, flags); split; [reflexivity|];
                 split;
                 [intros i earlier Hi Hlookup;
                  do 6 (try (destruct i as [|i];
                             [first [lia
                                    |cbn in Hlookup; injection Hlookup as <-;
                                     cbn [fst snd]; assumption]|]));
                  lia|];
                 split; [first [left; assumption | right; reflexivity]|];
                 cbn [fst snd take createCalls queryCalls]; auto] in
        first [finish 0%nat | finish 1%nat | finish 2%nat
              | finish 3%nat | finish 4%nat | finish 5%nat]
    end.
Qed.

(** [CreateDeviceWithFlags] leaves the extended devices and the record of
    queries alone. *)
Lemma CreateDeviceWithFlags_drivers_keeps
    (D3D11CreateDevice : D3D_DRIVER_TYPE -> Z -> HRESULT)
    (drivers : list D3D_DRIVER_TYPE) (flags : Z) (hr : HRESULT) (d : Devices) :
  let d' := snd (CreateDeviceWithFlags_drivers D3D11CreateDevice drivers flags hr d) in
  device1_ d' = device1_ d /\ device2_ d' = device2_ d /\ device3_ d' = device3_ d
  /\ queryCalls d' = queryCalls d.
Proof.
  cbn zeta. revert hr d. induction drivers as [|driver rest IH]; intros hr d; cbn.
  - auto.
  - destruct (SUCCEEDED (D3D11CreateDevice driver flags)); [cbn; auto|].
    destruct (IH (D3D11CreateDevice driver flags)
                {| device1_ := device1_ d; device2_ := device2_ d; device3_ := device3_ d;
                   createCalls := createCalls d ++ [(driver, flags)];
                   queryCalls := queryCalls d |})
      as (H1 & H2 & H3 & Hq).
    cbn in *. auto.
Qed.

(** X17. When [QueryInterface] stores a pointer that is not null exactly
    when it succeeds, the minor version after a [CreateDevice] that returned
    is the highest n among 3, 2 and 1 which [LLGL_D3D11_ENABLE_FEATURELEVEL]
    enables and for which the device answers the query for [ID3D11Device<n>],
    and 0 when there is none.  The interfaces are queried from the highest
    enabled one downwards and none below the one found is queried.  Graphics
    pipeline states are then made with the device of that minor version, of
    class [D3D11GraphicsPSO3] for 3, [D3D11GraphicsPSO1] for 2 and 1 and
    [D3D11GraphicsPSO] for 0, and conservative rasterization is reported
    exactly for minor version 3. *)
Theorem D3D11_minor_version_is_highest_interface
    (LLGL_DEBUG : bool) (LLGL_D3D11_ENABLE_FEATURELEVEL : Z)
    (D3D11CreateDevice : D3D_DRIVER_TYPE -> Z -> HRESULT)
    (QueryInterface : Z -> HRESULT * bool)
    (DXThrowIfCreateFailed : HRESULT -> bool)
    (d : Devices)
    (Hcom : forall n, snd (QueryInterface n) = SUCCEEDED (fst (QueryInterface n)))
    (Hcreated : CreateDevice LLGL_DEBUG LLGL_D3D11_ENABLE_FEATURELEVEL D3D11CreateDevice
                  QueryInterface DXThrowIfCreateFailed noDevices
                = DeviceCreated d) :
  let minorVersion := GetMinorVersion LLGL_D3D11_ENABLE_FEATURELEVEL d in
  (minorVersion = 0 \/ minorVersion = 1 \/ minorVersion = 2 \/ minorVersion = 3)
  /\ (minorVersion <> 0 ->
      minorVersion <= LLGL_D3D11_ENABLE_FEATURELEVEL
      /\ SUCCEEDED (fst (QueryInterface minorVersion)) = true)
  /\ (forall n, minorVersion < n <= 3 -> n <= LLGL_D3D11_ENABLE_FEATURELEVEL ->
        SUCCEEDED (fst (QueryInterface n)) = false)
  /\ queryCalls d
     = List.filter (fun n => (n <=? LLGL_D3D11_ENABLE_FEATURELEVEL) && (minorVersion <=? n))
         [3; 2; 1]
  /\ CreatePipelineState LLGL_D3D11_ENABLE_FEATURELEVEL d
     = (if minorVersion =? 3 then D3D11GraphicsPSO3
        else if (minorVersion =? 2) || (minorVersion =? 1) then D3D11GraphicsPSO1
        else D3D11GraphicsPSO,
        minorVersion)
  /\ hasConservativeRasterization LLGL_D3D11_ENABLE_FEATURELEVEL d = (minorVersion =? 3).
Proof.
  cbn zeta. unfold CreateDevice in Hcreated.
  match type of Hcreated with
  | context [if LLGL_DEBUG then ?debug else ?release] =>
      set (attempts := if LLGL_DEBUG then debug else release) in Hcreated
  end.
  assert (Hkeeps : device1_ (snd attempts) = false /\ device2_ (snd attempts) = false
                   /\ device3_ (snd attempts) = false /\ queryCalls (snd attempts) = []);
    [subst attempts|destruct attempts as [[created hr] d0]].
  { unfold CreateDeviceWithFlags. destruct LLGL_DEBUG.
    - match goal with
      | |- context [CreateDeviceWithFlags_drivers _ ?drivers ?flags ?hr ?d0] =>
          pose proof (CreateDeviceWithFlags_drivers_keeps D3D11CreateDevice drivers flags hr d0)
            as Hfirst;
          destruct (CreateDeviceWithFlags_drivers D3D11CreateDevice drivers flags hr d0)
            as [[created hr1] d1]
      end.
      cbn in Hfirst. destruct created; cbn [negb snd]; [exact Hfirst|].
      match goal with
      | |- context [CreateDeviceWithFlags_drivers _ ?drivers ?flags ?hr ?d0] =>
          pose proof (CreateDeviceWithFlags_drivers_keeps D3D11CreateDevice drivers flags hr d0)
            as Hsecond
      end.
      cbn zeta in Hsecond. destruct Hfirst as (-> & -> & -> & ->) in Hsecond. exact Hsecond.
    - apply (CreateDeviceWithFlags_drivers_keeps D3D11CreateDevice). }
  cbn [snd] in Hkeeps. destruct Hkeeps as (Hd1 & Hd2 & Hd3 & Hq).
  destruct (DXThrowIfCreateFailed hr); [discriminate Hcreated|].
  pose proof (Hcom 1) as Hcom1. pose proof (Hcom 2) as Hcom2. pose proof (Hcom 3) as Hcom3.
  unfold queryDevice in Hcreated.
  unfold GetMinorVersion, CreatePipelineState, hasConservativeRasterization, GetMinorVersion.
  destruct (QueryInterface 1) as [hr1 pointer1] eqn:Hq1.
  destruct (QueryInterface 2) as [hr2 pointer2] eqn:Hq2.
  destruct (QueryInterface 3) as [hr3 pointer3] eqn:Hq3.
  cbn [fst snd] in *. subst pointer1 pointer2 pointer3.
  cbv beta iota zeta in Hcreated. rewrite ?FAILED_SUCCEEDED in Hcreated.
  destruct (Z.leb_spec 3 LLGL_D3D11_ENABLE_FEATURELEVEL) as [H3|H3];
    destruct (Z.leb_spec 2 LLGL_D3D11_ENABLE_FEATURELEVEL) as [H2|H2]; try lia;
    destruct (Z.leb_spec 1 LLGL_D3D11_ENABLE_FEATURELEVEL) as [H1|H1]; try lia;
    destruct (SUCCEEDED hr3) eqn:Hs3; destruct (SUCCEEDED hr2) eqn:Hs2;
    destruct (SUCCEEDED hr1) eqn:Hs1;
    cbn [negb fst snd] in Hcreated; injection Hcreated as <-;
    cbn [device1_ device2_ device3_ queryCalls andb]; rewrite ?Hd1, ?Hd2, ?Hd3, ?Hq;
    cbn [andb orb app Z.eqb Pos.eqb Z.leb Z.compare Pos.compare Pos.compare_cont List.filter];
    (split; [tauto|]);
    (split;
     [intros Hne; first [exfalso; apply Hne; reflexivity
                        |split; [lia|rewrite ?Hq1, ?Hq2, ?Hq3; assumption]]|]);
    (split;
     [intros n Hn Hle;
      assert (Hcases : n = 1 \/ n = 2 \/ n = 3) by lia;
      destruct Hcases as [-> | [-> | ->]];
      first [lia | rewrite ?Hq1, ?Hq2, ?Hq3; assumption]
     |]);
    (split;
     [repeat match goal with
             | |- context [?a <=? LLGL_D3D11_ENABLE_FEATURELEVEL] =>
                 first [rewrite (proj2 (Z.leb_le a LLGL_D3D11_ENABLE_FEATURELEVEL)) by lia
                       |rewrite (proj2 (Z.leb_gt a LLGL_D3D11_ENABLE_FEATURELEVEL)) by lia]
             end;
      reflexivity
     |]);
    split; reflexivity.
Qed.

End D3D11SetupTheory.

(** ** Direct3D 11: more on textures *)

Section D3D11Textures.
Context {E : Externals}.
Import D3D11.

(** X3. [WriteTexture] on a texture that is not multisampled makes exactly
    one subresource update, for the region's base MIP level.  When the
    region's offsets and extents are not negative, each offset plus extent
    stays below 2^31 and so does the number of array layers, the box of that
    update spans [offset.x, offset.x + extent.width) along x for every type;
    along y and z it spans the region for 3D textures (which always address
    array layer 0), the region's rows and the layers [0, numArrayLayers) for
    2D and cube textures, and the layers [0, numArrayLayers) and depth
    [0, 1) for 1D textures; the latter two address the region's base array
    layer. *)
Theorem D3D11_WriteTexture_box_in_range
    (textureD3D : D3D11Texture) (textureRegion : TextureRegion)
    (imageDesc : SrcImageDescriptor) (st : D3D11RenderSystem)
    (Htype : isMultisampled (texType textureD3D) = false)
    (Hx : 0 <= ox (offset textureRegion))
    (Hy : 0 <= oy (offset textureRegion))
    (Hz : 0 <= oz (offset textureRegion))
    (Hw : 0 <= width (extent textureRegion))
    (Hh : 0 <= height (extent textureRegion))
    (Hd : 0 <= depth (extent textureRegion))
    (Hxw : ox (offset textureRegion) + width (extent textureRegion) < 2 ^ 31)
    (Hyh : oy (offset textureRegion) + height (extent textureRegion) < 2 ^ 31)
    (Hzd : oz (offset textureRegion) + depth (extent textureRegion) < 2 ^ 31)
    (Hlayers : 0 <= numArrayLayers (subresource textureRegion) < 2 ^ 31) :
  let o := offset textureRegion in
  let e := extent textureRegion in
  let sub := subresource textureRegion in
  exists arrayLayer dstBox,
    WriteTexture textureD3D textureRegion imageDesc st
    = Returned tt
        (afterCalls st
           [EvTextureUpdateSubresource (texId textureD3D) (baseMipLevel sub)
              arrayLayer dstBox imageDesc])
    /\ left dstBox = ox o /\ right dstBox = ox o + width e
    /\ match texType textureD3D with
       | Texture1D | Texture1DArray =>
           arrayLayer = baseArrayLayer sub
           /\ top dstBox = 0 /\ bottom dstBox = numArrayLayers sub
           /\ front dstBox = 0 /\ back dstBox = 1
       | Texture3D =>
           arrayLayer = 0
           /\ top dstBox = oy o /\ bottom dstBox = oy o + height e
           /\ front dstBox = oz o /\ back dstBox = oz o + depth e
       | _ =>
           arrayLayer = baseArrayLayer sub
           /\ top dstBox = oy o /\ bottom dstBox = oy o + height e
           /\ front dstBox = 0 /\ back dstBox = numArrayLayers sub
       end.
Proof.
  cbn zeta.
  assert (Hu : forall z, 0 <= z < 2 ^ 31 -> uint32 z = z).
  { intros z Hz'. apply Z.mod_small. lia. }
  unfold WriteTexture.
  destruct (texType textureD3D); try discriminate Htype;
    (eexists _, _; split; [reflexivity|]); cbn [left right top bottom front back CD3D11_BOX];
    rewrite ?box_edge, ?uint32_of_int32, ?Hu by lia;
    repeat split; reflexivity.
Qed.

(** What [InitializeGpuTexture] does without image data: nothing, or one
    upload of the clear-colour image per array layer. *)
Lemma InitializeGpuTexture_without_image texture textureDesc st :
  InitializeGpuTexture texture textureDesc None st
  = Returned tt
      (afterCalls st
         (if (Z.land (tex_miscFlags textureDesc) MiscFlags_NoInitialData =? 0)
             && negb (IsDepthStencilFormat (tex_format textureDesc))
             && (0 <? bitSize (GetFormatAttribs (tex_format textureDesc)))
          then loopCalls (Z.to_nat (tex_arrayLayers textureDesc)) 0 tt
                 (fun layer _ =>
                    EvTextureUpdateSubresource (texId texture) 0 layer
                      (fullBox (tex_extent textureDesc))
                      (imageDescDefault (tex_format textureDesc) (tex_extent textureDesc)
                         (tex_clearColor textureDesc)))
                 (fun _ _ => tt)
          else [])).
Proof.
  unfold InitializeGpuTexture, InitializeGpuTextureWithClearValue.
  destruct (Z.land (tex_miscFlags textureDesc) MiscFlags_NoInitialData =? 0);
    cbn [andb]; [|rewrite afterCalls_nil; reflexivity].
  destruct (IsDepthStencilFormat (tex_format textureDesc));
    cbn [andb negb]; [rewrite afterCalls_nil; reflexivity|].
  destruct (0 <? bitSize (GetFormatAttribs (tex_format textureDesc)));
    [|rewrite afterCalls_nil; reflexivity].
  unfold for_range.
  rewrite (for_range_from_calls _
             (fun layer _ =>
                EvTextureUpdateSubresource (texId texture) 0 layer
                  (fullBox (tex_extent textureDesc))
                  (imageDescDefault (tex_format textureDesc) (tex_extent textureDesc)
                     (tex_clearColor textureDesc)))
             (fun _ _ => tt))
    by (intros i [] s; reflexivity).
  destruct (loopResult _ _ _ _). reflexivity.
Qed.

(** The outcome of [CreateTexture] without image data. *)
Lemma CreateTexture_without_image textureDesc st :
  let id := nextHandle st in
  let texture := {| texId := id; texType := tex_type textureDesc |} in
  CreateTexture textureDesc None st
  = Returned texture
      {| textures_ := <[ id := texture ]> (textures_ st);
         nextHandle := Pos.succ id;
         trace := trace st
           ++ EvCreateTexture id textureDesc
              :: (if (Z.land (tex_miscFlags textureDesc) MiscFlags_NoInitialData =? 0)
                     && negb (IsDepthStencilFormat (tex_format textureDesc))
                     && (0 <? bitSize (GetFormatAttribs (tex_format textureDesc)))
                  then loopCalls (Z.to_nat (tex_arrayLayers textureDesc)) 0 tt
                         (fun layer _ =>
                            EvTextureUpdateSubresource id 0 layer
                              (fullBox (tex_extent textureDesc))
                              (imageDescDefault (tex_format textureDesc)
                                 (tex_extent textureDesc) (tex_clearColor textureDesc)))
                         (fun _ _ => tt)
                  else []) |}.
Proof.
  cbn zeta. unfold CreateTexture, on_unwind.
  unfold bind at 1. cbn [fresh]. unfold bind at 1. cbn [emit modify].
  rewrite (bind_returned _ _ _ _ _ (InitializeGpuTexture_without_image _ _ _)).
  cbn. rewrite <- app_assoc. reflexivity.
Qed.

(** X4. [CreateTexture] without image data never generates MIP maps and
    checks nothing of the descriptor, whatever it asks for: when the native
    calls succeed, it returns the new texture, registered under its handle,
    and the only calls it makes after creating the texture object are
    subresource updates of MIP level 0, with the whole-level box and the
    clear-colour image. *)
Theorem D3D11_CreateTexture_without_image_no_mips
    (textureDesc : TextureDescriptor) (st : D3D11RenderSystem) :
  exists texture st' uploads,
    CreateTexture textureDesc None st = Returned texture st'
    /\ texId texture = nextHandle st
    /\ textures_ st' !! texId texture = Some texture
    /\ trace st' = trace st ++ EvCreateTexture (texId texture) textureDesc :: uploads
    /\ (forall t, EvGenerateMips t ∉ uploads)
    /\ (forall e, e ∈ uploads ->
          exists layer,
            e = EvTextureUpdateSubresource (texId texture) 0 layer
                  (fullBox (tex_extent textureDesc))
                  (imageDescDefault (tex_format textureDesc) (tex_extent textureDesc)
                     (tex_clearColor textureDesc))).
Proof.
  pose proof (CreateTexture_without_image textureDesc st) as Hrun. cbn zeta in Hrun.
  eexists _, _, _. split; [exact Hrun|]. cbn [texId textures_ trace].
  split; [reflexivity|]. split; [apply lookup_insert_eq|]. split; [reflexivity|].
  assert (Hall : forall e,
            e ∈ (if (Z.land (tex_miscFlags textureDesc) MiscFlags_NoInitialData =? 0)
                    && negb (IsDepthStencilFormat (tex_format textureDesc))
                    && (0 <? bitSize (GetFormatAttribs (tex_format textureDesc)))
                 then loopCalls (Z.to_nat (tex_arrayLayers textureDesc)) 0 tt
                        (fun layer _ =>
                           EvTextureUpdateSubresource (nextHandle st) 0 layer
                             (fullBox (tex_extent textureDesc))
                             (imageDescDefault (tex_format textureDesc)
                                (tex_extent textureDesc) (tex_clearColor textureDesc)))
                        (fun _ _ => tt)
                 else []) ->
            exists layer,
              e = EvTextureUpdateSubresource (nextHandle st) 0 layer
                    (fullBox (tex_extent textureDesc))
                    (imageDescDefault (tex_format textureDesc) (tex_extent textureDesc)
                       (tex_clearColor textureDesc))).
  { intros e.
    match goal with |- context [if ?c then _ else _] => destruct c end.
    - intros Hin. apply elem_of_loopCalls_const in Hin as (layer & _ & ->).
      exists layer. reflexivity.
    - intros Hin. apply elem_of_nil in Hin. destruct Hin. }
  split; [|exact Hall].
  intros t Hin. apply Hall in Hin as (layer & Heq). discriminate Heq.
Qed.

(** X5. [CreateTexture] without image data uploads nothing at all when the
    [NoInitialData] flag is set, when the format is a depth-stencil format,
    or when the format has no bit size: the texture object is created and
    registered, and no other call is made. *)
Theorem D3D11_CreateTexture_uninitialized
    (textureDesc : TextureDescriptor) (st : D3D11RenderSystem)
    (Hskip : Z.land (tex_miscFlags textureDesc) MiscFlags_NoInitialData <> 0
             \/ IsDepthStencilFormat (tex_format textureDesc) = true
             \/ bitSize (GetFormatAttribs (tex_format textureDesc)) <= 0) :
  let id := nextHandle st in
  let texture := {| texId := id; texType := tex_type textureDesc |} in
  CreateTexture textureDesc None st
  = Returned texture
      {| textures_ := <[ id := texture ]> (textures_ st);
         nextHandle := Pos.succ id;
         trace := trace st ++ [EvCreateTexture id textureDesc] |}.
Proof.
  cbn zeta. rewrite CreateTexture_without_image.
  assert (Hcond : (Z.land (tex_miscFlags textureDesc) MiscFlags_NoInitialData =? 0)
                  && negb (IsDepthStencilFormat (tex_format textureDesc))
                  && (0 <? bitSize (GetFormatAttribs (tex_format textureDesc))) = false).
  { destruct Hskip as [Hflag|[Hds|Hbits]].
    - apply Z.eqb_neq in Hflag. rewrite Hflag. reflexivity.
    - rewrite Hds. apply andb_false_iff. left. apply andb_false_r.
    - apply andb_false_iff. right. apply Z.ltb_ge. exact Hbits. }
  rewrite Hcond. reflexivity.
Qed.

End D3D11Textures.

(** ** Vulkan: no region is leaked *)

Section VKAccountingTheory.
Context {E : Externals}.
Import VK VKAccounting.

Local Open Scope positive_scope.

Lemma CreateBuffer_textures desc initialData st st' :
  stateAfter (CreateBuffer desc initialData st) = Some st' ->
  textures_ st' = textures_ st.
Proof.
  unfold CreateBuffer, CreateStagingBufferAndInitialize, CreateStagingBuffer,
    MakeDeviceBuffer, Allocate, ReleaseMemoryRegion, Release, when.
  destruct (AssertCreateBuffer desc UINT64_MAX),
    (negb (is_null initialData) && (0 <? buf_size desc))%Z, (keepsStagingBuffer desc);
    cbn; intros [= <-]; reflexivity.
Qed.

Lemma WriteBuffer_textures bufferVK offset data dataSize st st' :
  stateAfter (WriteBuffer bufferVK offset data dataSize st) = Some st' ->
  textures_ st' = textures_ st.
Proof.
  unfold WriteBuffer, CreateStagingBufferAndInitialize, CreateStagingBuffer,
    MakeDeviceBuffer, Allocate, ReleaseMemoryRegion, Release, when.
  destruct (negb (is_null (GetStagingVkBuffer bufferVK))),
    (negb (is_null data) && (0 <? dataSize))%Z;
    cbn; intros [= <-]; reflexivity.
Qed.

Lemma ReleaseBuffer_textures buffer st st' :
  stateAfter (ReleaseBuffer buffer st) = Some st' ->
  textures_ st' = textures_ st.
Proof.
  unfold ReleaseBuffer, gets, bind at 1.
  destruct (buffers_ st !! buffer) as [[[b [r|]] [staging [sr|]]]|];
    unfold ReleaseMemoryRegion, Release; cbn; intros [= <-]; reflexivity.
Qed.

(** The validation step of the two texture functions returns or throws with
    the render system as it was. *)
Lemma validation_pure {A} (m : M VKRenderSystem A) (st : VKRenderSystem) :
  (exists a, m st = Returned a st) \/ (exists e, m st = Thrown e st) ->
  forall {B} (k : A -> M VKRenderSystem B) st',
    stateAfter (bind m k st) = Some st' ->
    st' = st \/ exists a, stateAfter (k a st) = Some st'.
Proof.
  intros [[a Hm]|[e Hm]] B k st'; unfold bind; rewrite Hm; cbn.
  - intros Hk. right. exists a. exact Hk.
  - intros [= <-]. left. reflexivity.
Qed.

Lemma WriteTexture_textures textureVK textureRegion imageDesc st st' :
  stateAfter (WriteTexture textureVK textureRegion imageDesc st) = Some st' ->
  textures_ st' = textures_ st.
Proof.
  unfold WriteTexture. cbv zeta. intros Hrun.
  apply validation_pure in Hrun.
  - destruct Hrun as [->|[imageData Hrun]]; [reflexivity|].
    revert Hrun.
    unfold CreateStagingBufferAndInitialize, CreateStagingBuffer,
      MakeDeviceBuffer, Allocate, ReleaseMemoryRegion, Release, when,
      AllocCommandBuffer, FlushCommandBuffer.
    match goal with |- context [if ?c then _ else _] => destruct c end;
      cbn; intros [= <-]; reflexivity.
  - repeat match goal with
           | |- context [match ?c with Some _ => _ | None => _ end] => destruct c
           | |- context [if ?c then _ else _] => destruct c
           end; eauto.
Qed.

Lemma CreateTexture_textures textureDesc imageDesc st st' :
  stateAfter (CreateTexture textureDesc imageDesc st) = Some st' ->
  let image := Pos.succ (Pos.succ (nextHandle st)) in
  st' = st
  \/ textures_ st'
     = <[ image := {| vt_image := image;
                      vt_format := VKTypes_Map (tex_format textureDesc);
                      vt_numArrayLayers := NumTextureLayers textureDesc;
                      vt_numMipLevels := NumTextureMipLevels textureDesc;
                      vt_extent := TextureVkExtent textureDesc;
                      vt_memoryRegion := Pos.succ image |} ]> (textures_ st).
Proof.
  unfold CreateTexture. cbv zeta. intros Hrun.
  apply validation_pure in Hrun.
  - destruct Hrun as [->|[initialData Hrun]]; [left; reflexivity|]. right.
    revert Hrun.
    unfold CreateStagingBufferAndInitialize, CreateStagingBuffer,
      MakeDeviceBuffer, Allocate, ReleaseMemoryRegion, Release, when,
      AllocCommandBuffer, FlushCommandBuffer, MakeTexture.
    repeat match goal with |- context [if ?c then _ else _] => destruct c end;
      cbn; intros [= <-]; reflexivity.
  - destruct imageDesc as [imageDesc|];
      repeat match goal with
             | |- context [match ?c with Some _ => _ | None => _ end] => destruct c
             | |- context [if ?c then _ else _] => destruct c
             end; eauto.
Qed.

Lemma Owned_kept st st' r :
  (forall (h : Handle) (b : VKBuffer),
     buffers_ st !! h = Some b -> r ∈ bufferRegions b -> buffers_ st' !! h = Some b) ->
  (forall (h : Handle) (t : VKTexture),
     textures_ st !! h = Some t -> textures_ st' !! h = Some t) ->
  Owned st r -> Owned st' r.
Proof.
  intros Hb Ht [(h & b & Hlookup & Hin)|(h & t & Hlookup & Hreg)].
  - left. exists h, b. split; [apply Hb; assumption|exact Hin].
  - right. exists h, t. split; [apply Ht; assumption|exact Hreg].
Qed.

Lemma Accounted_construct cfg : Accounted (construct cfg).
Proof.
  split.
  - apply WellFormed_construct.
  - intros h t Ht. unfold construct in Ht. cbn in Ht. rewrite lookup_empty in Ht. discriminate.
  - intros r Hr. unfold construct in Hr. cbn in Hr. apply not_elem_of_empty in Hr. destruct Hr.
Qed.

(** Every call leaves an accounted render system accounted. *)
Lemma perform_Accounted c st st' :
  Accounted st -> stateAfter (perform c st) = Some st' -> Accounted st'.
Proof.
  intros [Hwf Htex Hown] Hstep.
  pose proof (perform_WellFormed c st st' Hwf Hstep) as Hwf'.
  destruct c as [desc initialData|buffer offset data dataSize|buffer
                |textureDesc imageDesc|texture textureRegion imageDesc];
    cbn [perform] in Hstep.
  - (* CreateBuffer *)
    assert (Hstep' : stateAfter (CreateBuffer desc initialData st) = Some st').
    { revert Hstep. unfold bind. destruct (CreateBuffer desc initialData st); cbn; auto. }
    pose proof (CreateBuffer_textures _ _ _ _ Hstep') as Htextures.
    destruct (AssertCreateBuffer desc UINT64_MAX) eqn:Hassert.
    + destruct (CreateBuffer_returns desc initialData st Hassert)
        as (st1 & Hrun & _ & Hlookup & Hregions & Hothers & Hnext).
      cbn zeta in *. rewrite Hrun in Hstep'. cbn in Hstep'. injection Hstep' as <-.
      split; [exact Hwf'| |].
      * intros h t Ht. rewrite Htextures in Ht. specialize (Htex h t Ht). lia.
      * intros r Hr.
        assert (Hcases : r ∈ regions (deviceMemoryMngr_ st)
                         \/ r ∈ bufferRegions
                                {| bufferObj := {| vkBuffer := Some (Pos.succ (Pos.succ (nextHandle st)));
                                                   memoryRegion := Some (Pos.succ (Pos.succ (Pos.succ (nextHandle st)))) |};
                                   bufferObjStaging :=
                                     if keepsStagingBuffer desc
                                     then {| vkBuffer := Some (nextHandle st);
                                             memoryRegion := Some (Pos.succ (nextHandle st)) |}
                                     else nullDeviceBuffer |}).
        { revert Hr. rewrite Hregions. unfold bufferRegions.
          destruct (keepsStagingBuffer desc); cbn;
            rewrite ?elem_of_difference, !elem_of_union, ?elem_of_cons, ?elem_of_nil,
              !elem_of_singleton; tauto. }
        destruct Hcases as [Hold|Hnew].
        -- apply (Owned_kept st st1 r); [| |apply Hown; exact Hold].
           ++ intros h b Hb _. rewrite Hothers; [exact Hb|].
              pose proof (wf_buffers st Hwf h b Hb). lia.
           ++ intros h t Ht. rewrite Htextures. exact Ht.
        -- left. eexists _, _. split; [exact Hlookup|exact Hnew].
    + rewrite (CreateBuffer_throws desc initialData st Hassert) in Hstep'.
      cbn in Hstep'. injection Hstep' as <-. split; assumption.
  - (* WriteBuffer *)
    revert Hstep. unfold gets, bind at 1.
    destruct (buffers_ st !! buffer) as [bufferVK|]; [|discriminate].
    intros Hstep.
    pose proof (WriteBuffer_textures _ _ _ _ _ _ Hstep) as Htextures.
    assert (Heff : buffers_ st' = buffers_ st
                   /\ (nextHandle st <= nextHandle st')
                   /\ forall r, r ∈ regions (deviceMemoryMngr_ st') ->
                                r ∈ regions (deviceMemoryMngr_ st)).
    { destruct (GetStagingVkBuffer bufferVK) as [staging|] eqn:Hstaging.
      - destruct (WriteBuffer_retained bufferVK staging offset data dataSize st Hstaging)
          as (st1 & Hrun & _ & Hmngr & Hbuffers & Hnext).
        rewrite Hrun in Hstep. cbn in Hstep. injection Hstep as <-.
        rewrite Hmngr, Hnext. split; [exact Hbuffers|]. split; [lia|auto].
      - destruct (WriteBuffer_transient bufferVK offset data dataSize st Hstaging)
          as (st1 & Hrun & _ & Hregions & Hbuffers & Hnext).
        rewrite Hrun in Hstep. cbn in Hstep. injection Hstep as <-.
        split; [exact Hbuffers|]. split; [lia|].
        intros r. rewrite Hregions, elem_of_difference, elem_of_union. tauto. }
    destruct Heff as (Hbuffers & Hnext & Hsub).
    split; [exact Hwf'| |].
    + intros h t Ht. rewrite Htextures in Ht. specialize (Htex h t Ht). lia.
    + intros r Hr. apply (Owned_kept st st' r); [| |apply Hown, Hsub, Hr].
      * intros h b Hb _. rewrite Hbuffers. exact Hb.
      * intros h t Ht. rewrite Htextures. exact Ht.
  - (* Release *)
    pose proof (ReleaseBuffer_textures _ _ _ Hstep) as Htextures.
    destruct (buffers_ st !! buffer) as [bufferVK|] eqn:Hlookup.
    + destruct (ReleaseBuffer_registered buffer bufferVK st Hlookup)
        as (st1 & Hrun & Hregions & Hbuffers & Hnext).
      rewrite Hrun in Hstep. cbn in Hstep. injection Hstep as <-.
      split; [exact Hwf'| |].
      * intros h t Ht. rewrite Htextures in Ht. rewrite Hnext. apply (Htex h t Ht).
      * intros r Hr. apply Hregions in Hr as [Hr Hnot].
        apply (Owned_kept st st1 r); [| |apply Hown, Hr].
        -- intros h b Hb Hin. rewrite Hbuffers. apply lookup_delete_Some.
           split; [|exact Hb]. intros <-. rewrite Hlookup in Hb. injection Hb as <-.
           contradiction.
        -- intros h t Ht. rewrite Htextures. exact Ht.
    + revert Hstep. unfold ReleaseBuffer, gets, bind at 1. rewrite Hlookup. discriminate.
  - (* CreateTexture *)
    assert (Hstep' : stateAfter (CreateTexture textureDesc imageDesc st) = Some st').
    { revert Hstep. unfold bind. destruct (CreateTexture textureDesc imageDesc st); cbn; auto. }
    pose proof (CreateTexture_textures _ _ _ _ Hstep') as Htextures. cbn zeta in Htextures.
    pose proof (CreateTexture_outcome textureDesc imageDesc st) as Hout. cbv zeta in Hout.
    match type of Hout with (if ?c then _ else _) => destruct c end.
    + destruct Hout as (st1 & Hrun & _ & Hregions & Hbuffers & Hnext).
      rewrite Hrun in Hstep'. cbn in Hstep'. injection Hstep' as <-.
      destruct Htextures as [Heq|Htextures].
      { rewrite Heq in Hnext. lia. }
      split; [exact Hwf'| |].
      * intros h t. rewrite Htextures, Hnext.
        destruct (Pos.eq_dec h (Pos.succ (Pos.succ (nextHandle st)))) as [->|Hne]; [lia|].
        rewrite lookup_insert_ne by congruence. intros Ht. specialize (Htex h t Ht). lia.
      * intros r. rewrite Hregions, elem_of_difference, !elem_of_union, !elem_of_singleton.
        intros [[->|[->|Hr]] Hne]; [| congruence |].
        -- right. eexists _, _. rewrite Htextures. split; [apply lookup_insert_eq|reflexivity].
        -- apply (Owned_kept st st1 r); [| |apply Hown, Hr].
           ++ intros h b Hb _. rewrite Hbuffers. exact Hb.
           ++ intros h t Ht. rewrite Htextures. rewrite lookup_insert_ne; [exact Ht|].
              specialize (Htex h t Ht). lia.
    + rewrite Hout in Hstep'. cbn in Hstep'. injection Hstep' as <-. split; assumption.
  - (* WriteTexture *)
    revert Hstep. unfold gets, bind at 1.
    destruct (textures_ st !! texture) as [textureVK|]; [|discriminate].
    intros Hstep.
    pose proof (WriteTexture_textures _ _ _ _ _ Hstep) as Htextures.
    pose proof (WriteTexture_outcome textureVK textureRegion imageDesc st) as Hout.
    cbv zeta in Hout.
    match type of Hout with (if ?c then _ else _) => destruct c end.
    + destruct Hout as (st1 & Hrun & _ & Hregions & Hbuffers & Hnext).
      rewrite Hrun in Hstep. cbn in Hstep. injection Hstep as <-.
      split; [exact Hwf'| |].
      * intros h t Ht. rewrite Htextures in Ht. specialize (Htex h t Ht). lia.
      * intros r. rewrite Hregions, elem_of_difference, elem_of_union.
        intros [[Hr|Hr] Hne]; [contradiction|].
        apply (Owned_kept st st1 r); [| |apply Hown, Hr].
        -- intros h b Hb _. rewrite Hbuffers. exact Hb.
        -- intros h t Ht. rewrite Htextures. exact Ht.
    + rewrite Hout in Hstep. cbn in Hstep. injection Hstep as <-. split; assumption.
Qed.

Lemma performAll_Accounted calls : forall st st',
  Accounted st -> performAll calls st = Some st' -> Accounted st'.
Proof.
  induction calls as [|c calls IH]; intros st st' Hacc; cbn.
  - intros [= <-]. exact Hacc.
  - destruct (stateAfter (perform c st)) as [st1|] eqn:Hstep; [|discriminate].
    apply IH. apply (perform_Accounted c st st1 Hacc Hstep).
Qed.

(** X6. As long as the native calls succeed, so that the only exceptions
    are those of the size validations, in every render system that calls of
    [CreateBuffer], [WriteBuffer], [Release(Buffer&)], [CreateTexture] and
    [WriteTexture] reach from a newly constructed one, whether they returned
    or threw on a size validation, every region leased from the device memory
    manager is held by a registered buffer, as its primary or its retained
    staging region, or by a registered texture: the staging regions of the
    transfers are all given back. *)
Theorem VK_no_region_is_leaked
    (rendererConfigVK : option RendererConfigurationVulkan) (calls : list Call)
    (st : VKRenderSystem)
    (Hcalls : performAll calls (construct rendererConfigVK) = Some st) :
  forall r : Handle, r ∈ regions (deviceMemoryMngr_ st) -> Owned st r.
Proof.
  apply (acc_owned st).
  apply (performAll_Accounted calls (construct rendererConfigVK) st); [|exact Hcalls].
  apply Accounted_construct.
Qed.

End VKAccountingTheory.

(** ** Vulkan: reading back and releasing *)

Section VKReadbackTheory.
Context {E : Externals}.
Import VK VKReadback.

(** A lifted computation that returns adds its calls to the record. *)
Lemma lift_returned {A} (m : M VKRenderSystem A) (s : System) a st' evs :
  m (renderSystem s) = Returned a st' ->
  trace st' = trace (renderSystem s) ++ evs ->
  lift m s = Returned a {| renderSystem := st'; calls := calls s ++ map Base evs |}.
Proof.
  intros Hrun Htrace. unfold lift. rewrite Hrun, Htrace, drop_app_length. reflexivity.
Qed.

(** The outcome of [CreateStagingBuffer]. *)
Lemma CreateStagingBuffer_returns createInfo st :
  exists st',
    CreateStagingBuffer createInfo st
      = Returned {| vkBuffer := Some (nextHandle st);
                    memoryRegion := Some (Pos.succ (nextHandle st)) |} st'
    /\ trace st' = trace st
         ++ [EvCreateDeviceBuffer (nextHandle st) createInfo;
             EvAllocate (Pos.succ (nextHandle st))
               (Z.lor VK_MEMORY_PROPERTY_HOST_VISIBLE_BIT VK_MEMORY_PROPERTY_HOST_COHERENT_BIT);
             EvBindMemoryRegion (nextHandle st) (Pos.succ (nextHandle st))]
    /\ regions (deviceMemoryMngr_ st')
         = {[ Pos.succ (nextHandle st) ]} ∪ regions (deviceMemoryMngr_ st)
    /\ buffers_ st' = buffers_ st
    /\ textures_ st' = textures_ st
    /\ nextHandle st' = Pos.succ (Pos.succ (nextHandle st)).
Proof.
  unfold CreateStagingBuffer, MakeDeviceBuffer, Allocate. cbn.
  eexists. split; [reflexivity|]. cbn. rewrite <- ?app_assoc. repeat split; reflexivity.
Qed.

(** Releasing the region of a staging buffer that holds one. *)
Lemma ReleaseMemoryRegion_staging b r st :
  exists st',
    ReleaseMemoryRegion {| vkBuffer := b; memoryRegion := Some r |} st
      = Returned {| vkBuffer := b; memoryRegion := None |} st'
    /\ trace st' = trace st ++ [EvRelease r]
    /\ regions (deviceMemoryMngr_ st') = regions (deviceMemoryMngr_ st) ∖ {[ r ]}
    /\ buffers_ st' = buffers_ st
    /\ textures_ st' = textures_ st
    /\ nextHandle st' = nextHandle st.
Proof.
  unfold ReleaseMemoryRegion, Release. cbn.
  eexists. split; [reflexivity|]. cbn. repeat split; reflexivity.
Qed.

Lemma bind_call {B} (c : DeviceCall) (k : unit -> M System B) (s : System) :
  bind (call c) k s = k tt {| renderSystem := renderSystem s; calls := calls s ++ [c] |}.
Proof. reflexivity. Qed.

Lemma lift_AllocCommandBuffer (s : System) :
  lift AllocCommandBuffer s
  = Returned []
      {| renderSystem :=
           {| deviceMemoryMngr_ := deviceMemoryMngr_ (renderSystem s);
              buffers_ := buffers_ (renderSystem s);
              textures_ := textures_ (renderSystem s);
              nextHandle := nextHandle (renderSystem s);
              trace := trace (renderSystem s) ++ [EvAllocCommandBuffer] |};
         calls := calls s ++ [Base EvAllocCommandBuffer] |}.
Proof.
  apply (lift_returned AllocCommandBuffer s [] _ [EvAllocCommandBuffer]); reflexivity.
Qed.

(** Leasing a region that was not leased and giving it back leaves the
    leased regions as they were. *)
Lemma lease_release (live : gset Handle) (r : Handle) :
  r ∉ live -> ({[ r ]} ∪ live) ∖ {[ r ]} = live.
Proof.
  intros Hnot. apply set_eq. intros x.
  rewrite elem_of_difference, elem_of_union, elem_of_singleton.
  split; [tauto|]. intros Hx. split; [right; exact Hx|]. intros ->. contradiction.
Qed.

(** X7. [ReadBuffer] mirrors [WriteBuffer] and never writes host data into
    a buffer; what follows are its calls when the native calls succeed.
    With a retained staging buffer it copies [dataSize] bytes of
    the buffer from offset [offset] to staging offset [offset] and then reads
    the staging buffer at [offset]; nothing is leased or released.  Without
    one it creates a staging buffer of [dataSize] bytes in host-visible
    coherent memory, uninitialized, copies from the buffer's offset [offset]
    to staging offset 0, reads the staging buffer at 0, and releases the
    staging region as the last call, after the read.  The registries of
    buffers and textures are as before, and in a well-formed render system so
    are the leased regions. *)
Theorem VK_ReadBuffer_staging_protocol
    (bufferVK : VKBuffer) (offset dataSize : Z) (s : System) :
  exists s',
    ReadBuffer bufferVK offset dataSize s = Returned tt s'
    /\ match GetStagingVkBuffer bufferVK with
       | Some staging =>
           calls s' = calls s
             ++ [Base (EvCopyBuffer (GetVkBuffer bufferVK) (Some staging) dataSize
                         (Some (offset, offset)));
                 CallReadBuffer (Some staging) dataSize offset]
           /\ regions (deviceMemoryMngr_ (renderSystem s'))
              = regions (deviceMemoryMngr_ (renderSystem s))
       | None =>
           let staging := nextHandle (renderSystem s) in
           let region := Pos.succ staging in
           calls s' = calls s
             ++ [Base (EvCreateDeviceBuffer staging
                         {| ci_size := dataSize;
                            ci_usage := Z.lor VK_BUFFER_USAGE_TRANSFER_SRC_BIT
                                          VK_BUFFER_USAGE_TRANSFER_DST_BIT |});
                 Base (EvAllocate region
                         (Z.lor VK_MEMORY_PROPERTY_HOST_VISIBLE_BIT
                            VK_MEMORY_PROPERTY_HOST_COHERENT_BIT));
                 Base (EvBindMemoryRegion staging region);
                 Base (EvCopyBuffer (GetVkBuffer bufferVK) (Some staging) dataSize
                         (Some (offset, 0%Z)));
                 CallReadBuffer (Some staging) dataSize 0;
                 Base (EvRelease region)]
           /\ (region ∉ regions (deviceMemoryMngr_ (renderSystem s')))
           /\ (WellFormed (renderSystem s) ->
                 regions (deviceMemoryMngr_ (renderSystem s'))
                 = regions (deviceMemoryMngr_ (renderSystem s)))
       end
    /\ buffers_ (renderSystem s') = buffers_ (renderSystem s)
    /\ textures_ (renderSystem s') = textures_ (renderSystem s).
Proof.
  unfold ReadBuffer.
  destruct (GetStagingVkBuffer bufferVK) as [staging|] eqn:Hstaging; cbn [is_null negb].
  - unfold GetStagingDeviceBuffer.
    assert (Hbuf : vkBuffer (bufferObjStaging bufferVK) = Some staging) by exact Hstaging.
    rewrite Hbuf. unfold lift, call, emit, modify, bind. cbn.
    rewrite drop_app_length. cbn.
    eexists. split; [reflexivity|]. cbn. rewrite <- app_assoc. auto.
  - cbv zeta.
    destruct (CreateStagingBuffer_returns
                (BuildVkBufferCreateInfo dataSize
                   (Z.lor VK_BUFFER_USAGE_TRANSFER_SRC_BIT VK_BUFFER_USAGE_TRANSFER_DST_BIT))
                (renderSystem s))
      as (st1 & Hrun & Htrace & Hregions & Hbuffers & Htextures & Hnext).
    rewrite (bind_returned _ _ _ _ _ (lift_returned _ s _ _ _ Hrun Htrace)).
    cbn [vkBuffer].
    unfold call, emit, modify at 1 2.
    unfold bind at 1. unfold lift at 1. cbn [renderSystem calls trace].
    rewrite drop_app_length.
    unfold bind at 1.
    cbn [renderSystem calls].
    match goal with |- context [bind (lift (ReleaseMemoryRegion ?b)) _ ?s1] =>
      destruct (ReleaseMemoryRegion_staging (Some (nextHandle (renderSystem s)))
                  (Pos.succ (nextHandle (renderSystem s))) (renderSystem s1))
        as (st2 & Hrel & Htrace2 & Hregions2 & Hbuffers2 & Htextures2 & Hnext2);
      rewrite (bind_returned _ _ _ _ _ (lift_returned _ s1 _ _ _ Hrel Htrace2))
    end.
    eexists. split; [reflexivity|]. cbn in *.
    rewrite Hregions2, Hregions, Hbuffers2, Hbuffers, Htextures2, Htextures.
    split; [|auto]. unfold BuildVkBufferCreateInfo.
    split; [rewrite <- !app_assoc; reflexivity|].
    split.
    + intros Hin. apply elem_of_difference in Hin as [_ Hnot].
      apply Hnot, elem_of_singleton. reflexivity.
    + intros Hwf. apply lease_release. intros Hin.
      pose proof (wf_regions _ Hwf _ Hin). lia.
Qed.

(** X8. [ReadTexture] makes no check of the region or of the destination
    descriptor; what follows are its calls when the native calls succeed.
    It creates a staging buffer of the
    region's memory footprint with transfer-destination usage in host-visible
    coherent memory, flushes once a command buffer holding exactly the
    transition of the region's subresource from Undefined to TransferSrc, the
    image-to-buffer copy of the region and the transition from TransferSrc to
    ShaderReadOnly, and then maps the staging region.  The image data is
    copied to the destination, and the memory unmapped, exactly when mapping
    answers with an address; in either case the staging region is released as
    the last call, so it is not leased afterwards, and buffers and textures
    are registered as before. *)
Theorem VK_ReadTexture_staging_protocol
    (Map : Handle -> Z -> HostPtr)
    (textureVK : VKTexture) (textureRegion : TextureRegion)
    (imageDesc : DstImageDescriptor) (s : System) :
  let format := VKTypes_Unmap (vt_format textureVK) in
  let imageSize :=
    uint32 (width (extent textureRegion) * height (extent textureRegion)
            * depth (extent textureRegion)) in
  let imageDataSize := GetMemoryFootprint format imageSize in
  let staging := nextHandle (renderSystem s) in
  let region := Pos.succ staging in
  exists s',
    ReadTexture Map textureVK textureRegion imageDesc s = Returned tt s'
    /\ calls s' = calls s
         ++ [Base (EvCreateDeviceBuffer staging
                     {| ci_size := imageDataSize;
                        ci_usage := VK_BUFFER_USAGE_TRANSFER_DST_BIT |});
             Base (EvAllocate region
                     (Z.lor VK_MEMORY_PROPERTY_HOST_VISIBLE_BIT
                        VK_MEMORY_PROPERTY_HOST_COHERENT_BIT));
             Base (EvBindMemoryRegion staging region);
             Base EvAllocCommandBuffer;
             CallFlushCommandBuffer
               [CmdOf (CmdTransitionImageLayout (vt_image textureVK) (vt_format textureVK)
                         VK_IMAGE_LAYOUT_UNDEFINED VK_IMAGE_LAYOUT_TRANSFER_SRC_OPTIMAL
                         (subresource textureRegion));
                CmdCopyImageToBuffer (vt_image textureVK) (Some staging) (vt_format textureVK)
                  (offset textureRegion) (extent textureRegion) (subresource textureRegion);
                CmdOf (CmdTransitionImageLayout (vt_image textureVK) (vt_format textureVK)
                         VK_IMAGE_LAYOUT_TRANSFER_SRC_OPTIMAL
                         VK_IMAGE_LAYOUT_SHADER_READ_ONLY_OPTIMAL
                         (subresource textureRegion))];
             CallMap region imageDataSize]
         ++ match Map region imageDataSize with
            | Some memory =>
                [CallCopyTextureImageData imageDesc (extent textureRegion) format memory;
                 CallUnmap region]
            | None => []
            end
         ++ [Base (EvRelease region)]
    /\ (region ∉ regions (deviceMemoryMngr_ (renderSystem s')))
    /\ (WellFormed (renderSystem s) ->
          regions (deviceMemoryMngr_ (renderSystem s'))
          = regions (deviceMemoryMngr_ (renderSystem s)))
    /\ buffers_ (renderSystem s') = buffers_ (renderSystem s)
    /\ textures_ (renderSystem s') = textures_ (renderSystem s).
Proof.
  cbn zeta. unfold ReadTexture. cbv zeta.
  match goal with |- context [lift (CreateStagingBuffer ?ci)] =>
    destruct (CreateStagingBuffer_returns ci (renderSystem s))
      as (st1 & Hrun & Htrace & Hregions & Hbuffers & Htextures & Hnext)
  end.
  rewrite (bind_returned _ _ _ _ _ (lift_returned _ s _ _ _ Hrun Htrace)).
  cbv beta. cbn [vkBuffer memoryRegion].
  rewrite (bind_returned _ _ _ _ _ (lift_AllocCommandBuffer _)).
  cbv beta. cbn [map app renderSystem calls].
  rewrite bind_call. rewrite bind_assoc, bind_call.
  cbn [renderSystem calls].
  destruct (Map _ _) as [memory|];
    [rewrite bind_assoc, !bind_call|rewrite bind_ret_l];
    cbn [renderSystem calls];
    (match goal with |- context [bind (lift (ReleaseMemoryRegion ?b)) _ ?s1] =>
       destruct (ReleaseMemoryRegion_staging (Some (nextHandle (renderSystem s)))
                   (Pos.succ (nextHandle (renderSystem s))) (renderSystem s1))
         as (st2 & Hrel & Htrace2 & Hregions2 & Hbuffers2 & Htextures2 & Hnext2);
       rewrite (bind_returned _ _ _ _ _ (lift_returned _ s1 _ _ _ Hrel Htrace2))
     end);
    (eexists; split; [reflexivity|]); cbn in *;
    rewrite Hregions2, Hregions, Hbuffers2, Hbuffers, Htextures2, Htextures;
    unfold BuildVkBufferCreateInfo;
    destruct (offset textureRegion), (extent textureRegion);
    (split; [rewrite <- !app_assoc; reflexivity|]);
    (split; [|split; [|auto]]);
    try (intros Hin; apply elem_of_difference in Hin as [_ Hnot];
         apply Hnot, elem_of_singleton; reflexivity);
    (intros Hwf; apply lease_release; intros Hin;
     pose proof (wf_regions _ Hwf _ Hin); lia).
Qed.

End VKReadbackTheory.

(** ** Vulkan: creating and releasing; textures without image data *)

Section VKRoundTrips.
Context {E : Externals}.
Import VK VKAccounting VKReadback.

(** The outcome of [Release(Texture&)] on a registered texture. *)
Lemma ReleaseTexture_registered texture textureVK st :
  textures_ st !! texture = Some textureVK ->
  exists st',
    ReleaseTexture texture st = Returned tt st'
    /\ trace st' = trace st ++ [EvRelease (vt_memoryRegion textureVK)]
    /\ regions (deviceMemoryMngr_ st')
       = regions (deviceMemoryMngr_ st) ∖ {[ vt_memoryRegion textureVK ]}
    /\ textures_ st' = delete texture (textures_ st)
    /\ buffers_ st' = buffers_ st.
Proof.
  intros Hlookup. unfold ReleaseTexture, gets, bind at 1. rewrite Hlookup.
  unfold Release. cbn. eexists. split; [reflexivity|]. cbn. repeat split; reflexivity.
Qed.

(** X9. In a well-formed render system, [Release] of a buffer that
    [CreateBuffer] has just returned gives back every region the creation
    leased, the primary region first and then the staging region if it was
    kept, and takes the buffer out of the registry: the leased regions and
    the registered buffers are exactly those before [CreateBuffer]. *)
Theorem VK_CreateBuffer_Release_round_trip
    (desc : BufferDescriptor) (initialData : HostPtr) (st st' : VKRenderSystem)
    (buffer : Handle)
    (Hwf : WellFormed st)
    (Hcreate : CreateBuffer desc initialData st = Returned buffer st') :
  exists st'',
    ReleaseBuffer buffer st' = Returned tt st''
    /\ regions (deviceMemoryMngr_ st'') = regions (deviceMemoryMngr_ st)
    /\ buffers_ st'' = buffers_ st
    /\ textures_ st'' = textures_ st
    /\ (exists released,
          trace st'' = trace st' ++ released
          /\ released
             = EvRelease (Pos.succ buffer)
               :: (if keepsStagingBuffer desc
                   then [EvRelease (Pos.succ (nextHandle st))]
                   else [])).
Proof.
  destruct (AssertCreateBuffer desc UINT64_MAX) eqn:Hassert;
    [|rewrite (CreateBuffer_throws desc initialData st Hassert) in Hcreate; discriminate].
  destruct (CreateBuffer_returns desc initialData st Hassert)
    as (st1 & Hrun & _ & Hlookup & Hregions & Hothers & Hnext).
  cbn zeta in *. rewrite Hrun in Hcreate. injection Hcreate as <- <-.
  assert (Htex1 : textures_ st1 = textures_ st).
  { apply (CreateBuffer_textures desc initialData). rewrite Hrun. reflexivity. }
  assert (Hfresh : forall r, r ∈ regions (deviceMemoryMngr_ st) -> (r < nextHandle st)%positive)
    by apply (wf_regions st Hwf).
  assert (Hnone : forall h : Handle,
            h = Pos.succ (Pos.succ (nextHandle st)) -> buffers_ st !! h = None).
  { intros h ->. destruct (buffers_ st !! _) as [b|] eqn:Hb; [|reflexivity].
    pose proof (wf_buffers st Hwf _ _ Hb). lia. }
  match type of Hlookup with _ = ?rhs =>
    assert (Hlookup' : @lookup Handle VKBuffer (gmap Handle VKBuffer) _
                         (Pos.succ (Pos.succ (nextHandle st))) (buffers_ st1) = rhs)
      by exact Hlookup
  end.
  unfold ReleaseBuffer, gets, bind at 1. rewrite Hlookup'.
  unfold ReleaseMemoryRegion, Release.
  destruct (keepsStagingBuffer desc); cbn;
    (eexists; split; [reflexivity|]); cbn; rewrite Hregions, Htex1;
    (split; [|split; [|split; [reflexivity|]]]).
  - apply set_eq. intros r. specialize (Hfresh r).
    rewrite !elem_of_difference, !elem_of_union, !elem_of_singleton.
    split; [tauto|]. intros Hr. specialize (Hfresh Hr).
    repeat split; [tauto|intros ->; lia|intros ->; lia].
  - apply map_eq. intros h.
    destruct (Pos.eq_dec h (Pos.succ (Pos.succ (nextHandle st)))) as [->|Hne].
    + rewrite lookup_delete_eq, (Hnone _ eq_refl). reflexivity.
    + rewrite lookup_delete_ne by congruence. apply Hothers. exact Hne.
  - eexists. split; [|reflexivity]. rewrite <- app_assoc. reflexivity.
  - apply set_eq. intros r. specialize (Hfresh r).
    rewrite !elem_of_difference, !elem_of_union, !elem_of_singleton.
    split; [tauto|]. intros Hr. specialize (Hfresh Hr).
    repeat split; [tauto|intros ->; lia|intros ->; lia].
  - apply map_eq. intros h.
    destruct (Pos.eq_dec h (Pos.succ (Pos.succ (nextHandle st)))) as [->|Hne].
    + rewrite lookup_delete_eq, (Hnone _ eq_refl). reflexivity.
    + rewrite lookup_delete_ne by congruence. apply Hothers. exact Hne.
  - eexists. split; [|reflexivity]. reflexivity.
Qed.

(** X10. In an accounted render system, [Release] of a texture that
    [CreateTexture] has just returned gives the texture's region back and
    takes the texture out of the registry: the leased regions, the
    registered textures and the registered buffers are exactly those before
    [CreateTexture]. *)
Theorem VK_CreateTexture_Release_round_trip
    (textureDesc : TextureDescriptor) (imageDesc : option SrcImageDescriptor)
    (st st' : VKRenderSystem) (texture : Handle)
    (Hacc : Accounted st)
    (Hcreate : CreateTexture textureDesc imageDesc st = Returned texture st') :
  exists st'',
    ReleaseTexture texture st' = Returned tt st''
    /\ trace st'' = trace st' ++ [EvRelease (Pos.succ texture)]
    /\ regions (deviceMemoryMngr_ st'') = regions (deviceMemoryMngr_ st)
    /\ textures_ st'' = textures_ st
    /\ buffers_ st'' = buffers_ st.
Proof.
  destruct Hacc as [Hwf Htex _].
  pose proof (CreateTexture_outcome textureDesc imageDesc st) as Hout. cbv zeta in Hout.
  match type of Hout with (if ?c then _ else _) => destruct c end;
    [|rewrite Hout in Hcreate; discriminate].
  destruct Hout as (st1 & Hrun & _ & Hregions & Hbuffers & Hnext).
  rewrite Hrun in Hcreate. injection Hcreate as <- <-.
  assert (Hstep : stateAfter (CreateTexture textureDesc imageDesc st) = Some st1)
    by (rewrite Hrun; reflexivity).
  destruct (CreateTexture_textures _ _ _ _ Hstep) as [Heq|Htextures].
  { rewrite Heq in Hnext. lia. }
  assert (Hlookup : textures_ st1 !! Pos.succ (Pos.succ (nextHandle st))
                    = Some {| vt_image := Pos.succ (Pos.succ (nextHandle st));
                              vt_format := VKTypes_Map (tex_format textureDesc);
                              vt_numArrayLayers := NumTextureLayers textureDesc;
                              vt_numMipLevels := NumTextureMipLevels textureDesc;
                              vt_extent := TextureVkExtent textureDesc;
                              vt_memoryRegion :=
                                Pos.succ (Pos.succ (Pos.succ (nextHandle st))) |}).
  { rewrite Htextures. apply lookup_insert_eq. }
  destruct (ReleaseTexture_registered _ _ _ Hlookup)
    as (st2 & Hrelease & Htrace2 & Hregions2 & Htextures2 & Hbuffers2).
  cbn [vt_memoryRegion] in *.
  exists st2. split; [exact Hrelease|]. split; [exact Htrace2|].
  rewrite Hregions2, Hregions, Htextures2, Htextures, Hbuffers2, Hbuffers.
  split; [|split; [|reflexivity]].
  - apply set_eq. intros r.
    pose proof (wf_regions st Hwf r) as Hfresh.
    rewrite !elem_of_difference, !elem_of_union, !elem_of_singleton.
    split; [tauto|]. intros Hr. specialize (Hfresh Hr).
    repeat split; [tauto|intros ->; lia|intros ->; lia].
  - apply map_eq. intros h.
    destruct (Pos.eq_dec h (Pos.succ (Pos.succ (nextHandle st)))) as [->|Hne].
    + rewrite lookup_delete_eq.
      destruct (textures_ st !! _) as [t|] eqn:Ht; [|reflexivity].
      pose proof (Htex _ _ Ht). lia.
    + rewrite lookup_delete_ne by congruence. rewrite lookup_insert_ne by congruence.
      reflexivity.
Qed.

(** X11. [CreateTexture] without image data makes no size check and never
    records the MIP-map generation, whatever the descriptor asks for.  When
    the native calls succeed, it still creates a staging buffer of the full memory footprint and flushes exactly
    one command buffer, holding the transition to TransferDst, the
    buffer-to-image copy from the staging buffer and the transition to
    ShaderReadOnly, over all layers and MIP levels.  A host write fills the
    staging buffer only when the [NoInitialData] flag is not set and the
    footprint is positive: with [NoInitialData] the copy is still made, from
    a staging buffer nothing was written to. *)
Theorem VK_CreateTexture_without_image
    (textureDesc : TextureDescriptor) (st : VKRenderSystem) :
  let imageSize := NumMipTexels textureDesc 0 in
  let initialDataSize := GetMemoryFootprint (tex_format textureDesc) imageSize in
  let staging := nextHandle st in
  let image := Pos.succ (Pos.succ staging) in
  let subres :=
    {| baseArrayLayer := 0; numArrayLayers := NumTextureLayers textureDesc;
       baseMipLevel := 0; numMipLevels := NumTextureMipLevels textureDesc |} in
  exists st' evs,
    CreateTexture textureDesc None st = Returned image st'
    /\ trace st' = trace st ++ evs
    /\ EvCreateDeviceBuffer staging
         {| ci_size := initialDataSize; ci_usage := VK_BUFFER_USAGE_TRANSFER_SRC_BIT |} ∈ evs
    /\ (forall cmds,
          EvFlushCommandBuffer cmds ∈ evs
          <-> cmds = uploadCommands (Some staging) image (VKTypes_Map (tex_format textureDesc))
                       {| ox := 0; oy := 0; oz := 0 |} (TextureVkExtent textureDesc) subres)
    /\ (forall b data size dstOffset,
          EvWriteBuffer b data size dstOffset ∈ evs
          <-> (Z.land (tex_miscFlags textureDesc) MiscFlags_NoInitialData = 0
               /\ 0 < initialDataSize)
              /\ b = Some staging
              /\ data = defaultImageData textureDesc imageSize initialDataSize
              /\ size = initialDataSize /\ dstOffset = None).
Proof.
  cbn zeta.
  pose proof (CreateTexture_outcome textureDesc None st) as Hout. cbv zeta in Hout.
  destruct Hout as (st' & Hrun & Htrace & _).
  eexists st', _. split; [exact Hrun|]. split; [exact Htrace|].
  unfold stagingCalls, createCommands. cbn [is_null negb andb]. rewrite app_nil_r.
  split; [solve_elem|]. split.
  - intros cmds. rewrite !elem_of_app.
    destruct (negb (is_null (defaultImageData textureDesc (NumMipTexels textureDesc 0)
                               (GetMemoryFootprint (tex_format textureDesc)
                                  (NumMipTexels textureDesc 0))))
              && (0 <? GetMemoryFootprint (tex_format textureDesc)
                         (NumMipTexels textureDesc 0)));
      rewrite ?elem_of_cons, ?elem_of_nil; split; intros H';
      intuition (try congruence).
  - intros b data size dstOffset. rewrite !elem_of_app.
    assert (Hnull : is_null (defaultImageData textureDesc (NumMipTexels textureDesc 0)
                               (GetMemoryFootprint (tex_format textureDesc)
                                  (NumMipTexels textureDesc 0))) = false
                    <-> Z.land (tex_miscFlags textureDesc) MiscFlags_NoInitialData = 0).
    { unfold defaultImageData.
      destruct (Z.eqb_spec (Z.land (tex_miscFlags textureDesc) MiscFlags_NoInitialData) 0).
      - destruct (isUncompressedFormat _); cbn; tauto.
      - cbn. split; [discriminate|contradiction]. }
    destruct (is_null (defaultImageData textureDesc (NumMipTexels textureDesc 0)
                         (GetMemoryFootprint (tex_format textureDesc)
                            (NumMipTexels textureDesc 0)))); cbn [negb andb];
      [|destruct (Z.ltb_spec 0 (GetMemoryFootprint (tex_format textureDesc)
                                  (NumMipTexels textureDesc 0)))];
      rewrite ?elem_of_cons, ?elem_of_nil; split; intros H';
      intuition (try congruence; try lia).
Qed.

End VKRoundTrips.

(** ** Vulkan: reading back a buffer that keeps its staging buffer *)

Section VKReadCreated.
Context {E : Externals}.
Import VK VKReadback.

(** X12. [ReadBuffer] on a buffer that [CreateBuffer] returned for a
    descriptor with CPU access flags or dynamic usage goes through the
    staging buffer [CreateBuffer] kept: it copies [dataSize] bytes from the
    buffer into that staging buffer and reads it, and leases and releases
    nothing.  That staging buffer was created with the usage
    [GetStagingVkBufferUsageFlags] gives, so when the descriptor does not ask
    for CPU write access the copy goes into a buffer created without the
    transfer-destination usage. *)
Theorem VK_ReadBuffer_of_created_buffer
    (desc : BufferDescriptor) (initialData : HostPtr) (st : VKRenderSystem)
    (offset dataSize : Z) (record : list DeviceCall)
    (Hassert : AssertCreateBuffer desc UINT64_MAX = true)
    (Hkeeps : keepsStagingBuffer desc = true) :
  let staging := nextHandle st in
  let buffer := Pos.succ (Pos.succ staging) in
  let usage := GetStagingVkBufferUsageFlags (buf_cpuAccessFlags desc) in
  exists st' bufferVK s',
    CreateBuffer desc initialData st = Returned buffer st'
    /\ buffers_ st' !! buffer = Some bufferVK
    /\ EvCreateDeviceBuffer staging {| ci_size := buf_size desc; ci_usage := usage |}
       ∈ trace st'
    /\ ReadBuffer bufferVK offset dataSize {| renderSystem := st'; calls := record |}
       = Returned tt s'
    /\ calls s'
       = record
         ++ [Base (EvCopyBuffer (Some buffer) (Some staging) dataSize (Some (offset, offset)));
             CallReadBuffer (Some staging) dataSize offset]
    /\ regions (deviceMemoryMngr_ (renderSystem s')) = regions (deviceMemoryMngr_ st')
    /\ buffers_ (renderSystem s') = buffers_ st'
    /\ (Z.land (buf_cpuAccessFlags desc) CPUAccessFlags_Write = 0 ->
        Z.land usage VK_BUFFER_USAGE_TRANSFER_DST_BIT = 0).
Proof.
  cbn zeta.
  destruct (CreateBuffer_returns desc initialData st Hassert)
    as (st' & Hrun & Htrace & Hlookup & _).
  cbn zeta in *. rewrite Hkeeps in Hlookup.
  eexists st', _, _. split; [exact Hrun|]. split; [exact Hlookup|].
  split.
  { rewrite Htrace. apply elem_of_app. right. apply elem_of_app. left.
    apply elem_of_cons. left. reflexivity. }
  unfold ReadBuffer, GetStagingVkBuffer, GetVkBuffer, GetStagingDeviceBuffer.
  cbn [bufferObj bufferObjStaging vkBuffer is_null negb].
  unfold lift, call, emit, modify, bind. cbn. rewrite drop_app_length. cbn.
  split; [reflexivity|]. cbn. rewrite <- app_assoc.
  split; [reflexivity|]. split; [reflexivity|]. split; [reflexivity|].
  intros Hwrite. unfold GetStagingVkBufferUsageFlags. rewrite Hwrite. reflexivity.
Qed.

End VKReadCreated.

(** ** Vulkan: instance layers, extensions and debug reports *)

Section VKInstanceTheory.
Import VK VKInstance.

(** A C string holds no NUL before its terminator. *)
Abbreviation nulFree name := (0 ∉ (name : CString)).

Lemma strcmp_eq (a b : CString) : nulFree a -> nulFree b -> (strcmp a b = 0 <-> a = b).
Proof.
  revert b. induction a as [|x a IH]; intros [|y b] Ha Hb; cbn.
  - tauto.
  - split; [|discriminate]. intros H. exfalso. apply Hb.
    replace y with 0 by lia. apply elem_of_cons. left. reflexivity.
  - split; [|discriminate]. intros ->. exfalso. apply Ha. apply elem_of_cons. left. reflexivity.
  - assert (Ha' : nulFree a) by (intros H; apply Ha, elem_of_cons; right; exact H).
    assert (Hb' : nulFree b) by (intros H; apply Hb, elem_of_cons; right; exact H).
    destruct (Z.eqb_spec x y) as [->|Hne].
    + rewrite (IH b Ha' Hb'). split; [intros ->; reflexivity|intros [= ->]; reflexivity].
    + split; [lia|intros [= -> _]; contradiction].
Qed.

Lemma IsLayerRequired_enabled_spec name layers :
  nulFree name -> (forall layer, layer ∈ layers -> nulFree layer) ->
  IsLayerRequired_enabled name layers = true <-> name ∈ layers.
Proof.
  intros Hname. induction layers as [|layer rest IH]; intros Hlayers; cbn.
  - rewrite elem_of_nil. split; [discriminate|tauto].
  - assert (Hlayer : nulFree layer) by (apply Hlayers, elem_of_cons; left; reflexivity).
    assert (Hrest : forall l, l ∈ rest -> nulFree l)
      by (intros l Hl; apply Hlayers, elem_of_cons; right; exact Hl).
    rewrite elem_of_cons.
    destruct (Z.eqb_spec (strcmp layer name) 0) as [Heq|Hne].
    + apply strcmp_eq in Heq; [|assumption..]. subst. tauto.
    + rewrite (IH Hrest). split; [tauto|].
      intros [->|Hin]; [|exact Hin]. exfalso. apply Hne. apply strcmp_eq; auto.
Qed.

Lemma IsLayerRequired_spec debug name config :
  nulFree name ->
  (forall cfg layer, config = Some cfg -> layer ∈ enabledLayers cfg -> nulFree layer) ->
  IsLayerRequired debug name config = true
  <-> (exists cfg, config = Some cfg /\ name ∈ enabledLayers cfg)
      \/ (debug = true /\ name = VK_LAYER_KHRONOS_VALIDATION_NAME).
Proof.
  intros Hname Hcfg. unfold IsLayerRequired.
  assert (Hkhr : (strcmp name VK_LAYER_KHRONOS_VALIDATION_NAME =? 0) = true
                 <-> name = VK_LAYER_KHRONOS_VALIDATION_NAME).
  { rewrite Z.eqb_eq. apply strcmp_eq; [exact Hname|].
    vm_compute. intros H. repeat (apply elem_of_cons in H as [H|H]; [discriminate H|]).
    apply elem_of_nil in H. exact H. }
  destruct config as [cfg|].
  - pose proof (IsLayerRequired_enabled_spec name (enabledLayers cfg) Hname
                  (fun layer => Hcfg cfg layer eq_refl)) as Hloop.
    destruct (IsLayerRequired_enabled name (enabledLayers cfg)).
    + split; [|reflexivity]. intros _. left. exists cfg. split; [reflexivity|].
      apply Hloop. reflexivity.
    + destruct debug; cbn [andb].
      * destruct (strcmp name VK_LAYER_KHRONOS_VALIDATION_NAME =? 0).
        -- split; [|reflexivity]. intros _. right. split; [reflexivity|]. apply Hkhr.
           reflexivity.
        -- split; [discriminate|].
           intros [(cfg' & [= <-] & Hin)|[_ Heq]].
           ++ apply Hloop in Hin. discriminate.
           ++ apply Hkhr in Heq. discriminate.
      * split; [discriminate|].
        intros [(cfg' & [= <-] & Hin)|[Hd _]]; [|discriminate].
        apply Hloop in Hin. discriminate.
  - destruct debug; cbn [andb].
    + destruct (strcmp name VK_LAYER_KHRONOS_VALIDATION_NAME =? 0).
      * split; [|reflexivity]. intros _. right. split; [reflexivity|]. apply Hkhr.
        reflexivity.
      * split; [discriminate|].
        intros [(cfg' & Hc & _)|[_ Heq]]; [discriminate|].
        apply Hkhr in Heq. discriminate.
    + split; [discriminate|].
      intros [(cfg' & Hc & _)|[Hd _]]; discriminate.
Qed.

(** X13. The layers [CreateInstance] enables are the layers the instance
    reports that the configuration names in [enabledLayers] or, when the
    debug layer is enabled, that are the Khronos validation layer; they are
    passed in the order the instance reports them.  A layer the configuration
    names but the instance does not report is left out without an error, and
    without a configuration and without the debug layer no layer is enabled.
    The layer count passed is the number of those layers, and the pointer to
    the names is null exactly when there is none. *)
Theorem VK_CreateInstance_enabled_layers
    (debugLayerEnabled_ : bool) (platform : Platform)
    (config : option RendererConfigurationVulkan)
    (layerProperties extensionProperties : list CString)
    (Hreported : forall name, name ∈ layerProperties -> nulFree name)
    (Hconfigured : forall cfg layer,
       config = Some cfg -> layer ∈ enabledLayers cfg -> nulFree layer) :
  let names := layerNames debugLayerEnabled_ config layerProperties in
  let info := instanceInfo debugLayerEnabled_ platform config
                layerProperties extensionProperties in
  (forall name,
     name ∈ names
     <-> name ∈ layerProperties
         /\ ((exists cfg, config = Some cfg /\ name ∈ enabledLayers cfg)
             \/ (debugLayerEnabled_ = true /\ name = VK_LAYER_KHRONOS_VALIDATION_NAME)))
  /\ sublist names layerProperties
  /\ (config = None -> debugLayerEnabled_ = false -> names = [])
  /\ enabledLayerCount info = uint32 (Z.of_nat (List.length names))
  /\ (ppEnabledLayerNames info = None <-> names = [])
  /\ (forall l, ppEnabledLayerNames info = Some l -> l = names).
Proof.
  cbn zeta. unfold layerNames, instanceInfo. cbn [enabledLayerCount ppEnabledLayerNames].
  unfold layerNames.
  assert (Hmem : forall name,
            name ∈ List.filter (fun prop => IsLayerRequired debugLayerEnabled_ prop config)
                     layerProperties
            <-> name ∈ layerProperties
                /\ ((exists cfg, config = Some cfg /\ name ∈ enabledLayers cfg)
                    \/ (debugLayerEnabled_ = true
                        /\ name = VK_LAYER_KHRONOS_VALIDATION_NAME))).
  { intros name. rewrite !list_elem_of_In, filter_In, <- !list_elem_of_In.
    split.
    - intros [Hin Hreq]. split; [exact Hin|].
      apply IsLayerRequired_spec in Hreq; auto.
    - intros [Hin Hreq]. split; [exact Hin|].
      apply IsLayerRequired_spec; auto. }
  split; [exact Hmem|]. split.
  { clear. induction layerProperties as [|prop rest IH]; cbn.
    - constructor.
    - destruct (IsLayerRequired debugLayerEnabled_ prop config).
      + apply sublist_skip. exact IH.
      + apply sublist_cons. exact IH. }
  split.
  { intros -> ->.
    destruct (List.filter _ layerProperties) as [|name rest] eqn:Hf; [reflexivity|].
    assert (Hin : name ∈ name :: rest) by (apply elem_of_cons; left; reflexivity).
    apply Hmem in Hin as [_ [(cfg & Hc & _)|[Hd _]]]; discriminate. }
  destruct (List.filter _ layerProperties) as [|name rest].
  - split; [reflexivity|]. split; [tauto|]. intros l. discriminate.
  - split; [reflexivity|]. split; [split; discriminate|]. intros l [= <-]. reflexivity.
Qed.

Lemma string_eq_spec (a b : CString) : string_eq a b = true <-> a = b.
Proof. unfold string_eq. apply bool_decide_eq_true. Qed.

(** X14. The instance extensions [CreateInstance] enables never depend on
    the configuration: they are the extensions the instance reports among
    the surface extension, the Win32 or Xlib surface extension of the
    platform the file is compiled for, and, only when the debug layer is
    enabled, the debug report extension, in the order the instance reports
    them.  The application information is passed exactly when there is a
    configuration, with the names and versions of the configuration and API
    version 1.0. *)
Theorem VK_CreateInstance_enabled_extensions
    (debugLayerEnabled_ : bool) (platform : Platform)
    (config : option RendererConfigurationVulkan)
    (layerProperties extensionProperties : list CString) :
  let names := extensionNames debugLayerEnabled_ platform extensionProperties in
  let info := instanceInfo debugLayerEnabled_ platform config
                layerProperties extensionProperties in
  (forall name,
     name ∈ names
     <-> name ∈ extensionProperties
         /\ (name = VK_KHR_SURFACE_EXTENSION_NAME
             \/ (platform = OS_WIN32 /\ name = VK_KHR_WIN32_SURFACE_EXTENSION_NAME)
             \/ (platform = OS_LINUX /\ name = VK_KHR_XLIB_SURFACE_EXTENSION_NAME)
             \/ (debugLayerEnabled_ = true /\ name = VK_EXT_DEBUG_REPORT_EXTENSION_NAME)))
  /\ sublist names extensionProperties
  /\ enabledExtensionCount info = uint32 (Z.of_nat (List.length names))
  /\ (ppEnabledExtensionNames info = None <-> names = [])
  /\ (forall l, ppEnabledExtensionNames info = Some l -> l = names)
  /\ pApplicationInfo info
     = match config with
       | Some cfg =>
           Some {| pApplicationName := applicationName (application cfg);
                   ai_applicationVersion := applicationVersion (application cfg);
                   pEngineName := engineName (application cfg);
                   ai_engineVersion := engineVersion (application cfg);
                   apiVersion := 4194304 |}
       | None => None
       end.
Proof.
  cbn zeta. unfold instanceInfo.
  cbn [enabledExtensionCount ppEnabledExtensionNames pApplicationInfo].
  unfold extensionNames.
  split.
  { intros name. rewrite !list_elem_of_In, filter_In, <- !list_elem_of_In.
    unfold IsExtensionRequired. rewrite !orb_true_iff, andb_true_iff.
    assert (Hw : match platform with
                 | OS_WIN32 => string_eq name VK_KHR_WIN32_SURFACE_EXTENSION_NAME
                 | _ => false
                 end = true
                 <-> platform = OS_WIN32 /\ name = VK_KHR_WIN32_SURFACE_EXTENSION_NAME).
    { destruct platform; rewrite ?string_eq_spec;
        split; try discriminate; intuition discriminate. }
    assert (Hl : match platform with
                 | OS_LINUX => string_eq name VK_KHR_XLIB_SURFACE_EXTENSION_NAME
                 | _ => false
                 end = true
                 <-> platform = OS_LINUX /\ name = VK_KHR_XLIB_SURFACE_EXTENSION_NAME).
    { destruct platform; rewrite ?string_eq_spec;
        split; try discriminate; intuition discriminate. }
    rewrite Hw, Hl, !string_eq_spec. tauto. }
  split.
  { clear. induction extensionProperties as [|prop rest IH]; cbn.
    - constructor.
    - destruct (IsExtensionRequired debugLayerEnabled_ platform prop).
      + apply sublist_skip. exact IH.
      + apply sublist_cons. exact IH. }
  destruct (List.filter _ extensionProperties) as [|name rest].
  - split; [reflexivity|]. split; [tauto|]. split; [intros l; discriminate|].
    destruct config; reflexivity.
  - split; [reflexivity|]. split; [split; discriminate|].
    split; [intros l [= <-]; reflexivity|]. destruct config; reflexivity.
Qed.

(** The flags that have no bit outside [debugReportFlags] are below 16. *)
Lemma subset_of_debugReportFlags flags :
  Z.land flags debugReportFlags = flags -> 0 <= flags < 16.
Proof.
  intros Hsub.
  assert (Hones : Z.land flags (Z.ones 4) = flags).
  { rewrite <- Hsub at 1. rewrite <- Z.land_assoc.
    replace (Z.land debugReportFlags (Z.ones 4)) with debugReportFlags by reflexivity.
    exact Hsub. }
  rewrite Z.land_ones in Hones by lia. rewrite <- Hones.
  apply Z.mod_pos_bound. reflexivity.
Qed.

(** X15. [ToReportType] classifies by the most severe bit: an error when the
    error bit is set, whatever else is; else a warning when the warning bit
    is set; else a performance report when that bit is set; else
    information.  For the flags [CreateDebugReportCallback] registers the
    callback with, warning and error, every report with a flag set is
    classified as an error or a warning; and [VKDebugCallback] posts the
    message under that type and always answers [VK_FALSE]. *)
Theorem VK_debug_report_classification (flags : Z) (message : CString) :
  (Z.land flags VK_DEBUG_REPORT_ERROR_BIT_EXT <> 0 -> ToReportType flags = Error)
  /\ (Z.land flags VK_DEBUG_REPORT_ERROR_BIT_EXT = 0 ->
      Z.land flags VK_DEBUG_REPORT_WARNING_BIT_EXT <> 0 -> ToReportType flags = Warning)
  /\ (Z.land flags VK_DEBUG_REPORT_ERROR_BIT_EXT = 0 ->
      Z.land flags VK_DEBUG_REPORT_WARNING_BIT_EXT = 0 ->
      ToReportType flags
      = if Z.land flags VK_DEBUG_REPORT_PERFORMANCE_WARNING_BIT_EXT =? 0
        then Information else Performance)
  /\ debugReportFlags = 10
  /\ (Z.land flags debugReportFlags = flags -> flags <> 0 ->
      ToReportType flags = Error \/ ToReportType flags = Warning)
  /\ reportType (fst (VKDebugCallback flags message)) = ToReportType flags
  /\ reportMessage (fst (VKDebugCallback flags message)) = message
  /\ snd (VKDebugCallback flags message) = VK_FALSE.
Proof.
  unfold ToReportType.
  split; [intros H; apply Z.eqb_neq in H; rewrite H; reflexivity|].
  split; [intros H H'; apply Z.eqb_neq in H'; rewrite H, H'; reflexivity|].
  split; [intros H H'; rewrite H, H'; cbn; destruct (_ =? 0); reflexivity|].
  split; [reflexivity|].
  split; [|repeat split; reflexivity].
  intros Hsub Hne. pose proof (subset_of_debugReportFlags flags Hsub) as Hrange.
  assert (Hcases : flags = 0 \/ flags = 1 \/ flags = 2 \/ flags = 3 \/ flags = 4
                   \/ flags = 5 \/ flags = 6 \/ flags = 7 \/ flags = 8 \/ flags = 9
                   \/ flags = 10 \/ flags = 11 \/ flags = 12 \/ flags = 13
                   \/ flags = 14 \/ flags = 15) by lia.
  repeat (destruct Hcases as [->|Hcases]; [vm_compute in Hsub; try discriminate Hsub;
                                           try contradiction; vm_compute; auto|]).
  subst flags. vm_compute in Hsub. discriminate Hsub.
Qed.

End VKInstanceTheory.

(** ** The further properties on concrete inputs *)

Section MoreInstances.

(** X3 on a 2D texture and a region of 2x1 texels at (1, 1) over two
    layers. *)
Lemma D3D11_WriteTexture_box_in_range_witness :
  exists dstBox,
    @D3D11.WriteTexture Sample2.d3dTexture2D Sample2.region2x1 Sample.rgbaTexel
      Sample.d3dSystem
    = Returned tt
        (D3D11.afterCalls Sample.d3dSystem
           [D3D11.EvTextureUpdateSubresource 1%positive 0 0 dstBox Sample.rgbaTexel])
    /\ dstBox
       = {| D3D11.left := 1; D3D11.top := 1; D3D11.front := 0;
            D3D11.right := 3; D3D11.bottom := 2; D3D11.back := 2 |}.
Proof.
  assert (Hpos : 0 <= 1) by discriminate.
  assert (Hzero : 0 <= 0) by discriminate.
  assert (Hpos2 : 0 <= 2) by discriminate.
  assert (H3 : 1 + 2 < 2 ^ 31) by reflexivity.
  assert (H2 : 1 + 1 < 2 ^ 31) by reflexivity.
  assert (H1 : 0 + 1 < 2 ^ 31) by reflexivity.
  assert (Hlayers : 0 <= 2 < 2 ^ 31) by (split; [discriminate|reflexivity]).
  destruct (D3D11_WriteTexture_box_in_range Sample2.d3dTexture2D Sample2.region2x1
              Sample.rgbaTexel Sample.d3dSystem eq_refl
              Hpos Hpos Hzero Hpos2 Hpos Hpos H3 H2 H1 Hlayers)
    as (arrayLayer & dstBox & Hrun & Hl & Hr & Hl' & Ht & Hb & Hf & Hk).
  vm_compute in Hl, Hr, Hl', Ht, Hb, Hf, Hk. subst arrayLayer.
  exists dstBox. split; [exact Hrun|].
  destruct dstBox as [l t f r b k].
  change (l = 1) in Hl. change (r = 3) in Hr. change (t = 1) in Ht.
  change (b = 2) in Hb. change (f = 0) in Hf. change (k = 2) in Hk.
  subst. reflexivity.
Defined.

(** X5 on a 2x2 texture with the [NoInitialData] flag (8) set. *)
Lemma D3D11_CreateTexture_uninitialized_witness :
  Z.land (tex_miscFlags (Sample.texture2x2 Texture2D 8))
    (@MiscFlags_NoInitialData Sample.externals) <> 0
  /\ D3D11.trace
       match @D3D11.CreateTexture Sample.externals (Sample.texture2x2 Texture2D 8) None
               Sample.d3dSystem with
       | Returned _ st' => st'
       | _ => Sample.d3dSystem
       end
     = [D3D11.EvCreateTexture 1%positive (Sample.texture2x2 Texture2D 8)].
Proof.
  assert (Hflag : Z.land (tex_miscFlags (Sample.texture2x2 Texture2D 8))
                    (@MiscFlags_NoInitialData Sample.externals) <> 0) by discriminate.
  split; [exact Hflag|].
  rewrite (@D3D11_CreateTexture_uninitialized Sample.externals
             (Sample.texture2x2 Texture2D 8) Sample.d3dSystem (or_introl Hflag)).
  reflexivity.
Defined.

(** X6 on a newly constructed render system after the creation of a buffer
    the CPU writes, the creation of a texture with image data, a write to
    the buffer and a write to the texture: the regions still leased are the
    buffer's two regions and the texture's region. *)
Lemma VK_no_region_is_leaked_witness :
  exists st,
    @VK.performAll Sample.externals
      [VK.CallCreateBuffer Sample.cpuWritableBuffer None;
       VK.CallCreateTexture (Sample.texture2x2 Texture2D 0) (Some (Sample.rgbaImage2x2 16));
       VK.CallWriteBuffer 3%positive 0 (Some [1; 2]) 2;
       VK.CallWriteTexture 7%positive Sample.oneTexel Sample.rgbaTexel]
      (VK.construct None) = Some st
    /\ forall r : positive,
         r ∈ VK.regions (VK.deviceMemoryMngr_ st) -> @VKAccounting.Owned st r.
Proof.
  assert (Hcalls : exists st,
            @VK.performAll Sample.externals
              [VK.CallCreateBuffer Sample.cpuWritableBuffer None;
               VK.CallCreateTexture (Sample.texture2x2 Texture2D 0)
                 (Some (Sample.rgbaImage2x2 16));
               VK.CallWriteBuffer 3%positive 0 (Some [1; 2]) 2;
               VK.CallWriteTexture 7%positive Sample.oneTexel Sample.rgbaTexel]
              (VK.construct None) = Some st)
    by (eexists; vm_compute; reflexivity).
  destruct Hcalls as (st & Hcalls).
  exists st. split; [exact Hcalls|].
  exact (@VK_no_region_is_leaked Sample.externals None _ st Hcalls).
Defined.

(** X9 on a buffer the CPU writes, created in a newly constructed render
    system: its release gives back the primary region 4 and the staging
    region 2. *)
Lemma VK_CreateBuffer_Release_round_trip_witness :
  exists st' st'',
    @VK.CreateBuffer Sample.externals Sample.cpuWritableBuffer None (VK.construct None)
    = Returned 3%positive st'
    /\ VK.ReleaseBuffer 3%positive st' = Returned tt st''
    /\ VK.regions (VK.deviceMemoryMngr_ st'') = ∅
    /\ VK.buffers_ st'' = ∅
    /\ VK.trace st'' = VK.trace st' ++ [VK.EvRelease 4%positive; VK.EvRelease 2%positive].
Proof.
  assert (Hcreate : exists st',
            @VK.CreateBuffer Sample.externals Sample.cpuWritableBuffer None (VK.construct None)
            = Returned 3%positive st')
    by (eexists; vm_compute; reflexivity).
  destruct Hcreate as (st' & Hcreate).
  destruct (@VK_CreateBuffer_Release_round_trip Sample.externals Sample.cpuWritableBuffer None
              (VK.construct None) st' 3%positive (WellFormed_construct None) Hcreate)
    as (st'' & Hrelease & Hregions & Hbuffers & _ & released & Htrace & ->).
  exists st', st''. split; [exact Hcreate|]. split; [exact Hrelease|].
  split; [exact Hregions|]. split; [exact Hbuffers|]. exact Htrace.
Defined.

(** X10 on a 2x2 texture with image data, created in a newly constructed
    render system. *)
Lemma VK_CreateTexture_Release_round_trip_witness :
  exists st' st'',
    @VK.CreateTexture Sample.externals (Sample.texture2x2 Texture2D 0)
      (Some (Sample.rgbaImage2x2 16)) (VK.construct None)
    = Returned 3%positive st'
    /\ @VKReadback.ReleaseTexture 3%positive st' = Returned tt st''
    /\ VK.trace st'' = VK.trace st' ++ [VK.EvRelease 4%positive]
    /\ VK.regions (VK.deviceMemoryMngr_ st'') = ∅
    /\ VK.textures_ st'' = ∅.
Proof.
  assert (Hcreate : exists st',
            @VK.CreateTexture Sample.externals (Sample.texture2x2 Texture2D 0)
              (Some (Sample.rgbaImage2x2 16)) (VK.construct None)
            = Returned 3%positive st')
    by (eexists; vm_compute; reflexivity).
  destruct Hcreate as (st' & Hcreate).
  destruct (@VK_CreateTexture_Release_round_trip Sample.externals
              (Sample.texture2x2 Texture2D 0) (Some (Sample.rgbaImage2x2 16))
              (VK.construct None) st' 3%positive (Accounted_construct None) Hcreate)
    as (st'' & Hrelease & Htrace & Hregions & Htextures & _).
  exists st', st''. split; [exact Hcreate|]. split; [exact Hrelease|].
  split; [exact Htrace|]. split; [exact Hregions|exact Htextures].
Defined.

(** X13 with the debug layer enabled, on an instance that reports the
    Khronos validation layer and the API-dump layer, and a configuration
    that names the API-dump layer and a layer the instance does not report:
    both reported layers are enabled, the other one is not. *)
Lemma VK_CreateInstance_enabled_layers_witness :
  VKInstance.layerNames true (Some Sample2.config) Sample2.reportedLayers
  = [VKInstance.VK_LAYER_KHRONOS_VALIDATION_NAME; Sample2.apiDump]
  /\ (Sample2.unknownLayer
      ∉ VKInstance.layerNames true (Some Sample2.config) Sample2.reportedLayers)
  /\ VKInstance.enabledLayerCount
       (VKInstance.instanceInfo true VKInstance.OS_LINUX (Some Sample2.config)
          Sample2.reportedLayers [])
     = 2.
Proof.
  assert (Hreported : forall name : VKInstance.CString,
            name ∈ Sample2.reportedLayers -> 0 ∉ name).
  { intros name Hin. apply list_elem_of_In in Hin.
    destruct Hin as [<-|[<-|[]]];
      (rewrite list_elem_of_In; vm_compute; intros H;
       repeat (destruct H as [H|H]; [discriminate H|]); exact H). }
  assert (Hconfigured : forall cfg (layer : VKInstance.CString),
            Some Sample2.config = Some cfg -> layer ∈ VK.enabledLayers cfg -> 0 ∉ layer).
  { intros cfg layer [= <-] Hin. apply list_elem_of_In in Hin.
    destruct Hin as [<-|[<-|[]]];
      (rewrite list_elem_of_In; vm_compute; intros H;
       repeat (destruct H as [H|H]; [discriminate H|]); exact H). }
  destruct (VK_CreateInstance_enabled_layers true VKInstance.OS_LINUX (Some Sample2.config)
              Sample2.reportedLayers [] Hreported Hconfigured)
    as (Hmem & _ & _ & Hcount & _).
  split; [vm_compute; reflexivity|].
  split; [|rewrite Hcount; vm_compute; reflexivity].
  intros Hin. apply Hmem in Hin as [Hin _]. apply list_elem_of_In in Hin.
  destruct Hin as [Heq|[Heq|[]]]; vm_compute in Heq; discriminate Heq.
Defined.

(** X12 on a buffer the CPU only reads, created in a newly constructed
    render system: the staging buffer 1 is created with the usage
    transfer-source (1) alone, and the read of 8 bytes at offset 4 copies
    into it. *)
Lemma VK_ReadBuffer_of_created_buffer_witness :
  exists st' bufferVK s',
    @VK.CreateBuffer Sample.externals Sample2.cpuReadableBuffer None (VK.construct None)
    = Returned 3%positive st'
    /\ VK.buffers_ st' !! 3%positive = Some bufferVK
    /\ VK.EvCreateDeviceBuffer 1%positive {| VK.ci_size := 16; VK.ci_usage := 1 |}
       ∈ VK.trace st'
    /\ @VKReadback.ReadBuffer bufferVK 4 8
         {| VKReadback.renderSystem := st'; VKReadback.calls := [] |}
       = Returned tt s'
    /\ VKReadback.calls s'
       = [VKReadback.Base
            (VK.EvCopyBuffer (Some 3%positive) (Some 1%positive) 8 (Some (4, 4)));
          VKReadback.CallReadBuffer (Some 1%positive) 8 4].
Proof.
  destruct (@VK_ReadBuffer_of_created_buffer Sample.externals Sample2.cpuReadableBuffer None
              (VK.construct None) 4 8 [] eq_refl eq_refl)
    as (st' & bufferVK & s' & Hrun & Hlookup & Hcreated & Hread & Hcalls & _).
  exists st', bufferVK, s'. split; [exact Hrun|]. split; [exact Hlookup|].
  split; [exact Hcreated|]. split; [exact Hread|exact Hcalls].
Defined.

(** X17 in a debug build with feature level 3 enabled, on a machine whose
    hardware driver fails with the debug layer and whose device answers the
    query for [ID3D11Device2] only: the WARP device with the debug layer is
    taken, and the minor version is 2. *)
Lemma D3D11_minor_version_is_highest_interface_witness :
  exists d,
    D3D11Setup.CreateDevice true 3 Sample2.createDevice Sample2.queryInterface
      D3D11Device.FAILED D3D11Setup.noDevices
    = D3D11Setup.DeviceCreated d
    /\ D3D11Setup.createCalls d
       = [(D3D11Setup.D3D_DRIVER_TYPE_HARDWARE, 2); (D3D11Setup.D3D_DRIVER_TYPE_WARP, 2)]
    /\ D3D11Setup.GetMinorVersion 3 d = 2
    /\ D3D11Setup.queryCalls d = [3; 2]
    /\ D3D11Setup.CreatePipelineState 3 d = (D3D11Setup.D3D11GraphicsPSO1, 2)
    /\ D3D11Setup.hasConservativeRasterization 3 d = false.
Proof.
  assert (Hcom : forall n,
            snd (Sample2.queryInterface n)
            = D3D11Device.SUCCEEDED (fst (Sample2.queryInterface n))).
  { intros n. unfold Sample2.queryInterface. destruct (n =? 2); reflexivity. }
  assert (Hcreated : exists d,
            D3D11Setup.CreateDevice true 3 Sample2.createDevice Sample2.queryInterface
              D3D11Device.FAILED D3D11Setup.noDevices
            = D3D11Setup.DeviceCreated d)
    by (eexists; vm_compute; reflexivity).
  destruct Hcreated as (d & Hcreated).
  pose proof Hcreated as Hd. vm_compute in Hd. injection Hd as <-.
  destruct (D3D11_minor_version_is_highest_interface true 3 Sample2.createDevice
              Sample2.queryInterface D3D11Device.FAILED _ Hcom Hcreated)
    as (_ & _ & _ & Hqueried & Hpso & Hconservative).
  eexists. split; [exact Hcreated|]. split; [reflexivity|]. split; [reflexivity|].
  split; [exact Hqueried|]. split; [exact Hpso|exact Hconservative].
Defined.

End MoreInstances.
